(** * ISTVON prompt engine: Mapper, Validator and Builder

    A shallow embedding of [prompt_processor/services.py] and
    [prompt_processor/validators.py], with the methods of the stored
    conversion ([models.py]) and the schema helpers
    ([schemas/__init__.py]), and what holds of them.

    - Text is Rocq's [string]; a character is read as the code point of the
      same number, so the text covered is that of code points below 256.
      On it [isspace], the class [\s], [split], [strip], the class [\d]
      and [lower] are Python's; [upper] is Python's except at the three
      characters whose capital is not one character below 256
      ([Py.upper_fits]).
    - A [dict] is an association list in insertion order.
    - [re] and [jsonschema] are external packages; the fragments the code
      uses are modelled in [Re] and [JsonSchema].
    - The order in which a [set] is iterated is a parameter ([set_order]).
    - The schema file is a parameter of the Validator; [istvon_schema]
      follows its description.
    - The Builder's lists and dicts live in a store, its methods are
      computations in the monad [M] of store-passing with exceptions. *)

From Stdlib Require Import String Ascii List ZArith Lia Bool Permutation.
From stdpp Require Import base list strings.

Open Scope string_scope.

#[local] Set Warnings "-register-all".

(** ** Python [str] primitives *)

Module Py.

(** [c.isspace()], which is also what [split] and [strip] go by and the
    regular-expression class [\s]: below 256 these are the characters
    9-13, 28-32, 133 (next line) and 160 (no-break space). *)
Definition isspace (c : ascii) : bool :=
  let n := nat_of_ascii c in
  (((9 <=? n) && (n <=? 13)) || ((28 <=? n) && (n <=? 32))
   || (n =? 133) || (n =? 160))%nat.

(** The class [\d], the decimal digits: below 256 these are 48-57. *)
Definition isdigit (c : ascii) : bool :=
  let n := nat_of_ascii c in ((48 <=? n) && (n <=? 57))%nat.

(** [c.lower()]: below 256 the capitals are 65-90 and 192-222 without the
    multiplication sign 215, each 32 below its small letter. *)
Definition lower_char (c : ascii) : ascii :=
  let n := nat_of_ascii c in
  if (((65 <=? n) && (n <=? 90))
      || ((192 <=? n) && (n <=? 222) && negb (n =? 215)))%nat
  then ascii_of_nat (n + 32) else c.

(** [c.upper()] is one character below 256 again.  It is not for 223
    (sharp s, whose capital is "SS"), 181 (micro sign, U+039C) and 255
    (y with diaeresis, U+0178). *)
Definition upper_fits (c : ascii) : bool :=
  let n := nat_of_ascii c in
  negb ((n =? 181) || (n =? 223) || (n =? 255))%nat.

(** [c.upper()] where [upper_fits]: the small letters are 97-122 and
    224-254 without the division sign 247.  The three characters that do
    not fit are left as they are, which is not what Python returns. *)
Definition upper_char (c : ascii) : ascii :=
  let n := nat_of_ascii c in
  if (((97 <=? n) && (n <=? 122))
      || ((224 <=? n) && (n <=? 254) && negb (n =? 247)))%nat
  then ascii_of_nat (n - 32) else c.

(** [s.lower()] *)
Fixpoint lower (s : string) : string :=
  match s with
  | EmptyString => EmptyString
  | String c t => String (lower_char c) (lower t)
  end.

(** [s.startswith(p)] *)
Fixpoint startswith (p s : string) : bool :=
  match p, s with
  | EmptyString, _ => true
  | String a p', String b s' => Ascii.eqb a b && startswith p' s'
  | String _ _, EmptyString => false
  end.

(** [needle in hay] on strings: substring search. *)
Fixpoint contains (needle hay : string) : bool :=
  match hay with
  | EmptyString => startswith needle EmptyString
  | String _ t => startswith needle hay || contains needle t
  end.

(** [any(word in s for word in words)] *)
Definition any_in (words : list string) (s : string) : bool :=
  existsb (fun w => contains w s) words.

(** [s[n:]] *)
Fixpoint drop (n : nat) (s : string) : string :=
  match n, s with
  | O, _ => s
  | S _, EmptyString => EmptyString
  | S n', String _ t => drop n' t
  end.

(** [s[:n]] *)
Fixpoint take (n : nat) (s : string) : string :=
  match n, s with
  | O, _ => EmptyString
  | S _, EmptyString => EmptyString
  | S n', String c t => String c (take n' t)
  end.

Fixpoint lstrip (s : string) : string :=
  match s with
  | EmptyString => EmptyString
  | String c t => if isspace c then lstrip t else s
  end.

Fixpoint rstrip (s : string) : string :=
  match s with
  | EmptyString => EmptyString
  | String c t =>
      match rstrip t with
      | EmptyString => if isspace c then EmptyString else String c EmptyString
      | t' => String c t'
      end
  end.

(** [s.strip()] *)
Definition strip (s : string) : string := rstrip (lstrip s).

(** [s.split()]: the maximal runs of non-whitespace characters.  [cur] is
    the word being read, [None] between words. *)
Fixpoint split_from (cur : option string) (s : string) : list string :=
  match s with
  | EmptyString => match cur with Some w => [w] | None => [] end
  | String c t =>
      if isspace c then
        match cur with
        | Some w => w :: split_from None t
        | None => split_from None t
        end
      else
        split_from
          (Some (match cur with Some w => w | None => EmptyString end
                 ++ String c EmptyString)) t
  end.

Definition split (s : string) : list string := split_from None s.

(** [sep.join(words)] *)
Fixpoint join (sep : string) (words : list string) : string :=
  match words with
  | [] => EmptyString
  | [w] => w
  | w :: ws => w ++ sep ++ join sep ws
  end.

(** [words[i:j]] *)
Definition slice {A} (i j : nat) (l : list A) : list A :=
  firstn (j - i) (skipn i l).

(** [s[0].upper() + s[1:]], for [s] empty or starting with a character
    whose capital fits ([upper_fits]). *)
Definition capitalize_first (s : string) : string :=
  match s with
  | EmptyString => EmptyString
  | String c t => String (upper_char c) t
  end.

(** A [set] of strings filled by [add]: the members in insertion order.
    The order in which a [for] loop visits them is not fixed by the
    language: it follows the hashes of the members, which CPython salts
    per process.  The loop order is therefore a parameter of every
    function that iterates a set (see [set_order]). *)
Definition set_add (x : string) (s : list string) : list string :=
  if existsb (String.eqb x) s then s else s ++ [x].

End Py.

(** An iteration order for sets: it visits exactly the members. *)
Definition set_order : Type := list string -> list string.

Definition visits_members (order : set_order) : Prop :=
  forall s, Permutation (order s) s.

(** ** The fragment of Python's [re] used by the Mapper

    A backtracking matcher in continuation-passing style: alternatives are
    tried left to right, repetitions are greedy, and [search] returns the
    leftmost match.  Repetition is only over character classes, as in the
    source's patterns. *)

Module Re.

Inductive regex : Type :=
| Lit (s : string)              (* literal text *)
| Plus (cls : ascii -> bool)    (* [cls+] *)
| Star (cls : ascii -> bool)    (* [cls*] *)
| Opt (r : regex)               (* [r?] *)
| Alt (r1 r2 : regex)           (* [r1|r2] *)
| Seq (r1 r2 : regex)
| Group (n : nat) (r : regex).  (* capture group number [n] *)

Definition captures : Type := list (nat * string).

Definition group (n : nat) (caps : captures) : string :=
  match find (fun p => Nat.eqb (fst p) n) caps with
  | Some p => snd p
  | None => EmptyString
  end.

(** Literal match; with [ic] (the flag [re.IGNORECASE]) letters are
    compared after lower-casing. *)
Fixpoint lit_match (ic : bool) (p s : string) : option string :=
  match p, s with
  | EmptyString, _ => Some s
  | String a p', String b s' =>
      if (if ic then Ascii.eqb (Py.lower_char a) (Py.lower_char b)
          else Ascii.eqb a b)
      then lit_match ic p' s' else None
  | String _ _, EmptyString => None
  end.

(** Greedy [cls*]: take the longest run, give characters back on failure. *)
Fixpoint many {A} (cls : ascii -> bool) (s : string)
    (k : string -> option A) : option A :=
  match s with
  | EmptyString => k EmptyString
  | String c t =>
      if cls c then
        match many cls t k with
        | Some r => Some r
        | None => k s
        end
      else k s
  end.

Fixpoint rmatch {A} (ic : bool) (r : regex) (s : string) (caps : captures)
    (k : string -> captures -> option A) : option A :=
  match r with
  | Lit p =>
      match lit_match ic p s with
      | Some s' => k s' caps
      | None => None
      end
  | Plus cls =>
      match s with
      | String c t => if cls c then many cls t (fun s' => k s' caps) else None
      | EmptyString => None
      end
  | Star cls => many cls s (fun s' => k s' caps)
  | Opt r1 =>
      match rmatch ic r1 s caps k with
      | Some x => Some x
      | None => k s caps
      end
  | Alt r1 r2 =>
      match rmatch ic r1 s caps k with
      | Some x => Some x
      | None => rmatch ic r2 s caps k
      end
  | Seq r1 r2 => rmatch ic r1 s caps (fun s' caps' => rmatch ic r2 s' caps' k)
  | Group n r1 =>
      rmatch ic r1 s caps
        (fun s' caps' =>
           k s' ((n, Py.take (String.length s - String.length s') s) :: caps'))
  end.

(** [re.match(r, s)]: the captures and the text left after the match. *)
Definition match_here (ic : bool) (r : regex) (s : string)
    : option (captures * string) :=
  rmatch ic r s [] (fun s' caps => Some (caps, s')).

(** [re.search(r, s)]: the captures of the leftmost match. *)
Fixpoint search (ic : bool) (r : regex) (s : string) : option captures :=
  match match_here ic r s with
  | Some (caps, _) => Some caps
  | None =>
      match s with
      | EmptyString => None
      | String _ t => search ic r t
      end
  end.

(** [re.sub('^' + r, '', s)] for an [r] that matches no empty text: the
    anchor allows a match at position 0 only. *)
Definition sub_prefix (ic : bool) (r : regex) (s : string) : string :=
  match match_here ic r s with
  | Some (_, rest) => rest
  | None => s
  end.

End Re.

(** ** JSON values

    A Python [dict] keeps its keys in insertion order; it is an association
    list here, read by its first binding of a key. *)

Inductive json : Type :=
| JNull
| JBool (b : bool)
| JNum (z : Z)
| JStr (s : string)
| JArr (items : list json)
| JObj (fields : list (string * json)).

Definition dict (V : Type) : Type := list (string * V).

(** [d.get(k)] *)
Fixpoint dict_get {V} (k : string) (d : dict V) : option V :=
  match d with
  | [] => None
  | (k', v) :: d' => if String.eqb k k' then Some v else dict_get k d'
  end.

(** [k in d] *)
Definition dict_has {V} (k : string) (d : dict V) : bool :=
  match dict_get k d with Some _ => true | None => false end.

(** [d[k] = v]: an existing key keeps its place, a new one goes last. *)
Fixpoint dict_set {V} (k : string) (v : V) (d : dict V) : dict V :=
  match d with
  | [] => [(k, v)]
  | (k', v') :: d' =>
      if String.eqb k k' then (k, v) :: d' else (k', v') :: dict_set k v d'
  end.

(** [d.update(other)] *)
Definition dict_update {V} (other d : dict V) : dict V :=
  fold_left (fun acc kv => dict_set (fst kv) (snd kv) acc) other d.

(** ** The Mapper ([services.py]) *)

Module ISTVONMapper.

Definition action_keywords : dict string :=
  [ ("write", "text_generation");
    ("create", "text_generation");
    ("generate", "text_generation");
    ("analyze", "data_analysis");
    ("search", "web_search");
    ("summarize", "summarization");
    ("translate", "translation");
    ("code", "code_generation") ].

Definition output_formats : dict string :=
  [ ("blog post", "markdown");
    ("blog", "markdown");
    ("report", "pdf");
    ("email", "plain_text");
    ("presentation", "html");
    ("document", "docx");
    ("analysis", "pdf");
    ("summary", "plain_text") ].

Definition tone_indicators : dict string :=
  [ ("professional", "professional");
    ("casual", "casual");
    ("formal", "formal");
    ("friendly", "friendly");
    ("technical", "technical") ].

(** [(please|can you|could you|i want you to|i need you to)\s*] *)
Definition politeness_re : Re.regex :=
  Re.Seq
    (Re.Group 1
       (Re.Alt (Re.Lit "please")
       (Re.Alt (Re.Lit "can you")
       (Re.Alt (Re.Lit "could you")
       (Re.Alt (Re.Lit "i want you to") (Re.Lit "i need you to"))))))
    (Re.Star Py.isspace).

Definition _extract_instructions (prompt : string) : string :=
  let cleaned := Re.sub_prefix true politeness_re prompt in
  let cleaned :=
    match cleaned with
    | EmptyString => cleaned
    | _ => Py.capitalize_first cleaned
    end in
  match cleaned with
  | EmptyString => prompt
  | _ => cleaned
  end.

Definition source_item (type source description : string) : json :=
  JObj [ ("type", JStr type); ("source", JStr source);
         ("description", JStr description) ].

Definition _extract_source_data (prompt : string) : list json :=
  if Py.any_in ["research"; "data"; "file"; "document"] prompt then
    [ source_item "knowledge_base" "research_data"
        "Referenced research or data sources" ]
  else if Py.any_in ["company"; "organization"; "internal"] prompt then
    [ source_item "knowledge_base" "company_guidelines"
        "Company or organizational information" ]
  else
    [ source_item "none" "general_knowledge" "General knowledge base" ].

(** The first loop of [_extract_tools]: the set [found_tools]. *)
Definition found_tools (prompt : string) : list string :=
  fold_left
    (fun found kt => if Py.contains (fst kt) prompt
                     then Py.set_add (snd kt) found else found)
    action_keywords [].

Definition _extract_tools (order : set_order) (prompt : string) : list json :=
  let tools :=
    map (fun tool => JObj [("name", JStr tool)]) (order (found_tools prompt)) in
  match tools with
  | [] => [JObj [("name", JStr "text_generation")]]
  | _ => tools
  end.

(** The class [[^,.\n!?]]. *)
Definition clause_char (c : ascii) : bool :=
  negb (existsb (Ascii.eqb c) [","; "."; "010"; "!"; "?"]%char).

(** [<word>\s+([^,.\n!?]+)] *)
Definition clause_after (word : string) : Re.regex :=
  Re.Seq (Re.Lit word)
    (Re.Seq (Re.Plus Py.isspace) (Re.Group 1 (Re.Plus clause_char))).

(** [(\d+)\s*(words?|pages?|paragraphs?)] *)
Definition length_re : Re.regex :=
  Re.Seq (Re.Group 1 (Re.Plus Py.isdigit))
    (Re.Seq (Re.Star Py.isspace)
       (Re.Group 2
          (Re.Alt (Re.Seq (Re.Lit "word") (Re.Opt (Re.Lit "s")))
          (Re.Alt (Re.Seq (Re.Lit "page") (Re.Opt (Re.Lit "s")))
                  (Re.Seq (Re.Lit "paragraph") (Re.Opt (Re.Lit "s"))))))).

(** The [for ... else] loop over a keyword table: the value of the first
    key found in the text. *)
Fixpoint first_keyword (table : dict string) (text : string) : option string :=
  match table with
  | [] => None
  | (key, val) :: rest =>
      if Py.contains key text then Some val else first_keyword rest text
  end.

Definition _extract_variables (prompt : string) : dict json :=
  let variables : dict json := [] in
  let variables :=
    match Re.search true (clause_after "about") prompt with
    | Some m => dict_set "topic" (JStr (Py.strip (Re.group 1 m))) variables
    | None =>
        let words := Py.split prompt in
        if (3 <? List.length words)%nat
        then dict_set "topic" (JStr (Py.join " " (Py.slice 1 4 words))) variables
        else variables
    end in
  let variables :=
    match first_keyword tone_indicators (Py.lower prompt) with
    | Some tone => dict_set "tone" (JStr tone) variables
    | None => dict_set "tone" (JStr "professional") variables
    end in
  let variables :=
    match Re.search false length_re (Py.lower prompt) with
    | Some m =>
        dict_set "length" (JStr (Re.group 1 m ++ " " ++ Re.group 2 m)) variables
    | None => variables
    end in
  let variables :=
    match Re.search true (clause_after "for") prompt with
    | Some m =>
        dict_set "target_audience" (JStr (Py.strip (Re.group 1 m))) variables
    | None => variables
    end in
  let variables := dict_set "priority" (JStr "medium") variables in
  let variables := dict_set "language" (JStr "en") variables in
  variables.

Definition _extract_outcome (prompt : string) : dict json :=
  let outcome : dict json :=
    [("format", JStr "plain_text"); ("delivery", JStr "display")] in
  let outcome :=
    match first_keyword output_formats prompt with
    | Some format_type => dict_set "format" (JStr format_type) outcome
    | None => outcome
    end in
  if Py.any_in ["save"; "export"; "download"; "file"] prompt
  then dict_set "delivery" (JStr "save_to_file") outcome
  else outcome.

Definition _extract_notification (prompt : string) : dict json :=
  let notification : dict json :=
    [("method", JStr "none"); ("trigger", JStr "on_completion")] in
  if Py.contains "email" prompt || Py.contains "notify" prompt then
    dict_set "method" (JStr "email") notification
  else if Py.contains "alert" prompt || Py.contains "ping" prompt then
    dict_set "method" (JStr "in_app") notification
  else notification.

Definition convert_to_istvon (order : set_order) (original_prompt : string)
    : dict json :=
  let prompt_lower := Py.lower original_prompt in
  let instructions := _extract_instructions original_prompt in
  let source_data := _extract_source_data prompt_lower in
  let tools := _extract_tools order prompt_lower in
  let variables := _extract_variables original_prompt in
  let outcome := _extract_outcome prompt_lower in
  let notification := _extract_notification prompt_lower in
  [ ("instructions", JStr instructions);
    ("source_data", JArr source_data);
    ("tools", JArr tools);
    ("variables", JObj variables);
    ("outcome", JObj outcome);
    ("notification", JObj notification) ].

End ISTVONMapper.

(** ** The fragment of JSON Schema used by the Validator

    The keywords [type], [enum], [required], [properties] and [items], with
    the meaning the [jsonschema] package gives them. *)

Module JsonSchema.

Inductive jtype : Type :=
| TNull | TBoolean | TNumber | TString | TArray | TObject.

Inductive schema : Type :=
| Schema (type : option jtype) (enum : option (list json))
         (required : list string) (properties : dict schema)
         (items : option schema).

Definition type (s : schema) := let 'Schema t _ _ _ _ := s in t.
Definition enum (s : schema) := let 'Schema _ e _ _ _ := s in e.
Definition required (s : schema) := let 'Schema _ _ r _ _ := s in r.
Definition properties (s : schema) := let 'Schema _ _ _ p _ := s in p.
Definition items (s : schema) := let 'Schema _ _ _ _ i := s in i.

Inductive path_elem : Type :=
| Key (k : string)
| Index (i : nat).

(** The three messages the keywords above produce. *)
Inductive message : Type :=
| NotOfType (instance : json) (t : jtype)
| NotOneOf (instance : json) (allowed : list json)
| RequiredProperty (k : string).

Record ValidationError : Type :=
  { path : list path_elem; error_message : message }.

Definition is_type (t : jtype) (instance : json) : bool :=
  match t, instance with
  | TNull, JNull | TBoolean, JBool _ | TNumber, JNum _
  | TString, JStr _ | TArray, JArr _ | TObject, JObj _ => true
  | _, _ => false
  end.

(** Python's [==] on JSON values: lists compare in order, dicts by key. *)
Fixpoint json_eqb (a b : json) : bool :=
  match a, b with
  | JNull, JNull => true
  | JBool x, JBool y => Bool.eqb x y
  | JNum x, JNum y => Z.eqb x y
  | JStr x, JStr y => String.eqb x y
  | JArr xs, JArr ys =>
      (fix all2 (xs ys : list json) : bool :=
         match xs, ys with
         | [], [] => true
         | x :: xs', y :: ys' => json_eqb x y && all2 xs' ys'
         | _, _ => false
         end) xs ys
  | JObj xs, JObj ys =>
      Nat.eqb (List.length xs) (List.length ys) &&
      (fix sub (xs : dict json) : bool :=
         match xs with
         | [] => true
         | (k, x) :: xs' =>
             match dict_get k ys with
             | Some y => json_eqb x y && sub xs'
             | None => false
             end
         end) xs
  | _, _ => false
  end.

Definition under (p : path_elem) (e : ValidationError) : ValidationError :=
  {| path := p :: path e; error_message := error_message e |}.

(** [validator.iter_errors(instance)]: every failing constraint. *)
Fixpoint iter_errors (s : schema) (instance : json) : list ValidationError :=
  let 'Schema type enum required properties items := s in
  ((match type with
   | Some t =>
       if is_type t instance then []
       else [ {| path := []; error_message := NotOfType instance t |} ]
   | None => []
   end)
  ++
  (match enum with
   | Some allowed =>
       if existsb (json_eqb instance) allowed then []
       else [ {| path := []; error_message := NotOneOf instance allowed |} ]
   | None => []
   end)
  ++
  (match instance with
   | JObj fields =>
       map (fun k => {| path := []; error_message := RequiredProperty k |})
         (List.filter (fun k => negb (dict_has k fields)) required)
       ++
       (fix props (ps : dict schema) : list ValidationError :=
          match ps with
          | [] => []
          | (k, sub) :: ps' =>
              match dict_get k fields with
              | Some v => map (under (Key k)) (iter_errors sub v)
              | None => []
              end ++ props ps'
          end) properties
   | JArr elements =>
       match items with
       | Some sub =>
           concat
             (imap (fun i v => map (under (Index i)) (iter_errors sub v))
                elements)
       | None => []
       end
   | _ => []
   end))%list.

(** [jsonschema.validate(instance, schema)]: raises one of the errors of
    [iter_errors] when there is any ([None] when the instance is valid).
    Which one the package picks is its own heuristic; the first is taken
    here. *)
Definition validate (instance : json) (s : schema) : option ValidationError :=
  head (iter_errors s instance).

End JsonSchema.

(** ** The schema resource *)

(** The value sets of the enumerated fields. *)
Record enumerations : Type :=
  { source_types : list string;
    tones : list string;
    priorities : list string;
    formats : list string;
    deliveries : list string;
    methods : list string;
    triggers : list string }.

Definition typed (t : JsonSchema.jtype) : JsonSchema.schema :=
  JsonSchema.Schema (Some t) None [] [] None.

Definition one_of (values : list string) : JsonSchema.schema :=
  JsonSchema.Schema (Some JsonSchema.TString) (Some (map JStr values)) [] [] None.

Definition object_of (required : list string)
    (properties : dict JsonSchema.schema) : JsonSchema.schema :=
  JsonSchema.Schema (Some JsonSchema.TObject) None required properties None.

Definition array_of (items : JsonSchema.schema) : JsonSchema.schema :=
  JsonSchema.Schema (Some JsonSchema.TArray) None [] [] (Some items).

(** Modelled from the spec: the file [schemas/istvon_schema.json], which
    [load_istvon_schema] reads, is not part of the sources.  The spec
    describes it as a declarative document with type, required, enum and
    nested object/array constraints that enforces the six-key structure of
    the data model: six required top-level keys; [source_data] a sequence
    of descriptors [{type, source, description?, required?}]; [tools] a
    sequence of [{name, version?, parameters?}]; [variables] a mapping with
    the recognised keys, other keys permitted; [outcome] with [format] and
    [delivery], other keys permitted; [notification] with [method] and
    [trigger]; the enumerated fields [tone], [priority], [format],
    [delivery], [method], [trigger] and descriptor [type] drawn from the
    schema's value sets, which the spec does not list in full and which are
    a parameter here. *)
Definition istvon_schema (e : enumerations) : JsonSchema.schema :=
  object_of
    ["instructions"; "source_data"; "tools"; "variables"; "outcome";
     "notification"]
    [ ("instructions", typed JsonSchema.TString);
      ("source_data",
       array_of
         (object_of ["type"; "source"]
            [ ("type", one_of (source_types e));
              ("source", typed JsonSchema.TString);
              ("description", typed JsonSchema.TString);
              ("required", typed JsonSchema.TBoolean) ]));
      ("tools",
       array_of
         (object_of ["name"]
            [ ("name", typed JsonSchema.TString);
              ("version", typed JsonSchema.TString);
              ("parameters", typed JsonSchema.TObject) ]));
      ("variables",
       object_of []
         [ ("topic", typed JsonSchema.TString);
           ("tone", one_of (tones e));
           ("length", typed JsonSchema.TString);
           ("target_audience", typed JsonSchema.TString);
           ("priority", one_of (priorities e));
           ("language", typed JsonSchema.TString) ]);
      ("outcome",
       object_of ["format"; "delivery"]
         [ ("format", one_of (formats e));
           ("delivery", one_of (deliveries e));
           ("filename", typed JsonSchema.TString);
           ("destination", typed JsonSchema.TString) ]);
      ("notification",
       object_of ["method"; "trigger"]
         [ ("method", one_of (methods e));
           ("trigger", one_of (triggers e));
           ("recipient", typed JsonSchema.TString);
           ("message_template", typed JsonSchema.TString) ]) ].

(** The value sets of the enumerated fields contain at least the values the
    spec names for them. *)
Definition covers_named_values (e : enumerations) : Prop :=
  incl ["none"; "knowledge_base"] (source_types e) /\
  incl ["professional"; "casual"; "formal"; "friendly"; "technical"] (tones e) /\
  incl ["medium"] (priorities e) /\
  incl ["plain_text"; "markdown"; "pdf"; "html"; "docx"] (formats e) /\
  incl ["display"; "save_to_file"] (deliveries e) /\
  incl ["none"; "email"; "in_app"] (methods e) /\
  incl ["on_completion"] (triggers e).

(** The smallest value sets with that property. *)
Definition named_values : enumerations :=
  {| source_types := ["none"; "knowledge_base"];
     tones := ["professional"; "casual"; "formal"; "friendly"; "technical"];
     priorities := ["medium"];
     formats := ["plain_text"; "markdown"; "pdf"; "html"; "docx"];
     deliveries := ["display"; "save_to_file"];
     methods := ["none"; "email"; "in_app"];
     triggers := ["on_completion"] |}.

(** ** The Validator ([validators.py]) *)

(** The text of [validate_istvon]'s error,
    ["Validation error at <path>: <message>"], kept in its two parts. *)
Inductive report : Type :=
| ValidationErrorAt (path : list JsonSchema.path_elem)
                    (msg : JsonSchema.message).

(** The two texts [validate_partial] produces:
    ["Missing required field: <field>"] and ["Field '<field>': <message>"]. *)
Inductive partial_error : Type :=
| MissingRequiredField (field : string)
| FieldError (field : string) (msg : JsonSchema.message).

Inductive exn : Type :=
| ValueError (error : option report)   (* "Invalid ISTVON structure: ..." *)
| KeyError (k : string)
| AttributeError
| TypeError
| SystemError.

Inductive result (A : Type) : Type :=
| Return (a : A)
| Raise (e : exn).
Arguments Return {A} a.
Arguments Raise {A} e.

(** Python truth value of a JSON value. *)
Definition truthy (j : json) : bool :=
  match j with
  | JNull => false
  | JBool b => b
  | JNum z => negb (Z.eqb z 0)
  | JStr s => negb (String.eqb s "")
  | JArr l => match l with [] => false | _ => true end
  | JObj d => match d with [] => false | _ => true end
  end.

Record ISTVONValidator : Type := { schema : JsonSchema.schema }.

Module Validator.

Definition validate_istvon (self : ISTVONValidator) (istvon_data : dict json)
    : bool * option report :=
  match JsonSchema.validate (JObj istvon_data) (schema self) with
  | None => (true, None)
  | Some e =>
      (false,
       Some (ValidationErrorAt (JsonSchema.path e) (JsonSchema.error_message e)))
  end.

Definition create_minimal_istvon (instructions : string) : dict json :=
  [ ("instructions", JStr instructions);
    ("source_data",
     JArr [JObj [("type", JStr "none"); ("source", JStr "general_knowledge")]]);
    ("tools", JArr [JObj [("name", JStr "text_generation")]]);
    ("variables",
     JObj [("tone", JStr "professional"); ("priority", JStr "medium")]);
    ("outcome",
     JObj [("format", JStr "plain_text"); ("delivery", JStr "display")]);
    ("notification",
     JObj [("method", JStr "none"); ("trigger", JStr "on_completion")]) ].

(** The first loop of [validate_partial]. *)
Definition check_required (required_fields : list string)
    (partial_data : dict json) (errors : list partial_error)
    : list partial_error :=
  fold_left
    (fun errors field =>
       if negb (dict_has field partial_data)
       then (errors ++ [MissingRequiredField field])%list
       else errors)
    required_fields errors.

(** The second loop of [validate_partial]. *)
Definition check_fields (schema_props : dict JsonSchema.schema)
    (partial_data : dict json) (errors : list partial_error)
    : list partial_error :=
  fold_left
    (fun errors fv =>
       match dict_get (fst fv) schema_props with
       | Some field_schema =>
           match JsonSchema.validate (snd fv) field_schema with
           | Some e =>
               (errors ++ [FieldError (fst fv) (JsonSchema.error_message e)])%list
           | None => errors
           end
       | None => errors
       end)
    partial_data errors.

Definition validate_partial (self : ISTVONValidator) (partial_data : dict json)
    (required_only : bool) : bool * list partial_error :=
  let errors : list partial_error := [] in
  let schema_props := JsonSchema.properties (schema self) in
  let required_fields := JsonSchema.required (schema self) in
  let errors :=
    if required_only then check_required required_fields partial_data errors
    else errors in
  let errors := check_fields schema_props partial_data errors in
  (Nat.eqb (List.length errors) 0, errors).

Definition more_detailed : string :=
  "Consider making instructions more detailed".
Definition action_verb : string :=
  "Start with a clear action verb (create, write, analyze, etc.)".
Definition specify_sources : string :=
  "Consider specifying data sources for better context".
Definition add_topic : string := "Adding a topic would improve clarity".
Definition add_audience : string :=
  "Specifying target audience helps tailor content".

(** [key not in container] for the containers a JSON value can be. *)
Definition not_in (key : string) (container : json) : result bool :=
  match container with
  | JObj d => Return (negb (dict_has key d))
  | JArr l => Return (negb (existsb (JsonSchema.json_eqb (JStr key)) l))
  | JStr s => Return (negb (Py.contains key s))
  | _ => Raise TypeError
  end.

Definition get_validation_suggestions (istvon_data : dict json)
    : result (dict (list string)) :=
  let suggestions : dict (list string) := [] in
  let instructions :=
    match dict_get "instructions" istvon_data with
    | Some v => v
    | None => JStr ""
    end in
  match
    (if truthy instructions then
       match instructions with
       | JStr text =>
           let inst_suggestions : list string := [] in
           let inst_suggestions :=
             if (List.length (Py.split text) <? 5)%nat
             then (inst_suggestions ++ [more_detailed])%list
             else inst_suggestions in
           let inst_suggestions :=
             if negb (Py.any_in ["create"; "write"; "analyze"; "generate"]
                        (Py.lower text))
             then (inst_suggestions ++ [action_verb])%list
             else inst_suggestions in
           Return
             (match inst_suggestions with
              | [] => suggestions
              | _ => dict_set "instructions" inst_suggestions suggestions
              end)
       | _ => Raise AttributeError
       end
     else Return suggestions)
  with
  | Raise e => Raise e
  | Return suggestions =>
      let source_data :=
        match dict_get "source_data" istvon_data with
        | Some v => v
        | None => JArr []
        end in
      let suggestions :=
        if negb (truthy source_data)
        then dict_set "source_data" [specify_sources] suggestions
        else suggestions in
      let variables :=
        match dict_get "variables" istvon_data with
        | Some v => v
        | None => JObj []
        end in
      match not_in "topic" variables with
      | Raise e => Raise e
      | Return no_topic =>
          match not_in "target_audience" variables with
          | Raise e => Raise e
          | Return no_audience =>
              let var_suggestions : list string := [] in
              let var_suggestions :=
                if no_topic then (var_suggestions ++ [add_topic])%list
                else var_suggestions in
              let var_suggestions :=
                if no_audience then (var_suggestions ++ [add_audience])%list
                else var_suggestions in
              Return
                (match var_suggestions with
                 | [] => suggestions
                 | _ => dict_set "variables" var_suggestions suggestions
                 end)
          end
      end
  end.

End Validator.

(** ** The object store

    The Builder mutates lists and dicts in place, and [dict.copy] is
    shallow, so the containers of a record live in a store and a record
    refers to them by location.  A record's field is either an immutable
    value, held directly, or a reference to a list or dict; the items of a
    list and the values of a nested dict are held by value, the Builder
    never changes one after it has been built. *)

Abbreviation loc := nat (only parsing).

Inductive value : Type :=
| VJson (j : json)
| VRef (l : loc).

Inductive object : Type :=
| OList (items : list json)
| ODict (fields : dict json)
| ORecord (fields : dict value).

Abbreviation heap := (list object) (only parsing).

(** Computations that read and write the store and may raise. *)
Definition M (A : Type) : Type := heap -> result A * heap.

#[global] Instance M_ret : MRet M := fun A a h => (Return a, h).

#[global] Instance M_bind : MBind M := fun A B f m h =>
  match m h with
  | (Return a, h') => f a h'
  | (Raise e, h') => (Raise e, h')
  end.

Module Store.

Definition raise {A} (e : exn) : M A := fun h => (Raise e, h).

Definition alloc (o : object) : M loc :=
  fun h => (Return (List.length h), (h ++ [o])%list).

Definition load (l : loc) : M object :=
  fun h => match h !! l with
           | Some o => (Return o, h)
           | None => (Raise SystemError, h)
           end.

Definition store (l : loc) (o : object) : M unit :=
  fun h => (Return tt, <[l:=o]> h).

(** The object a literal evaluates to. *)
Definition new (j : json) : M value :=
  match j with
  | JArr items => l ← alloc (OList items); mret (VRef l)
  | JObj fields => l ← alloc (ODict fields); mret (VRef l)
  | _ => mret (VJson j)
  end.

(** A record literal: its containers first, then the record itself. *)
Definition new_record (d : dict json) : M loc :=
  fields ← mapM (fun kj => v ← new (snd kj); mret (fst kj, v)) d;
  alloc (ORecord fields).

(** [record[k]] *)
Definition getitem (record : loc) (k : string) : M value :=
  o ← load record;
  match o with
  | ORecord fields =>
      match dict_get k fields with
      | Some v => mret v
      | None => raise (KeyError k)
      end
  | _ => raise TypeError
  end.

(** [record[k] = v] *)
Definition setitem (record : loc) (k : string) (v : value) : M unit :=
  o ← load record;
  match o with
  | ORecord fields => store record (ORecord (dict_set k v fields))
  | _ => raise TypeError
  end.

(** The items of the list [v] refers to. *)
Definition items_of (v : value) : M (list json) :=
  match v with
  | VRef l =>
      o ← load l;
      match o with
      | OList items => mret items
      | _ => raise TypeError
      end
  | VJson _ => raise TypeError
  end.

(** [v.append(x)] *)
Definition append (v : value) (x : json) : M unit :=
  match v with
  | VRef l =>
      o ← load l;
      match o with
      | OList items => store l (OList (items ++ [x])%list)
      | _ => raise AttributeError
      end
  | VJson _ => raise AttributeError
  end.

(** [v[k] = x] on a nested dict *)
Definition setfield (v : value) (k : string) (x : json) : M unit :=
  match v with
  | VRef l =>
      o ← load l;
      match o with
      | ODict fields => store l (ODict (dict_set k x fields))
      | _ => raise TypeError
      end
  | VJson _ => raise TypeError
  end.

(** [v.update(other)] on a nested dict *)
Definition update (v : value) (other : dict json) : M unit :=
  match v with
  | VRef l =>
      o ← load l;
      match o with
      | ODict fields => store l (ODict (dict_update other fields))
      | _ => raise AttributeError
      end
  | VJson _ => raise AttributeError
  end.

(** [record.copy()]: a new record with the same fields, the containers
    they refer to are not copied. *)
Definition copy (record : loc) : M loc :=
  o ← load record;
  match o with
  | ORecord fields => alloc (ORecord fields)
  | _ => raise AttributeError
  end.

(** The JSON value a field currently shows. *)
Definition read (v : value) : M json :=
  match v with
  | VJson j => mret j
  | VRef l =>
      o ← load l;
      match o with
      | OList items => mret (JArr items)
      | ODict fields => mret (JObj fields)
      | ORecord _ => raise TypeError
      end
  end.

(** The JSON value a record currently shows. *)
Definition view (record : loc) : M (dict json) :=
  o ← load record;
  match o with
  | ORecord fields => mapM (fun kv => j ← read (snd kv); mret (fst kv, j)) fields
  | _ => raise TypeError
  end.

End Store.

(** ** The Builder ([validators.py]) *)

Record ISTVONBuilder : Type :=
  { validator : ISTVONValidator; istvon : loc }.

Module Builder.

Import Store.

Definition __init__ (schema : JsonSchema.schema) : M ISTVONBuilder :=
  let validator := {| schema := schema |} in
  record ← new_record (Validator.create_minimal_istvon "");
  mret {| validator := validator; istvon := record |}.

Definition set_instructions (self : ISTVONBuilder) (instructions : string)
    : M ISTVONBuilder :=
  setitem (istvon self) "instructions" (VJson (JStr instructions));;
  mret self.

(** [items and len(items) == 1 and items[0].get("type") == "none"] *)
Definition is_placeholder (items : list json) : M bool :=
  match items with
  | [JObj fields] =>
      mret (match dict_get "type" fields with
            | Some t => JsonSchema.json_eqb t (JStr "none")
            | None => false
            end)
  | [_] => raise AttributeError
  | _ => mret false
  end.

Definition add_source_data (self : ISTVONBuilder) (source_type source : string)
    (description : string) (required : bool) : M ISTVONBuilder :=
  current ← getitem (istvon self) "source_data";
  items ← items_of current;
  placeholder ← is_placeholder items;
  (if placeholder : bool then
     fresh ← new (JArr []);
     setitem (istvon self) "source_data" fresh
   else mret tt);;
  let source_item : dict json :=
    [ ("type", JStr source_type); ("source", JStr source);
      ("required", JBool required) ] in
  let source_item :=
    if negb (String.eqb description "")
    then dict_set "description" (JStr description) source_item
    else source_item in
  current ← getitem (istvon self) "source_data";
  append current (JObj source_item);;
  mret self.

Definition clear_tools (self : ISTVONBuilder) : M ISTVONBuilder :=
  fresh ← new (JArr []);
  setitem (istvon self) "tools" fresh;;
  mret self.

(** [if x:] for an optional string argument. *)
Definition given (x : option string) : option string :=
  match x with
  | Some s => if String.eqb s "" then None else Some s
  | None => None
  end.

Definition add_tool (self : ISTVONBuilder) (tool_name : string)
    (version : option string) (parameters : option (dict json))
    : M ISTVONBuilder :=
  let tool_item : dict json := [("name", JStr tool_name)] in
  let tool_item :=
    match given version with
    | Some v => dict_set "version" (JStr v) tool_item
    | None => tool_item
    end in
  let tool_item :=
    match parameters with
    | Some (p :: ps) => dict_set "parameters" (JObj (p :: ps)) tool_item
    | _ => tool_item
    end in
  tools ← getitem (istvon self) "tools";
  append tools (JObj tool_item);;
  mret self.

Definition set_variables (self : ISTVONBuilder) (variables : dict json)
    : M ISTVONBuilder :=
  current ← getitem (istvon self) "variables";
  update current variables;;
  mret self.

Definition set_outcome (self : ISTVONBuilder) (format_type delivery : string)
    (filename destination : option string) (other_options : dict json)
    : M ISTVONBuilder :=
  fresh ← new (JObj [("format", JStr format_type); ("delivery", JStr delivery)]);
  setitem (istvon self) "outcome" fresh;;
  match given filename with
  | Some f => o ← getitem (istvon self) "outcome"; setfield o "filename" (JStr f)
  | None => mret tt
  end;;
  match given destination with
  | Some d =>
      o ← getitem (istvon self) "outcome"; setfield o "destination" (JStr d)
  | None => mret tt
  end;;
  o ← getitem (istvon self) "outcome";
  update o other_options;;
  mret self.

Definition set_notification (self : ISTVONBuilder) (method : string)
    (recipient : option string) (trigger : string)
    (message_template : option string) : M ISTVONBuilder :=
  fresh ← new (JObj [("method", JStr method); ("trigger", JStr trigger)]);
  setitem (istvon self) "notification" fresh;;
  match given recipient with
  | Some r =>
      n ← getitem (istvon self) "notification"; setfield n "recipient" (JStr r)
  | None => mret tt
  end;;
  match given message_template with
  | Some t =>
      n ← getitem (istvon self) "notification";
      setfield n "message_template" (JStr t)
  | None => mret tt
  end;;
  mret self.

Definition build (self : ISTVONBuilder) : M loc :=
  data ← view (istvon self);
  let '(is_valid, error) := Validator.validate_istvon (validator self) data in
  if negb is_valid then raise (ValueError error)
  else copy (istvon self).

Definition build_partial (self : ISTVONBuilder)
    : M (loc * bool * list partial_error) :=
  data ← view (istvon self);
  let '(is_valid, errors) :=
    Validator.validate_partial (validator self) data false in
  record ← copy (istvon self);
  mret (record, is_valid, errors).

(** One call on the builder, as a caller issues it. *)
Inductive operation : Type :=
| SetInstructions (instructions : string)
| AddSourceData (source_type source description : string) (required : bool)
| ClearTools
| AddTool (tool_name : string) (version : option string)
          (parameters : option (dict json))
| SetVariables (variables : dict json)
| SetOutcome (format_type delivery : string)
             (filename destination : option string) (other_options : dict json)
| SetNotification (method : string) (recipient : option string)
                  (trigger : string) (message_template : option string).

Definition call (self : ISTVONBuilder) (op : operation) : M ISTVONBuilder :=
  match op with
  | SetInstructions i => set_instructions self i
  | AddSourceData t s d r => add_source_data self t s d r
  | ClearTools => clear_tools self
  | AddTool n v p => add_tool self n v p
  | SetVariables vs => set_variables self vs
  | SetOutcome f d fn ds other => set_outcome self f d fn ds other
  | SetNotification m r t mt => set_notification self m r t mt
  end.

(** A chain of calls, [self.op1(...).op2(...)...]. *)
Fixpoint chain (self : ISTVONBuilder) (ops : list operation) : M ISTVONBuilder :=
  match ops with
  | [] => mret self
  | op :: rest => self' ← call self op; chain self' rest
  end.

End Builder.

(** ** Reading records *)

(** [record[k1][k2]] *)
Definition nested_get (k1 k2 : string) (record : dict json) : option json :=
  match dict_get k1 record with
  | Some (JObj d) => dict_get k2 d
  | _ => None
  end.

(** [record["tools"]] of the Mapper's output for [prompt]. *)
Definition mapper_tools (order : set_order) (prompt : string) : list json :=
  match dict_get "tools" (ISTVONMapper.convert_to_istvon order prompt) with
  | Some (JArr tools) => tools
  | _ => []
  end.

Definition tool (name : string) : json := JObj [("name", JStr name)].

(** A keyword of the table occurs in the lower-cased prompt. *)
Definition keyword_matches (prompt : string) (kt : string * string) : bool :=
  Py.contains (fst kt) (Py.lower prompt).

(** [del d[k]] *)
Definition dict_del {V} (k : string) (d : dict V) : dict V :=
  List.filter (fun kv => negb (String.eqb k (fst kv))) d.

Definition top_level_keys : list string :=
  ["instructions"; "source_data"; "tools"; "variables"; "outcome";
   "notification"].

Definition is_missing_field (e : partial_error) : bool :=
  match e with MissingRequiredField _ => true | FieldError _ _ => false end.

(** The error, if any, that one entry of a record contributes to
    [validate_partial]. *)
Definition field_errors (schema_props : dict JsonSchema.schema)
    (fv : string * json) : list partial_error :=
  match dict_get (fst fv) schema_props with
  | Some field_schema =>
      match JsonSchema.validate (snd fv) field_schema with
      | Some e => [FieldError (fst fv) (JsonSchema.error_message e)]
      | None => []
      end
  | None => []
  end.

Definition insertion_order : set_order := fun s => s.
Definition reverse_order : set_order := fun s => rev s.

(** The errors one property of an object schema contributes. *)
Definition property_errors (fields : dict json)
    (ks : string * JsonSchema.schema) : list JsonSchema.ValidationError :=
  match dict_get (fst ks) fields with
  | Some v => map (JsonSchema.under (JsonSchema.Key (fst ks)))
                (JsonSchema.iter_errors (snd ks) v)
  | None => []
  end.

(** Every character of [s] is in the class [cls]. *)
Fixpoint all_chars (cls : ascii -> bool) (s : string) : bool :=
  match s with
  | EmptyString => true
  | String c t => cls c && all_chars cls t
  end.

(** The text is over, or goes on with a character outside [cls]. *)
Definition stops (cls : ascii -> bool) (s : string) : bool :=
  match s with
  | EmptyString => true
  | String c _ => negb (cls c)
  end.

(** No match of [r] starts inside [pre] in the text [pre ++ s]. *)
Fixpoint no_match_before (ic : bool) (r : Re.regex) (pre s : string) : bool :=
  match pre with
  | EmptyString => true
  | String _ pre' =>
      match Re.match_here ic r (pre ++ s) with
      | Some _ => false
      | None => no_match_before ic r pre' s
      end
  end.

(** The store after [ISTVONBuilder()] has run in the store [h], with
    [instructions] in place of the empty text. *)
Definition minimal_store (h : heap) (instructions : string) : heap :=
  (h ++ [ OList [JObj [("type", JStr "none");
                       ("source", JStr "general_knowledge")]];
          OList [JObj [("name", JStr "text_generation")]];
          ODict [("tone", JStr "professional"); ("priority", JStr "medium")];
          ODict [("format", JStr "plain_text"); ("delivery", JStr "display")];
          ODict [("method", JStr "none"); ("trigger", JStr "on_completion")];
          ORecord
            [ ("instructions", VJson (JStr instructions));
              ("source_data", VRef (List.length h));
              ("tools", VRef (List.length h + 1));
              ("variables", VRef (List.length h + 2));
              ("outcome", VRef (List.length h + 3));
              ("notification", VRef (List.length h + 4)) ] ])%list.

Definition sample_schema : JsonSchema.schema := istvon_schema named_values.

Definition sample_prompt : string :=
  "Write a blog post about quantum computing for beginners".

(** [b = ISTVONBuilder().set_instructions("Write a poem"); r = b.build();
    b.add_tool("web_search")], with what [r] shows before and after the
    last call. *)
Definition build_then_add_tool : M (dict json * dict json) :=
  b ← Builder.__init__ sample_schema;
  b ← Builder.set_instructions b "Write a poem";
  record ← Builder.build b;
  before ← Store.view record;
  b ← Builder.add_tool b "web_search" None None;
  after ← Store.view record;
  mret (before, after).

Definition is_container (o : object) : Prop :=
  match o with
  | OList _ | ODict _ => True
  | ORecord _ => False
  end.

(** A field's value can be read in [h]. *)
Definition container (h : heap) (v : value) : Prop :=
  match v with
  | VJson _ => True
  | VRef l => exists o, h !! l = Some o /\ is_container o
  end.

(** The record at [record] can be read in [h]. *)
Definition readable (record : loc) (h : heap) : Prop :=
  exists fields,
    h !! record = Some (ORecord fields) /\
    Forall (fun kv => container h (snd kv)) fields.

(** From a store where [pre] holds, [m] returns in a store where [post]
    holds of its result, or raises in a store where [record] can still be
    read. *)
Definition hoare {A} (record : loc) (pre : heap -> Prop) (m : M A)
    (post : A -> heap -> Prop) : Prop :=
  forall h, pre h ->
    match m h with
    | (Return a, h') => post a h'
    | (Raise _, h') => readable record h'
    end.

(** What a Builder method keeps: it returns the builder it was called
    on, and the builder's record can still be read. *)
Definition kept (self : ISTVONBuilder) (b : ISTVONBuilder) (h : heap) : Prop :=
  b = self /\ readable (istvon self) h.


(** [ISTVONBuilder().add_source_data("file", "notes.txt")] in the empty
    store: the builder and the store it leaves. *)
Definition file_source_run : result ISTVONBuilder * heap :=
  Eval vm_compute in
    (b ← Builder.__init__ sample_schema;
     Builder.chain b [Builder.AddSourceData "file" "notes.txt" "" false]) [].

(** ** The Validator on a record in the store *)

(** The value [istvon_data.get('variables', {})]. *)
Definition variables_of (record : dict json) : json :=
  match dict_get "variables" record with
  | Some v => v
  | None => JObj []
  end.

(** [key in container] is defined: on a dict, a list and a string. *)
Definition supports_in (container : json) : bool :=
  match container with
  | JObj _ | JArr _ | JStr _ => true
  | _ => false
  end.

(** [validator.get_validation_suggestions(record)] for a record the caller
    holds in the store: the method reads the record and writes nothing. *)
Definition suggestions_on (self : ISTVONValidator) (record : loc)
    : M (dict (list string)) :=
  data ← Store.view record;
  match Validator.get_validation_suggestions data with
  | Return suggestions => mret suggestions
  | Raise e => Store.raise e
  end.

(** [validator.validate_istvon(record)] for a record in the store. *)
Definition verdict_on (self : ISTVONValidator) (record : loc)
    : M (bool * option report) :=
  data ← Store.view record;
  mret (Validator.validate_istvon self data).

(** ** Notions used in the properties of the Mapper *)

(** The text is empty or starts with a character whose capital fits. *)
Definition capital_fits (s : string) : bool :=
  match s with
  | EmptyString => true
  | String c _ => Py.upper_fits c
  end.

(** [s] ends with [t]. *)
Definition is_suffix (t s : string) : Prop := exists pre, s = pre ++ t.

(** The alternatives of the politeness pattern. *)
Definition politeness_phrases : list string :=
  ["please"; "can you"; "could you"; "i want you to"; "i need you to"].

(** The [type] of the single source descriptor of a record. *)
Definition source_type (record : dict json) : option json :=
  match dict_get "source_data" record with
  | Some (JArr [JObj d]) => dict_get "type" d
  | _ => None
  end.

(** The units of the length pattern, each with an optional "s". *)
Definition length_units : list string := ["word"; "page"; "paragraph"].

(** [s] does not start with the character [c]. *)
Definition not_starting (c : ascii) (s : string) : bool :=
  match s with
  | EmptyString => true
  | String c' _ => negb (Ascii.eqb c c')
  end.

(** A word, as [str.split] yields them: not empty, no whitespace in it. *)
Definition is_word (w : string) : bool :=
  negb (String.eqb w "") && all_chars (fun c => negb (Py.isspace c)) w.

(** The keys [_extract_variables] can set, in the order it sets them. *)
Definition variable_keys : list string :=
  ["topic"; "tone"; "length"; "target_audience"; "priority"; "language"].

(** [isinstance(j, str)] *)
Definition is_text (j : json) : bool :=
  match j with JStr _ => true | _ => false end.

(** ** The stored conversion ([models.py]) *)

Module PromptConversion.

(** How [clean] ends: it returns, raises Django's [ValidationError] naming
    a key, or raises [TypeError] on a value [in] does not apply to. *)
Inductive clean_result : Type :=
| Cleaned
| MissingKey (key : string)
| NotAContainer.

Definition required_keys : list string :=
  ["instructions"; "source_data"; "tools"; "variables"; "outcome";
   "notification"].

(** The [for] loop of [clean]. *)
Fixpoint check_keys (keys : list string) (istvon_json : json) : clean_result :=
  match keys with
  | [] => Cleaned
  | key :: rest =>
      match Validator.not_in key istvon_json with
      | Raise _ => NotAContainer
      | Return true => MissingKey key
      | Return false => check_keys rest istvon_json
      end
  end.

Definition clean (istvon_json : json) : clean_result :=
  if truthy istvon_json then check_keys required_keys istvon_json
  else Cleaned.

Definition get_instructions (istvon_json : json) : result json :=
  if truthy istvon_json then
    match istvon_json with
    | JObj d =>
        Return (match dict_get "instructions" d with
                | Some v => v
                | None => JStr ""
                end)
    | _ => Raise AttributeError
    end
  else Return (JStr "").

Definition get_topic (istvon_json : json) : result json :=
  if truthy istvon_json then
    match Validator.not_in "variables" istvon_json with
    | Raise e => Raise e
    | Return true => Return (JStr "Unknown")
    | Return false =>
        match istvon_json with
        | JObj d =>
            match dict_get "variables" d with
            | Some (JObj variables) =>
                Return (match dict_get "topic" variables with
                        | Some v => v
                        | None => JStr "Unknown"
                        end)
            | Some _ => Raise AttributeError
            | None => Raise (KeyError "variables")
            end
        | _ => Raise TypeError
        end
    end
  else Return (JStr "Unknown").

End PromptConversion.

(** ** The Builder's record as a value

    What the six fields of the Builder's record hold, apart from where
    the containers are in the store. *)

Record contents : Type :=
  { c_instructions : string;
    c_source_data : list json;
    c_tools : list json;
    c_variables : dict json;
    c_outcome : dict json;
    c_notification : dict json }.

(** The record a reader of the store sees. *)
Definition record_of (c : contents) : dict json :=
  [ ("instructions", JStr (c_instructions c));
    ("source_data", JArr (c_source_data c));
    ("tools", JArr (c_tools c));
    ("variables", JObj (c_variables c));
    ("outcome", JObj (c_outcome c));
    ("notification", JObj (c_notification c)) ].

(** Where the five containers of a record are. *)
Record layout : Type :=
  { at_source_data : nat;
    at_tools : nat;
    at_variables : nat;
    at_outcome : nat;
    at_notification : nat }.

Definition fields_of (c : contents) (l : layout) : dict value :=
  [ ("instructions", VJson (JStr (c_instructions c)));
    ("source_data", VRef (at_source_data l));
    ("tools", VRef (at_tools l));
    ("variables", VRef (at_variables l));
    ("outcome", VRef (at_outcome l));
    ("notification", VRef (at_notification l)) ].

(** The record at [record] holds [c], its containers laid out as [l], each
    at a location of its own. *)
Definition laid_out (record : nat) (h : list object) (l : layout)
    (c : contents) : Prop :=
  h !! record = Some (ORecord (fields_of c l)) /\
  h !! at_source_data l = Some (OList (c_source_data c)) /\
  h !! at_tools l = Some (OList (c_tools c)) /\
  h !! at_variables l = Some (ODict (c_variables c)) /\
  h !! at_outcome l = Some (ODict (c_outcome c)) /\
  h !! at_notification l = Some (ODict (c_notification c)) /\
  List.NoDup [ at_source_data l; at_tools l; at_variables l; at_outcome l;
               at_notification l ].

Definition is_dict (j : json) : bool :=
  match j with JObj _ => true | _ => false end.

(** The test of [add_source_data]: the list is the single entry of type
    "none". *)
Definition placeholder_only (items : list json) : bool :=
  match items with
  | [JObj fields] =>
      match dict_get "type" fields with
      | Some t => JsonSchema.json_eqb t (JStr "none")
      | None => false
      end
  | _ => false
  end.

(** The descriptor [add_source_data] appends. *)
Definition source_descriptor (source_type source description : string)
    (required : bool) : json :=
  JObj ([ ("type", JStr source_type); ("source", JStr source);
          ("required", JBool required) ]
        ++ if String.eqb description "" then []
           else [("description", JStr description)])%list.

(** The descriptor [add_tool] appends. *)
Definition tool_descriptor (tool_name : string) (version : option string)
    (parameters : option (dict json)) : json :=
  JObj ([("name", JStr tool_name)]
        ++ match Builder.given version with
           | Some v => [("version", JStr v)]
           | None => []
           end
        ++ match parameters with
           | Some (p :: ps) => [("parameters", JObj (p :: ps))]
           | _ => []
           end)%list.

(** The dict [set_outcome] leaves under [outcome]. *)
Definition outcome_fields (format_type delivery : string)
    (filename destination : option string) (other_options : dict json)
    : dict json :=
  dict_update other_options
    ([ ("format", JStr format_type); ("delivery", JStr delivery) ]
     ++ match Builder.given filename with
        | Some f => [("filename", JStr f)]
        | None => []
        end
     ++ match Builder.given destination with
        | Some d => [("destination", JStr d)]
        | None => []
        end)%list.

(** The dict [set_notification] leaves under [notification]. *)
Definition notification_fields (method : string) (recipient : option string)
    (trigger : string) (message_template : option string) : dict json :=
  ([ ("method", JStr method); ("trigger", JStr trigger) ]
   ++ match Builder.given recipient with
      | Some r => [("recipient", JStr r)]
      | None => []
      end
   ++ match Builder.given message_template with
      | Some t => [("message_template", JStr t)]
      | None => []
      end)%list.

(** What one call does to the contents of the record. *)
Definition apply_call (c : contents) (op : Builder.operation) : contents :=
  match op with
  | Builder.SetInstructions i =>
      {| c_instructions := i; c_source_data := c_source_data c;
         c_tools := c_tools c; c_variables := c_variables c;
         c_outcome := c_outcome c; c_notification := c_notification c |}
  | Builder.AddSourceData t s d r =>
      {| c_instructions := c_instructions c;
         c_source_data :=
           ((if placeholder_only (c_source_data c) then []
             else c_source_data c) ++ [source_descriptor t s d r])%list;
         c_tools := c_tools c; c_variables := c_variables c;
         c_outcome := c_outcome c; c_notification := c_notification c |}
  | Builder.ClearTools =>
      {| c_instructions := c_instructions c; c_source_data := c_source_data c;
         c_tools := []; c_variables := c_variables c;
         c_outcome := c_outcome c; c_notification := c_notification c |}
  | Builder.AddTool n v p =>
      {| c_instructions := c_instructions c; c_source_data := c_source_data c;
         c_tools := (c_tools c ++ [tool_descriptor n v p])%list;
         c_variables := c_variables c;
         c_outcome := c_outcome c; c_notification := c_notification c |}
  | Builder.SetVariables vs =>
      {| c_instructions := c_instructions c; c_source_data := c_source_data c;
         c_tools := c_tools c; c_variables := dict_update vs (c_variables c);
         c_outcome := c_outcome c; c_notification := c_notification c |}
  | Builder.SetOutcome f d fn ds other =>
      {| c_instructions := c_instructions c; c_source_data := c_source_data c;
         c_tools := c_tools c; c_variables := c_variables c;
         c_outcome := outcome_fields f d fn ds other;
         c_notification := c_notification c |}
  | Builder.SetNotification m r t mt =>
      {| c_instructions := c_instructions c; c_source_data := c_source_data c;
         c_tools := c_tools c; c_variables := c_variables c;
         c_outcome := c_outcome c;
         c_notification := notification_fields m r t mt |}
  end.

(** The contents of a new Builder's record. *)
Definition initial_contents : contents :=
  {| c_instructions := "";
     c_source_data :=
       [JObj [("type", JStr "none"); ("source", JStr "general_knowledge")]];
     c_tools := [JObj [("name", JStr "text_generation")]];
     c_variables := [("tone", JStr "professional"); ("priority", JStr "medium")];
     c_outcome := [("format", JStr "plain_text"); ("delivery", JStr "display")];
     c_notification :=
       [("method", JStr "none"); ("trigger", JStr "on_completion")] |}.

(** The locations a call writes to, besides the record itself and new
    ones. *)
Definition written (l : layout) (op : Builder.operation) : list nat :=
  match op with
  | Builder.AddSourceData _ _ _ _ => [at_source_data l]
  | Builder.AddTool _ _ _ => [at_tools l]
  | Builder.SetVariables _ => [at_variables l]
  | _ => []
  end.
(** Every entry of [source_data] is a dict, as the entries the Builder
    itself appends are. *)
Definition source_dicts (c : contents) : Prop :=
  Forall (fun j => is_dict j = true) (c_source_data c).

(** The six lookups of [laid_out], which is what a reader needs. *)
Definition shows (record : nat) (h : list object) (l : layout)
    (c : contents) : Prop :=
  h !! record = Some (ORecord (fields_of c l)) /\
  h !! at_source_data l = Some (OList (c_source_data c)) /\
  h !! at_tools l = Some (OList (c_tools c)) /\
  h !! at_variables l = Some (ODict (c_variables c)) /\
  h !! at_outcome l = Some (ODict (c_outcome c)) /\
  h !! at_notification l = Some (ODict (c_notification c)).

(** Where [__init__] puts the containers of the new record. *)
Definition initial_layout (h : list object) : layout :=
  {| at_source_data := List.length h; at_tools := List.length h + 1;
     at_variables := List.length h + 2; at_outcome := List.length h + 3;
     at_notification := List.length h + 4 |}.

(** ** Calls on the Builder, by field *)

(** The field of the record a call is about. *)
Definition field_of (op : Builder.operation) : string :=
  match op with
  | Builder.SetInstructions _ => "instructions"
  | Builder.AddSourceData _ _ _ _ => "source_data"
  | Builder.ClearTools | Builder.AddTool _ _ _ => "tools"
  | Builder.SetVariables _ => "variables"
  | Builder.SetOutcome _ _ _ _ _ => "outcome"
  | Builder.SetNotification _ _ _ _ => "notification"
  end.

(** The call assigns a new value to its field, whatever the field held. *)
Definition rebinds (op : Builder.operation) : bool :=
  match op with
  | Builder.SetInstructions _ | Builder.ClearTools
  | Builder.SetOutcome _ _ _ _ _ | Builder.SetNotification _ _ _ _ => true
  | _ => false
  end.

(** The call may change the container under [k] where it is ([append],
    [update]). *)
Definition in_place (k : string) (op : Builder.operation) : bool :=
  match op with
  | Builder.AddSourceData _ _ _ _ => String.eqb k "source_data"
  | Builder.AddTool _ _ _ => String.eqb k "tools"
  | Builder.SetVariables _ => String.eqb k "variables"
  | _ => false
  end.

(** [ISTVONBuilder().op1(...)...opn(...)], then the record the builder
    holds, read as a JSON value. *)
Definition built_by (sch : JsonSchema.schema) (ops : list Builder.operation)
    : M (dict json) :=
  b ← Builder.__init__ sch;
  b ← Builder.chain b ops;
  Store.view (istvon b).

(** [record[k]], read as a JSON value. *)
Definition field (record : nat) (k : string) : M json :=
  v ← Store.getitem record k;
  Store.read v.

(** ** The schema helpers ([schemas/__init__.py])

    [load_istvon_schema] reads and parses the schema file; the functions
    below take the value it returned. *)

Module Schemas.

(** [schema.get('properties', {})] *)
Definition get_schema_properties (schema : json) : result json :=
  match schema with
  | JObj fields =>
      Return (match dict_get "properties" fields with
              | Some properties => properties
              | None => JObj []
              end)
  | _ => Raise AttributeError
  end.

(** [schema.get('required', [])] *)
Definition get_required_fields (schema : json) : result json :=
  match schema with
  | JObj fields =>
      Return (match dict_get "required" fields with
              | Some required => required
              | None => JArr []
              end)
  | _ => Raise AttributeError
  end.

(** [f"{prefix}.{key}" if prefix else key] *)
Definition new_prefix (prefix key : string) : string :=
  if String.eqb prefix "" then key else prefix ++ "." ++ key.

(** The inner function of [get_field_enums], with the dict [enums] it
    fills passed along. *)
Fixpoint extract_enums (obj : json) (prefix : string) (enums : dict json)
    : dict json :=
  match obj with
  | JObj fields =>
      let enums :=
        match dict_get "enum" fields with
        | Some values => dict_set prefix values enums
        | None => enums
        end in
      (fix each (fs : list (string * json)) (enums : dict json) : dict json :=
         match fs with
         | [] => enums
         | (key, value) :: fs' =>
             each fs' (extract_enums value (new_prefix prefix key) enums)
         end) fields enums
  | JArr items =>
      (fix each (xs : list json) (enums : dict json) : dict json :=
         match xs with
         | [] => enums
         | item :: xs' => each xs' (extract_enums item prefix enums)
         end) items enums
  | _ => enums
  end.

Definition get_field_enums (schema : json) : result (dict json) :=
  match get_schema_properties schema with
  | Return properties => Return (extract_enums properties "" [])
  | Raise e => Raise e
  end.

End Schemas.

(** [obj] is reached from [root] by taking the keys of [path] in turn,
    going through the items of any list on the way. *)
Inductive reaches : json -> list string -> json -> Prop :=
| reaches_here obj : reaches obj [] obj
| reaches_key fields key value path obj :
    In (key, value) fields -> reaches value path obj ->
    reaches (JObj fields) (key :: path) obj
| reaches_item items item path obj :
    In item items -> reaches item path obj ->
    reaches (JArr items) path obj.

(** The key [get_field_enums] gives to what is at [path]. *)
Definition dotted (prefix : string) (path : list string) : string :=
  fold_left Schemas.new_prefix path prefix.

(** * Properties *)

(** ** Sets and the tools list *)

Lemma existsb_eqb_In (x : string) (s : list string) :
  existsb (String.eqb x) s = true <-> In x s.
Proof.
  rewrite existsb_exists. split.
  - intros [y [Hy Heq]]. apply String.eqb_eq in Heq. now subst.
  - intros Hx. exists x. split; [assumption | apply String.eqb_refl].
Qed.

Lemma set_add_In (x y : string) (s : list string) :
  In y (Py.set_add x s) <-> y = x \/ In y s.
Proof.
  unfold Py.set_add. destruct (existsb (String.eqb x) s) eqn:E.
  - apply existsb_eqb_In in E. split; [auto | intros [-> | H]; assumption].
  - rewrite in_app_iff. simpl. intuition.
Qed.

Lemma set_add_NoDup (x : string) (s : list string) :
  List.NoDup s -> List.NoDup (Py.set_add x s).
Proof.
  intros Hs. unfold Py.set_add. destruct (existsb (String.eqb x) s) eqn:E.
  - assumption.
  - assert (~ In x s) as Hx.
    { intros Hin. apply existsb_eqb_In in Hin. congruence. }
    eapply Permutation_NoDup; [apply Permutation_cons_append |].
    now constructor.
Qed.

Section FoundTools.

Variable prompt : string.

Lemma fold_found_NoDup table : forall acc,
  List.NoDup acc ->
  List.NoDup
    (fold_left
       (fun found kt => if Py.contains (fst kt) prompt
                        then Py.set_add (snd kt) found else found)
       table acc).
Proof.
  induction table as [| kt table IH]; intros acc Hacc; cbn [fold_left].
  - assumption.
  - apply IH.
    destruct (Py.contains (fst kt) prompt);
      [now apply set_add_NoDup | assumption].
Qed.

Lemma fold_found_In table t : forall acc,
  In t (fold_left
          (fun found kt => if Py.contains (fst kt) prompt
                           then Py.set_add (snd kt) found else found)
          table acc) <->
  In t acc \/ exists kw, In (kw, t) table /\ Py.contains kw prompt = true.
Proof.
  induction table as [| [kw' t'] table IH]; intros acc; cbn [fold_left].
  - split; [auto | intros [H | [kw [[] _]]]; assumption].
  - rewrite IH. cbn [fst snd In].
    destruct (Py.contains kw' prompt) eqn:E.
    + rewrite set_add_In. split.
      * intros [[-> | H] | [kw [Hin Hc]]]; [right; exists kw' | |]; eauto.
      * intros [H | [kw [[Heq | Hin] Hc]]]; eauto.
        inversion Heq; subst. auto.
    + split.
      * intros [H | [kw [Hin Hc]]]; eauto.
      * intros [H | [kw [[Heq | Hin] Hc]]]; eauto.
        inversion Heq; subst. congruence.
Qed.

Lemma found_tools_NoDup : List.NoDup (ISTVONMapper.found_tools prompt).
Proof. apply fold_found_NoDup. constructor. Qed.

Lemma found_tools_In t :
  In t (ISTVONMapper.found_tools prompt) <->
  exists kw, In (kw, t) ISTVONMapper.action_keywords /\
             Py.contains kw prompt = true.
Proof.
  unfold ISTVONMapper.found_tools. rewrite fold_found_In.
  split; [intros [[] | H]; exact H | auto].
Qed.

End FoundTools.

Lemma tool_inj : forall a b, tool a = tool b -> a = b.
Proof. intros a b H. now inversion H. Qed.

Lemma map_tool_NoDup (names : list string) :
  List.NoDup names -> List.NoDup (map tool names).
Proof.
  induction 1 as [| x l Hx Hl IH]; simpl; constructor; [| assumption].
  rewrite in_map_iff. intros [y [Heq Hy]].
  apply tool_inj in Heq. now subst.
Qed.

Lemma mapper_tools_eq order prompt :
  mapper_tools order prompt =
  match map tool (order (ISTVONMapper.found_tools (Py.lower prompt))) with
  | [] => [tool "text_generation"]
  | _ => map tool (order (ISTVONMapper.found_tools (Py.lower prompt)))
  end.
Proof. reflexivity. Qed.

Lemma insertion_order_visits : visits_members insertion_order.
Proof. intros s. apply Permutation_refl. Qed.

Lemma reverse_order_visits : visits_members reverse_order.
Proof. intros s. symmetry. apply Permutation_rev. Qed.

(** C7. Whatever order the set is iterated in, the tools list of the
    Mapper's output has no duplicates, holds the category of every keyword
    that occurs in the lower-cased prompt, is the single default entry when
    no keyword occurs, and for "Analyze and summarize this data" holds
    exactly [data_analysis] and [summarization]. *)
Theorem tools_distinct (order : set_order) (prompt : string) :
  visits_members order ->
  List.NoDup (mapper_tools order prompt) /\
  (forall kw name, In (kw, name) ISTVONMapper.action_keywords ->
     Py.contains kw (Py.lower prompt) = true ->
     In (tool name) (mapper_tools order prompt)) /\
  (forallb (fun kt => negb (keyword_matches prompt kt))
     ISTVONMapper.action_keywords = true ->
   mapper_tools order prompt = [tool "text_generation"]) /\
  Permutation (mapper_tools order "Analyze and summarize this data")
    [tool "data_analysis"; tool "summarization"].
Proof.
  intros Hord. rewrite mapper_tools_eq.
  pose proof (Hord (ISTVONMapper.found_tools (Py.lower prompt))) as Hp.
  repeat split.
  - destruct (map tool _) eqn:E.
    + repeat constructor. simpl. tauto.
    + rewrite <- E. apply map_tool_NoDup.
      eapply Permutation_NoDup; [symmetry; exact Hp |].
      apply found_tools_NoDup.
  - intros kw name Hin Hc.
    assert (In (tool name)
              (map tool (order (ISTVONMapper.found_tools (Py.lower prompt)))))
      as H.
    { apply in_map. eapply Permutation_in; [symmetry; exact Hp |].
      apply found_tools_In. eauto. }
    destruct (map tool _); [destruct H | exact H].
  - intros Hnone.
    assert (ISTVONMapper.found_tools (Py.lower prompt) = []) as E.
    { destruct (ISTVONMapper.found_tools (Py.lower prompt)) as [| t l] eqn:E;
        [reflexivity | exfalso].
      assert (In t (ISTVONMapper.found_tools (Py.lower prompt))) as Hin
        by (rewrite E; now left).
      apply found_tools_In in Hin. destruct Hin as [kw [Hin Hc]].
      rewrite forallb_forall in Hnone. specialize (Hnone _ Hin).
      unfold keyword_matches in Hnone. simpl in Hnone. rewrite Hc in Hnone.
      discriminate. }
    rewrite E in Hp. symmetry in Hp. apply Permutation_nil in Hp.
    rewrite E, Hp. reflexivity.
  - rewrite mapper_tools_eq.
    pose proof (Hord (ISTVONMapper.found_tools
                        (Py.lower "Analyze and summarize this data"))) as Hq.
    change (ISTVONMapper.found_tools (Py.lower "Analyze and summarize this data"))
      with ["data_analysis"; "summarization"] in *.
    apply (Permutation_map tool) in Hq. simpl in Hq.
    destruct (map tool _) eqn:E.
    + apply Permutation_nil in Hq. discriminate.
    + exact Hq.
Qed.

Lemma tools_distinct_witness :
  List.NoDup (mapper_tools reverse_order "Create code and write code") /\
  mapper_tools reverse_order "Create code and write code" =
    [tool "code_generation"; tool "text_generation"].
Proof.
  split.
  - exact (proj1 (tools_distinct reverse_order "Create code and write code"
                    reverse_order_visits)).
  - reflexivity.
Defined.

(** ** Two runs of the Mapper *)

Lemma convert_other_fields o1 o2 prompt k :
  k <> "tools" ->
  dict_get k (ISTVONMapper.convert_to_istvon o1 prompt) =
  dict_get k (ISTVONMapper.convert_to_istvon o2 prompt).
Proof.
  intros Hk. unfold ISTVONMapper.convert_to_istvon, dict_get.
  destruct (String.eqb_spec k "tools") as [-> | _]; [contradiction |].
  reflexivity.
Qed.

Lemma Permutation_short {A} (l l' : list A) :
  Permutation l l' -> (List.length l' <= 1)%nat -> l = l'.
Proof.
  intros Hp Hlen. destruct l' as [| x [| y l']]; simpl in Hlen; try lia.
  - now apply Permutation_nil, Permutation_sym.
  - now apply Permutation_length_1_inv, Permutation_sym.
Qed.

(** C4, as stated, fails: the set of matched categories is iterated in an
    order the code does not fix, and under two admissible orders the
    structures for "Analyze and summarize this data" differ. *)
Lemma tools_order_differs :
  visits_members insertion_order /\ visits_members reverse_order /\
  ISTVONMapper.convert_to_istvon insertion_order
    "Analyze and summarize this data"
  <> ISTVONMapper.convert_to_istvon reverse_order
       "Analyze and summarize this data".
Proof.
  split; [exact insertion_order_visits |].
  split; [exact reverse_order_visits |].
  intros H. apply (f_equal (dict_get "tools")) in H.
  vm_compute in H. discriminate.
Qed.

(** C4, amended. Two runs of the Mapper on one prompt agree on every field
    but [tools]; their tools lists hold the same entries, one a permutation
    of the other; and the two structures are identical when the set is
    iterated in the same order in both runs or at most one category was
    matched. *)
Theorem mapper_same_up_to_tools_order (o1 o2 : set_order) (prompt : string) :
  visits_members o1 -> visits_members o2 ->
  (forall k, k <> "tools" ->
     dict_get k (ISTVONMapper.convert_to_istvon o1 prompt) =
     dict_get k (ISTVONMapper.convert_to_istvon o2 prompt)) /\
  dict_get "tools" (ISTVONMapper.convert_to_istvon o1 prompt) =
    Some (JArr (mapper_tools o1 prompt)) /\
  dict_get "tools" (ISTVONMapper.convert_to_istvon o2 prompt) =
    Some (JArr (mapper_tools o2 prompt)) /\
  Permutation (mapper_tools o1 prompt) (mapper_tools o2 prompt) /\
  (o1 (ISTVONMapper.found_tools (Py.lower prompt)) =
   o2 (ISTVONMapper.found_tools (Py.lower prompt)) \/
   (List.length (ISTVONMapper.found_tools (Py.lower prompt)) <= 1)%nat ->
   ISTVONMapper.convert_to_istvon o1 prompt =
   ISTVONMapper.convert_to_istvon o2 prompt).
Proof.
  intros H1 H2.
  pose proof (H1 (ISTVONMapper.found_tools (Py.lower prompt))) as P1.
  pose proof (H2 (ISTVONMapper.found_tools (Py.lower prompt))) as P2.
  assert (Permutation (o1 (ISTVONMapper.found_tools (Py.lower prompt)))
            (o2 (ISTVONMapper.found_tools (Py.lower prompt)))) as P12
    by (etransitivity; [exact P1 | symmetry; exact P2]).
  split; [intros k Hk; now apply convert_other_fields |].
  split; [reflexivity |]. split; [reflexivity |].
  split.
  - rewrite !mapper_tools_eq.
    apply (Permutation_map tool) in P12.
    destruct (map tool (o1 _)) eqn:E1, (map tool (o2 _)) eqn:E2.
    + apply Permutation_refl.
    + apply Permutation_nil in P12. discriminate.
    + symmetry in P12. apply Permutation_nil in P12. discriminate.
    + exact P12.
  - intros Hsame.
    assert (o1 (ISTVONMapper.found_tools (Py.lower prompt)) =
            o2 (ISTVONMapper.found_tools (Py.lower prompt))) as E.
    { destruct Hsame as [E | Hlen]; [exact E |].
      rewrite (Permutation_short _ _ P1 Hlen).
      now rewrite (Permutation_short _ _ P2 Hlen). }
    unfold ISTVONMapper.convert_to_istvon, ISTVONMapper._extract_tools.
    rewrite E. reflexivity.
Qed.

Lemma mapper_same_up_to_tools_order_witness :
  Permutation
    (mapper_tools insertion_order "Analyze and summarize this data")
    (mapper_tools reverse_order "Analyze and summarize this data").
Proof.
  exact (proj1 (proj2 (proj2 (proj2
    (mapper_same_up_to_tools_order insertion_order reverse_order
       "Analyze and summarize this data"
       insertion_order_visits reverse_order_visits))))).
Defined.

(** ** The Mapper's output against the schema *)

Lemma enum_member (s : string) (values : list string) :
  In s values ->
  existsb (JsonSchema.json_eqb (JStr s)) (map JStr values) = true.
Proof.
  intros H. apply existsb_exists. exists (JStr s). split.
  - now apply in_map.
  - simpl. apply String.eqb_refl.
Qed.

Lemma first_keyword_value table text v :
  ISTVONMapper.first_keyword table text = Some v -> In v (map snd table).
Proof.
  induction table as [| [k v'] table IH]; simpl; [discriminate |].
  destruct (Py.contains k text); [intros [= ->]; now left | auto].
Qed.

Lemma concat_imap_nil {A B} (l : list A) : forall (f : nat -> A -> list B),
  (forall i x, In x l -> f i x = []) -> concat (imap f l) = [].
Proof.
  induction l as [| x l IH]; intros f Hf; simpl; [reflexivity |].
  rewrite Hf by now left. simpl. apply IH. intros i y Hy. apply Hf. now right.
Qed.

Lemma object_errors required props fields :
  JsonSchema.iter_errors (object_of required props) (JObj fields) =
  (map (fun k => {| JsonSchema.path := [];
                    JsonSchema.error_message := JsonSchema.RequiredProperty k |})
     (List.filter (fun k => negb (dict_has k fields)) required)
   ++ flat_map (property_errors fields) props)%list.
Proof.
  unfold object_of. cbn [JsonSchema.iter_errors JsonSchema.is_type app].
  f_equal. induction props as [| [k sub] props IH]; [reflexivity |].
  cbn [flat_map]. rewrite <- IH. reflexivity.
Qed.

Lemma array_errors sub elements :
  (forall v, In v elements -> JsonSchema.iter_errors sub v = []) ->
  JsonSchema.iter_errors (array_of sub) (JArr elements) = [].
Proof.
  intros H. unfold array_of.
  cbn [JsonSchema.iter_errors JsonSchema.is_type app].
  apply concat_imap_nil. intros i v Hv. now rewrite H.
Qed.

Ltac check_fragment :=
  unfold one_of;
  cbn -[Py.strip Re.group Py.join Py.slice Py.split String.append existsb
        JsonSchema.json_eqb];
  rewrite ?enum_member by assumption; reflexivity.

Section MapperValid.

Variable e : enumerations.
Hypothesis He : covers_named_values e.

Lemma source_data_ok prompt :
  JsonSchema.iter_errors
    (array_of
       (object_of ["type"; "source"]
          [ ("type", one_of (source_types e));
            ("source", typed JsonSchema.TString);
            ("description", typed JsonSchema.TString);
            ("required", typed JsonSchema.TBoolean) ]))
    (JArr (ISTVONMapper._extract_source_data prompt)) = [].
Proof.
  destruct He as (Hsrc & _).
  assert (In "none" (source_types e)) by (apply Hsrc; simpl; auto).
  assert (In "knowledge_base" (source_types e)) by (apply Hsrc; simpl; auto).
  apply array_errors. intros v Hv.
  unfold ISTVONMapper._extract_source_data in Hv.
  destruct (Py.any_in _ prompt); [| destruct (Py.any_in _ prompt)];
    destruct Hv as [<- | []]; check_fragment.
Qed.

Lemma tools_ok order prompt :
  JsonSchema.iter_errors
    (array_of
       (object_of ["name"]
          [ ("name", typed JsonSchema.TString);
            ("version", typed JsonSchema.TString);
            ("parameters", typed JsonSchema.TObject) ]))
    (JArr (ISTVONMapper._extract_tools order prompt)) = [].
Proof.
  apply array_errors. intros v Hv.
  assert (exists name, v = tool name) as [name ->]; [| reflexivity].
  unfold ISTVONMapper._extract_tools in Hv.
  destruct (map _ (order _)) eqn:E.
  - destruct Hv as [<- | []]. now exists "text_generation".
  - rewrite <- E in Hv. apply in_map_iff in Hv. destruct Hv as [name [<- _]].
    now exists name.
Qed.

Lemma variables_ok prompt :
  JsonSchema.iter_errors
    (object_of []
       [ ("topic", typed JsonSchema.TString);
         ("tone", one_of (tones e));
         ("length", typed JsonSchema.TString);
         ("target_audience", typed JsonSchema.TString);
         ("priority", one_of (priorities e));
         ("language", typed JsonSchema.TString) ])
    (JObj (ISTVONMapper._extract_variables prompt)) = [].
Proof.
  destruct He as (_ & Htone & Hprio & _).
  assert (In "medium" (priorities e)) as Hmed by (apply Hprio; simpl; auto).
  assert (forall t, ISTVONMapper.first_keyword ISTVONMapper.tone_indicators
                      (Py.lower prompt) = Some t -> In t (tones e)) as Ht.
  { intros t H. apply first_keyword_value in H. now apply Htone. }
  assert (In "professional" (tones e)) as Hpro by (apply Htone; simpl; auto).
  unfold ISTVONMapper._extract_variables.
  destruct (Re.search true (ISTVONMapper.clause_after "about") prompt);
    [| destruct (3 <? List.length (Py.split prompt))%nat];
    (destruct (ISTVONMapper.first_keyword ISTVONMapper.tone_indicators
                 (Py.lower prompt)) as [t |];
     [specialize (Ht t eq_refl) | clear Ht]);
    destruct (Re.search false ISTVONMapper.length_re (Py.lower prompt));
    destruct (Re.search true (ISTVONMapper.clause_after "for") prompt);
    check_fragment.
Qed.

Lemma outcome_ok prompt :
  JsonSchema.iter_errors
    (object_of ["format"; "delivery"]
       [ ("format", one_of (formats e));
         ("delivery", one_of (deliveries e));
         ("filename", typed JsonSchema.TString);
         ("destination", typed JsonSchema.TString) ])
    (JObj (ISTVONMapper._extract_outcome prompt)) = [].
Proof.
  destruct He as (_ & _ & _ & Hfmt & Hdel & _).
  assert (In "plain_text" (formats e)) by (apply Hfmt; simpl; auto).
  assert (In "display" (deliveries e)) by (apply Hdel; simpl; auto).
  assert (In "save_to_file" (deliveries e)) by (apply Hdel; simpl; auto).
  assert (forall f, ISTVONMapper.first_keyword ISTVONMapper.output_formats prompt
                    = Some f -> In f (formats e)) as Hf.
  { intros f Hf. apply first_keyword_value in Hf. apply Hfmt.
    simpl in Hf. simpl. intuition. }
  unfold ISTVONMapper._extract_outcome.
  destruct (ISTVONMapper.first_keyword _ prompt) as [f |];
    [specialize (Hf f eq_refl) | clear Hf];
    destruct (Py.any_in _ prompt); check_fragment.
Qed.

Lemma notification_ok prompt :
  JsonSchema.iter_errors
    (object_of ["method"; "trigger"]
       [ ("method", one_of (methods e));
         ("trigger", one_of (triggers e));
         ("recipient", typed JsonSchema.TString);
         ("message_template", typed JsonSchema.TString) ])
    (JObj (ISTVONMapper._extract_notification prompt)) = [].
Proof.
  destruct He as (_ & _ & _ & _ & _ & Hmeth & Htrig).
  assert (In "none" (methods e)) by (apply Hmeth; simpl; auto).
  assert (In "email" (methods e)) by (apply Hmeth; simpl; auto).
  assert (In "in_app" (methods e)) by (apply Hmeth; simpl; auto).
  assert (In "on_completion" (triggers e)) by (apply Htrig; simpl; auto).
  unfold ISTVONMapper._extract_notification.
  destruct (_ || _); [| destruct (_ || _)]; check_fragment.
Qed.

Lemma mapper_output_no_errors order prompt :
  JsonSchema.iter_errors (istvon_schema e)
    (JObj (ISTVONMapper.convert_to_istvon order prompt)) = [].
Proof.
  unfold istvon_schema, ISTVONMapper.convert_to_istvon.
  rewrite object_errors.
  cbn -[JsonSchema.iter_errors ISTVONMapper._extract_instructions
        ISTVONMapper._extract_source_data ISTVONMapper._extract_tools
        ISTVONMapper._extract_variables ISTVONMapper._extract_outcome
        ISTVONMapper._extract_notification array_of object_of one_of typed].
  rewrite source_data_ok, tools_ok, variables_ok, outcome_ok, notification_ok.
  reflexivity.
Qed.

Lemma minimal_valid (instructions : string) :
  Validator.validate_istvon {| schema := istvon_schema e |}
    (Validator.create_minimal_istvon instructions) = (true, None).
Proof.
  destruct He as (Hsrc & Htone & Hprio & Hfmt & Hdel & Hmeth & Htrig).
  unfold Validator.validate_istvon, JsonSchema.validate, istvon_schema, one_of.
  cbn -[existsb JsonSchema.json_eqb].
  rewrite !enum_member by
    (first [apply Hsrc | apply Htone | apply Hprio | apply Hfmt | apply Hdel
           | apply Hmeth | apply Htrig]; simpl; tauto).
  reflexivity.
Qed.

End MapperValid.

Lemma named_values_cover : covers_named_values named_values.
Proof. unfold covers_named_values. repeat split; apply incl_refl. Qed.

(** C2. Under a schema of the described shape whose value sets hold the
    values the spec names, the Mapper's output for any prompt, and under any
    iteration order, passes full validation. *)
Theorem mapper_output_valid (e : enumerations) (order : set_order)
    (prompt : string) :
  covers_named_values e ->
  Validator.validate_istvon {| schema := istvon_schema e |}
    (ISTVONMapper.convert_to_istvon order prompt) = (true, None).
Proof.
  intros He. unfold Validator.validate_istvon, JsonSchema.validate.
  cbn [schema]. now rewrite mapper_output_no_errors.
Qed.

Lemma mapper_output_valid_witness :
  Validator.validate_istvon {| schema := istvon_schema named_values |}
    (ISTVONMapper.convert_to_istvon insertion_order
       "Please summarize the internal report in 2 pages for the board, ok?")
  = (true, None).
Proof.
  exact (mapper_output_valid named_values insertion_order
           "Please summarize the internal report in 2 pages for the board, ok?"
           named_values_cover).
Defined.

(** ** Partial validation *)

Lemma check_required_eq required_fields partial_data : forall errors,
  Validator.check_required required_fields partial_data errors =
  (errors ++ map MissingRequiredField
     (List.filter (fun field => negb (dict_has field partial_data))
        required_fields))%list.
Proof.
  unfold Validator.check_required.
  induction required_fields as [| f fs IH]; intros errors; cbn [fold_left].
  - now rewrite app_nil_r.
  - rewrite IH. cbn [List.filter].
    destruct (negb (dict_has f partial_data)); [| reflexivity].
    now rewrite <- app_assoc.
Qed.

Lemma check_fields_eq schema_props partial_data : forall errors,
  Validator.check_fields schema_props partial_data errors =
  (errors ++ flat_map (field_errors schema_props) partial_data)%list.
Proof.
  unfold Validator.check_fields.
  induction partial_data as [| [f v] d IH]; intros errors;
    cbn [fold_left flat_map].
  - now rewrite app_nil_r.
  - rewrite IH. unfold field_errors at 2. cbn [fst snd].
    destruct (dict_get f schema_props) as [s |]; [| reflexivity].
    destruct (JsonSchema.validate v s); [| reflexivity].
    now rewrite <- app_assoc.
Qed.

Lemma dict_has_del {V} (k k' : string) (d : dict V) :
  dict_has k (dict_del k' d) = negb (String.eqb k' k) && dict_has k d.
Proof.
  unfold dict_has, dict_del.
  induction d as [| [k0 v] d IH]; cbn [List.filter dict_get fst].
  - now rewrite andb_false_r.
  - destruct (String.eqb_spec k' k0) as [-> | Hne]; cbn [negb dict_get].
    + rewrite IH.
      destruct (String.eqb_spec k0 k) as [-> | Hne']; cbn [negb andb].
      * reflexivity.
      * destruct (String.eqb_spec k k0); [congruence | reflexivity].
    + destruct (String.eqb_spec k k0) as [-> | Hne'].
      * destruct (String.eqb_spec k' k0); [congruence | reflexivity].
      * exact IH.
Qed.

Lemma filter_missing_required (fields : list string) :
  List.filter is_missing_field (map MissingRequiredField fields) =
  map MissingRequiredField fields.
Proof. induction fields; cbn; congruence. Qed.

Lemma filter_missing_field_errors props (d : dict json) :
  List.filter is_missing_field (flat_map (field_errors props) d) = [].
Proof.
  induction d as [| [f v] d IH]; cbn [flat_map]; [reflexivity |].
  rewrite List.filter_app, IH, app_nil_r. unfold field_errors. cbn [fst snd].
  destruct (dict_get f props) as [s |]; [| reflexivity].
  destruct (JsonSchema.validate v s); reflexivity.
Qed.

Lemma validate_partial_errors self partial_data required_only :
  snd (Validator.validate_partial self partial_data required_only) =
  ((if required_only
    then map MissingRequiredField
           (List.filter (fun field => negb (dict_has field partial_data))
              (JsonSchema.required (schema self)))
    else [])
   ++ flat_map (field_errors (JsonSchema.properties (schema self)))
        partial_data)%list.
Proof.
  unfold Validator.validate_partial. cbn [snd].
  rewrite check_fields_eq. destruct required_only; [| reflexivity].
  now rewrite check_required_eq.
Qed.

Lemma validate_partial_ok self partial_data required_only :
  fst (Validator.validate_partial self partial_data required_only) = true <->
  snd (Validator.validate_partial self partial_data required_only) = [].
Proof.
  unfold Validator.validate_partial. cbn [fst snd].
  destruct (Validator.check_fields _ _ _); cbn; split; congruence.
Qed.

Lemma missing_fields_reported self partial_data :
  List.filter is_missing_field
    (snd (Validator.validate_partial self partial_data true)) =
  map MissingRequiredField
    (List.filter (fun field => negb (dict_has field partial_data))
       (JsonSchema.required (schema self))).
Proof.
  now rewrite validate_partial_errors, List.filter_app,
    filter_missing_field_errors, app_nil_r, filter_missing_required.
Qed.

Lemma field_errors_set_unknown props (k : string) (v : json) (d : dict json) :
  dict_get k props = None ->
  flat_map (field_errors props) (dict_set k v d) =
  flat_map (field_errors props) d.
Proof.
  intros Hk.
  assert (forall x, field_errors props (k, x) = []) as Hnone.
  { intros x. unfold field_errors. cbn [fst]. now rewrite Hk. }
  induction d as [| [k' v'] d IH]; cbn [dict_set flat_map].
  - now rewrite Hnone.
  - destruct (String.eqb_spec k k') as [<- | Hne]; cbn [flat_map].
    + now rewrite !Hnone.
    + now rewrite IH.
Qed.

Lemma field_errors_known props (d : dict json) field msg :
  In (FieldError field msg) (flat_map (field_errors props) d) ->
  exists s, dict_get field props = Some s.
Proof.
  rewrite in_flat_map. intros [[f v] [_ Hin]]. unfold field_errors in Hin.
  cbn [fst snd] in Hin.
  destruct (dict_get f props) as [s |] eqn:E; [| destruct Hin].
  destruct (JsonSchema.validate v s); [| destruct Hin].
  destruct Hin as [[= <- _] | []]. eauto.
Qed.

Lemma field_errors_all_valid props (d : dict json) :
  (forall field x s, In (field, x) d -> dict_get field props = Some s ->
                     JsonSchema.validate x s = None) ->
  flat_map (field_errors props) d = [].
Proof.
  induction d as [| [f v] d IH]; intros H; cbn [flat_map]; [reflexivity |].
  rewrite IH by (intros; eapply H; [right |]; eassumption).
  rewrite app_nil_r. unfold field_errors. cbn [fst snd].
  destruct (dict_get f props) as [s |] eqn:E; [| reflexivity].
  now rewrite (H f v s (or_introl eq_refl) E).
Qed.

(** ** Suggestions *)

Lemma truthy_text (text : string) :
  truthy (JStr text) = negb (String.eqb text "").
Proof. reflexivity. Qed.

Lemma minimal_has_advice (instructions : string) :
  exists advice,
    Validator.get_validation_suggestions
      (Validator.create_minimal_istvon instructions) = Return advice /\
    advice <> [].
Proof.
  unfold Validator.get_validation_suggestions.
  cbn [Validator.create_minimal_istvon dict_get String.eqb Ascii.eqb Bool.eqb].
  rewrite truthy_text.
  destruct (negb (String.eqb instructions ""));
    [destruct (List.length (Py.split instructions) <? 5)%nat;
     destruct (negb (Py.any_in _ (Py.lower instructions))) |];
    (eexists; split; [reflexivity | discriminate]).
Qed.

(** C9, as stated, fails for the empty text: it has no words, and the
    suggestions for a record with empty instructions have no entry under
    [instructions]. *)
Lemma empty_instructions_get_no_advisory :
  ~ (forall (record : dict json) (text : string),
       dict_get "instructions" record = Some (JStr text) ->
       (List.length (Py.split text) < 5)%nat ->
       exists suggestions advisories,
         Validator.get_validation_suggestions record = Return suggestions /\
         dict_get "instructions" suggestions = Some advisories /\
         In Validator.more_detailed advisories).
Proof.
  intros H.
  destruct (H (Validator.create_minimal_istvon "") "" eq_refl)
    as (s & a & Hs & Ha & _).
  - simpl. lia.
  - vm_compute in Hs. injection Hs as <-. discriminate Ha.
Qed.

(** ** The store *)

Lemma bind_run {A B} (m : M A) (f : A -> M B) (h : heap) :
  (m ≫= f) h =
  match m h with
  | (Return a, h') => f a h'
  | (Raise e, h') => (Raise e, h')
  end.
Proof. reflexivity. Qed.

Lemma lookup_app_plus (h s : heap) (i : nat) :
  (h ++ s)%list !! (List.length h + i)%nat = s !! i.
Proof. induction h; simpl; auto. Qed.

Lemma lookup_app_here (h s : heap) :
  (h ++ s)%list !! (List.length h) = s !! 0%nat.
Proof. rewrite <- (lookup_app_plus h s 0). now rewrite Nat.add_0_r. Qed.

Lemma insert_app_plus (h s : heap) (i : nat) (o : object) :
  <[(List.length h + i)%nat := o]> (h ++ s)%list = (h ++ <[i := o]> s)%list.
Proof. induction h; simpl; auto. unfold insert in *. simpl. now f_equal. Qed.

Lemma insert_app_here (h s : heap) (o : object) :
  <[List.length h := o]> (h ++ s)%list = (h ++ <[0%nat := o]> s)%list.
Proof. rewrite <- (insert_app_plus h s 0). now rewrite Nat.add_0_r. Qed.

(** Locations are kept in the form [length h + i] and stores in the form
    [h ++ s], with [s] the part built since [h]. *)
Ltac heap_norm :=
  repeat first
    [ rewrite length_app | rewrite <- app_assoc | rewrite <- Nat.add_assoc
    | rewrite lookup_app_plus | rewrite lookup_app_here
    | rewrite insert_app_plus | rewrite insert_app_here ].

Ltac run :=
  repeat (progress
            (unfold mbind, mret, M_bind, M_ret, Store.alloc, Store.load,
               Store.store, Store.raise;
             cbn; heap_norm)).

Lemma init_spec sch h :
  Builder.__init__ sch h =
  (Return {| validator := {| schema := sch |};
             istvon := (List.length h + 5)%nat |},
   minimal_store h "").
Proof.
  unfold Builder.__init__, Store.new_record, minimal_store. run. reflexivity.
Qed.

Lemma view_minimal_store h i :
  Store.view (List.length h + 5)%nat (minimal_store h i) =
  (Return (Validator.create_minimal_istvon i), minimal_store h i).
Proof. unfold Store.view, minimal_store. run. reflexivity. Qed.

Lemma init_view sch h :
  (b ← Builder.__init__ sch; Store.view (istvon b)) h =
  (Return (Validator.create_minimal_istvon ""), minimal_store h "").
Proof. rewrite bind_run, init_spec. cbn [istvon]. apply view_minimal_store. Qed.

Lemma load_heap l h : snd (Store.load l h) = h.
Proof. unfold Store.load. now destruct (h !! l). Qed.

Lemma read_heap v h : snd (Store.read v h) = h.
Proof.
  destruct v as [j | l]; [reflexivity |]. unfold Store.read. rewrite bind_run.
  unfold Store.load. destruct (h !! l) as [[| |] |]; reflexivity.
Qed.

Lemma read_fields_heap (fields : dict value) h :
  snd (mapM (fun kv => j ← Store.read (snd kv); mret (fst kv, j)) fields h) = h.
Proof.
  revert h. induction fields as [| [k v] fields IH]; intros h; [reflexivity |].
  cbn [mapM]. rewrite !bind_run. cbn [snd fst].
  pose proof (read_heap v h) as Hr.
  destruct (Store.read v h) as [[j | e] h1]; cbn [snd] in Hr; subst h1;
    [| reflexivity].
  cbn. rewrite bind_run.
  specialize (IH h).
  match goal with
  | |- context [@mapM M ?b ?r ?A ?B ?f fields h] =>
      destruct (@mapM M b r A B f fields h) as [[js | e] h2]
  end; cbn [snd] in IH; subst h2; reflexivity.
Qed.

(** Reading a record leaves the store as it is. *)
Lemma view_heap record h : snd (Store.view record h) = h.
Proof.
  unfold Store.view. rewrite bind_run. unfold Store.load.
  destruct (h !! record) as [[| |fields] |]; try reflexivity.
  apply read_fields_heap.
Qed.

Lemma view_is_record record h data :
  fst (Store.view record h) = Return data ->
  exists fields, h !! record = Some (ORecord fields).
Proof.
  unfold Store.view. rewrite bind_run. unfold Store.load.
  destruct (h !! record) as [[| |fields] |]; try discriminate. eauto.
Qed.

(** ** Suggestions and the verdict *)

(** C9, amended. For a record whose instructions are a non-empty text of
    fewer than 5 words and whose variables, if there are any, are a value
    [in] is defined on, the suggestions hold the add-detail advisory under
    [instructions]; for empty instructions they have no entry under
    [instructions]; with variables [in] is not defined on, the call
    raises [TypeError].  Suggestions never affect the verdict: computing
    them for a record in the store returns what they are for its value
    and leaves the store as it was, so that [validate_istvon] on the same
    record gives after it what it gave before; and a record can pass
    [validate_istvon] while drawing suggestions, as the minimal record for
    any instructions does. *)
Theorem short_instructions_advisory (e : enumerations) :
  covers_named_values e ->
  (forall (record : dict json) (text : string),
     dict_get "instructions" record = Some (JStr text) ->
     (supports_in (variables_of record) = true ->
      exists suggestions,
        Validator.get_validation_suggestions record = Return suggestions /\
        (text <> "" -> (List.length (Py.split text) < 5)%nat ->
         exists advisories,
           dict_get "instructions" suggestions = Some advisories /\
           In Validator.more_detailed advisories) /\
        (text = "" -> dict_get "instructions" suggestions = None)) /\
     (supports_in (variables_of record) = false ->
      Validator.get_validation_suggestions record = Raise TypeError)) /\
  (forall (self : ISTVONValidator) (h : heap) (record : loc)
          (data : dict json),
     Store.view record h = (Return data, h) ->
     suggestions_on self record h =
       (Validator.get_validation_suggestions data, h) /\
     verdict_on self record h =
       (Return (Validator.validate_istvon self data), h) /\
     verdict_on self record (snd (suggestions_on self record h)) =
       verdict_on self record h) /\
  (forall instructions,
     Validator.validate_istvon {| schema := istvon_schema e |}
       (Validator.create_minimal_istvon instructions) = (true, None) /\
     exists advice,
       Validator.get_validation_suggestions
         (Validator.create_minimal_istvon instructions) = Return advice /\
       advice <> []).
Proof.
  intros He. split; [| split].
  - intros record text Hinst.
    unfold Validator.get_validation_suggestions. rewrite Hinst.
    rewrite truthy_text.
    change (match dict_get "variables" record with
            | Some v => v
            | None => JObj []
            end) with (variables_of record).
    set (sd := truthy match dict_get "source_data" record with
                      | Some v => v | None => JArr [] end).
    set (verb := negb (Py.any_in ["create"; "write"; "analyze"; "generate"]
                         (Py.lower text))).
    split.
    + intros Hvars.
      assert (exists no_topic no_audience,
                Validator.not_in "topic" (variables_of record)
                  = Return no_topic /\
                Validator.not_in "target_audience" (variables_of record)
                  = Return no_audience) as (nt & na & -> & ->).
      { destruct (variables_of record); try discriminate Hvars;
          cbn [Validator.not_in]; eauto. }
      destruct (String.eqb_spec text "") as [-> | Hne]; cbn [negb].
      * eexists. split; [reflexivity |]. split; [congruence |].
        intros _. destruct sd, nt, na; reflexivity.
      * eexists. split; [reflexivity |]. split; [| congruence].
        intros _ Hshort. apply Nat.ltb_lt in Hshort. rewrite Hshort.
        exists (if verb
                then [Validator.more_detailed; Validator.action_verb]
                else [Validator.more_detailed]).
        split.
        -- destruct verb, sd, nt, na; reflexivity.
        -- destruct verb; simpl; auto.
    + intros Hvars.
      assert (Validator.not_in "topic" (variables_of record) = Raise TypeError)
        as ->.
      { destruct (variables_of record); try discriminate Hvars; reflexivity. }
      destruct (negb (String.eqb text "")); reflexivity.
  - intros self h record data Hview.
    assert (suggestions_on self record h =
            (Validator.get_validation_suggestions data, h)) as Hs.
    { unfold suggestions_on. rewrite bind_run, Hview.
      destruct (Validator.get_validation_suggestions data); reflexivity. }
    assert (verdict_on self record h =
            (Return (Validator.validate_istvon self data), h)) as Hv.
    { unfold verdict_on. rewrite bind_run, Hview. reflexivity. }
    split; [exact Hs |]. split; [exact Hv |]. rewrite Hs. reflexivity.
  - intros i. split; [now apply minimal_valid | apply minimal_has_advice].
Qed.

Lemma short_instructions_advisory_witness :
  exists suggestions,
    Validator.get_validation_suggestions
      (Validator.create_minimal_istvon "Write a poem") = Return suggestions /\
    dict_get "instructions" suggestions = Some [Validator.more_detailed].
Proof.
  destruct (proj1 (proj1 (short_instructions_advisory named_values
                            named_values_cover)
                     (Validator.create_minimal_istvon "Write a poem")
                     "Write a poem" eq_refl) eq_refl)
    as [suggestions [Hs _]].
  exists suggestions. split; [exact Hs |].
  vm_compute in Hs. injection Hs as <-. reflexivity.
Defined.

(** ** What the Builder's methods keep *)

Import Store Builder.

Section Hoare.

Variable r : loc.

Lemma hoare_bind {A B} pre (m : M A) mid (f : A -> M B) post :
  hoare r pre m mid -> (forall a, hoare r (mid a) (f a) post) ->
  hoare r pre (m ≫= f) post.
Proof.
  intros Hm Hf h Hpre. rewrite bind_run. specialize (Hm h Hpre).
  destruct (m h) as [[a | e] h']; [now apply Hf | exact Hm].
Qed.

Lemma hoare_ret {A} (pre : heap -> Prop) (a : A) (post : A -> heap -> Prop) :
  (forall h, pre h -> post a h) -> hoare r pre (mret a) post.
Proof. intros H h Hpre. now apply H. Qed.

Lemma hoare_raise {A} (pre : heap -> Prop) e (post : A -> heap -> Prop) :
  (forall h, pre h -> readable r h) -> hoare r pre (raise e) post.
Proof. intros H h Hpre. now apply H. Qed.

Lemma hoare_weaken {A} (pre pre' : heap -> Prop) (m : M A) post :
  (forall h, pre' h -> pre h) -> hoare r pre m post -> hoare r pre' m post.
Proof. intros H Hm h Hpre. apply Hm. now apply H. Qed.

Lemma container_alloc h v o : container h v -> container (h ++ [o])%list v.
Proof.
  destruct v as [j | l]; [auto |]. intros [o' [Hl Ho]].
  exists o'. split; [| exact Ho]. now apply lookup_app_l_Some.
Qed.

Lemma readable_alloc h o : readable r h -> readable r (h ++ [o])%list.
Proof.
  intros [fields [Hr Hf]]. exists fields. split.
  - now apply lookup_app_l_Some.
  - eapply Forall_impl; [exact Hf |]. intros kv. apply container_alloc.
Qed.

Lemma container_store h v l o o' :
  h !! l = Some o -> (is_container o -> is_container o') ->
  container h v -> container (<[l := o']> h) v.
Proof.
  intros Hl Hkind. destruct v as [j | l']; [auto |]. intros [o1 [Hl' Ho1]].
  destruct (decide (l = l')) as [<- | Hne].
  - exists o'. split.
    + apply list_lookup_insert_eq. now apply lookup_lt_Some in Hl.
    + apply Hkind. congruence.
  - exists o1. split; [| exact Ho1]. now rewrite list_lookup_insert_ne.
Qed.

Lemma readable_store h l o o' :
  h !! l = Some o -> is_container o -> is_container o' ->
  readable r h -> readable r (<[l := o']> h).
Proof.
  intros Hl Ho Ho' [fields [Hr Hf]]. exists fields. split.
  - rewrite list_lookup_insert_ne; [exact Hr |].
    intros <-. rewrite Hl in Hr. injection Hr as ->. exact Ho.
  - eapply Forall_impl; [exact Hf |]. intros kv. now apply container_store with o.
Qed.

Lemma Forall_dict_set {V} (P : string * V -> Prop) k v (d : dict V) :
  P (k, v) -> Forall P d -> Forall P (dict_set k v d).
Proof.
  intros Hv. induction 1 as [| [k' v'] d Hx Hd IH]; cbn [dict_set].
  - now constructor.
  - destruct (String.eqb k k'); now constructor.
Qed.

Lemma readable_setitem h fields k v :
  h !! r = Some (ORecord fields) -> readable r h -> container h v ->
  readable r (<[r := ORecord (dict_set k v fields)]> h).
Proof.
  intros Hr [fields' [Hr' Hf]] Hv. rewrite Hr in Hr'. injection Hr' as <-.
  exists (dict_set k v fields). split.
  - apply list_lookup_insert_eq. now apply lookup_lt_Some in Hr.
  - apply Forall_dict_set.
    + cbn [snd]. eapply container_store; [exact Hr | | exact Hv]. auto.
    + eapply Forall_impl; [exact Hf |]. intros kv.
      eapply container_store; [exact Hr |]. auto.
Qed.

Lemma hoare_getitem k :
  hoare r (readable r) (getitem r k)
    (fun v h => readable r h /\ container h v).
Proof.
  intros h Hread. unfold getitem. rewrite bind_run. unfold load.
  destruct Hread as [fields [Hr Hf]]. rewrite Hr.
  destruct (dict_get k fields) as [v |] eqn:E; cbn.
  - split; [now exists fields |].
    rewrite Forall_forall in Hf.
    assert (In (k, v) fields) as Hin.
    { clear - E. induction fields as [| [k' v'] d IH]; [discriminate |].
      cbn [dict_get] in E. destruct (String.eqb_spec k k') as [-> | _].
      - injection E as ->. now left.
      - right. auto. }
    apply list_elem_of_In in Hin. exact (Hf _ Hin).
  - now exists fields.
Qed.

Lemma hoare_new j :
  hoare r (readable r) (new j) (fun v h => readable r h /\ container h v).
Proof.
  intros h Hread.
  destruct j; cbn; try (split; [exact Hread | exact I]).
  - split; [now apply readable_alloc |].
    eexists. split; [rewrite lookup_app_r by lia; now rewrite Nat.sub_diag |].
    exact I.
  - split; [now apply readable_alloc |].
    eexists. split; [rewrite lookup_app_r by lia; now rewrite Nat.sub_diag |].
    exact I.
Qed.

Lemma hoare_setitem k v :
  hoare r (fun h => readable r h /\ container h v) (setitem r k v)
    (fun _ h => readable r h).
Proof.
  intros h [Hread Hv]. unfold setitem. rewrite bind_run. unfold load.
  pose proof Hread as [fields [Hr Hf]]. rewrite Hr. cbn.
  now apply readable_setitem.
Qed.

Lemma hoare_items_of v :
  hoare r (readable r) (items_of v) (fun _ h => readable r h).
Proof.
  intros h Hread. destruct v as [j | l]; [exact Hread |].
  unfold items_of. rewrite bind_run. unfold load.
  destruct (h !! l) as [[| |] |]; exact Hread.
Qed.

Lemma hoare_append v x :
  hoare r (readable r) (append v x) (fun _ h => readable r h).
Proof.
  intros h Hread. destruct v as [j | l]; [exact Hread |].
  unfold append. rewrite bind_run. unfold load.
  destruct (h !! l) as [[items | |] |] eqn:E; try exact Hread.
  cbn. now apply readable_store with (OList items).
Qed.

Lemma hoare_setfield v k x :
  hoare r (readable r) (setfield v k x) (fun _ h => readable r h).
Proof.
  intros h Hread. destruct v as [j | l]; [exact Hread |].
  unfold setfield. rewrite bind_run. unfold load.
  destruct (h !! l) as [[| fields |] |] eqn:E; try exact Hread.
  cbn. now apply readable_store with (ODict fields).
Qed.

Lemma hoare_update v other :
  hoare r (readable r) (update v other) (fun _ h => readable r h).
Proof.
  intros h Hread. destruct v as [j | l]; [exact Hread |].
  unfold update. rewrite bind_run. unfold load.
  destruct (h !! l) as [[| fields |] |] eqn:E; try exact Hread.
  cbn. now apply readable_store with (ODict fields).
Qed.

Lemma hoare_is_placeholder items :
  hoare r (readable r) (is_placeholder items) (fun _ h => readable r h).
Proof.
  intros h Hread. unfold is_placeholder.
  destruct items as [| [] [|]]; exact Hread.
Qed.


Lemma hoare_pre {A} pre (m : M A) post :
  hoare r (readable r) m post -> (forall h, pre h -> readable r h) ->
  hoare r pre m post.
Proof. intros Hm H. eapply hoare_weaken; eassumption. Qed.

End Hoare.

(** One step of a Builder method: the next primitive, then the rest. *)
Ltac hoare_step :=
  lazymatch goal with
  | |- hoare _ _ (mret _) _ => apply hoare_ret; intros ? ?
  | |- hoare _ _ (_ ≫= _) _ =>
      eapply hoare_bind;
      [ first
          [ apply hoare_setitem
          | eapply hoare_pre;
            [ first [ apply hoare_getitem | apply hoare_new
                    | apply hoare_items_of | apply hoare_append
                    | apply hoare_setfield | apply hoare_update
                    | apply hoare_is_placeholder ]
            | cbn beta; intros ? ?; tauto ] ]
      | cbn beta; intros ? ]
  | |- hoare _ _ (setitem _ _ _) _ => apply hoare_setitem
  | |- hoare _ _ (setfield _ _ _) _ =>
      eapply hoare_pre; [apply hoare_setfield | cbn beta; intros ? ?; tauto]
  end.

Ltac hoare_done := unfold kept; cbn beta in *; intuition.

Lemma set_instructions_keeps self instructions :
  hoare (istvon self) (readable (istvon self))
    (set_instructions self instructions) (kept self).
Proof.
  unfold set_instructions.
  eapply hoare_bind.
  - eapply hoare_weaken; [| apply hoare_setitem].
    intros h H. split; [exact H | exact I].
  - intros ?. hoare_step. hoare_done.
Qed.

Lemma clear_tools_keeps self :
  hoare (istvon self) (readable (istvon self)) (clear_tools self) (kept self).
Proof. unfold clear_tools. repeat hoare_step. hoare_done. Qed.

Lemma add_tool_keeps self tool_name version parameters :
  hoare (istvon self) (readable (istvon self))
    (add_tool self tool_name version parameters) (kept self).
Proof. unfold add_tool. repeat hoare_step. hoare_done. Qed.

Lemma set_variables_keeps self variables :
  hoare (istvon self) (readable (istvon self))
    (set_variables self variables) (kept self).
Proof. unfold set_variables. repeat hoare_step. hoare_done. Qed.

Lemma add_source_data_keeps self source_type source description required :
  hoare (istvon self) (readable (istvon self))
    (add_source_data self source_type source description required)
    (kept self).
Proof.
  unfold add_source_data. do 3 hoare_step.
  eapply hoare_bind with (mid := fun _ h => readable (istvon self) h).
  - match goal with
    | |- hoare _ _ (if ?placeholder then _ else _) _ => destruct placeholder
    end; [repeat hoare_step | hoare_step; hoare_done].
  - intros ?. repeat hoare_step. hoare_done.
Qed.

Lemma optional_field_keeps (r : loc) (k field : string) (x : option string) :
  hoare r (readable r)
    (match x with
     | Some s => o ← getitem r k; setfield o field (JStr s)
     | None => mret tt
     end)
    (fun _ h => readable r h).
Proof. destruct x; repeat hoare_step. assumption. Qed.

Lemma set_outcome_keeps self format_type delivery filename destination
    other_options :
  hoare (istvon self) (readable (istvon self))
    (set_outcome self format_type delivery filename destination other_options)
    (kept self).
Proof.
  unfold set_outcome. do 2 hoare_step.
  eapply hoare_bind; [apply optional_field_keeps | intros ?].
  eapply hoare_bind; [apply optional_field_keeps | intros ?].
  repeat hoare_step. hoare_done.
Qed.

Lemma set_notification_keeps self method recipient trigger message_template :
  hoare (istvon self) (readable (istvon self))
    (set_notification self method recipient trigger message_template)
    (kept self).
Proof.
  unfold set_notification. do 2 hoare_step.
  eapply hoare_bind; [apply optional_field_keeps | intros ?].
  eapply hoare_bind; [apply optional_field_keeps | intros ?].
  repeat hoare_step. hoare_done.
Qed.

Lemma call_keeps self op :
  hoare (istvon self) (readable (istvon self)) (call self op) (kept self).
Proof.
  destruct op; cbn [call];
    auto using set_instructions_keeps, add_source_data_keeps, clear_tools_keeps,
      add_tool_keeps, set_variables_keeps, set_outcome_keeps,
      set_notification_keeps.
Qed.

Lemma chain_keeps ops : forall self,
  hoare (istvon self) (readable (istvon self)) (chain self ops) (kept self).
Proof.
  induction ops as [| op ops IH]; intros self; cbn [chain].
  - apply hoare_ret. intros h H. now split.
  - eapply hoare_bind; [apply call_keeps |].
    intros b. intros h [-> Hread]. now apply IH.
Qed.

Lemma minimal_store_readable h instructions :
  readable (List.length h + 5) (minimal_store h instructions).
Proof.
  unfold readable, minimal_store. eexists. split.
  - rewrite lookup_app_plus. reflexivity.
  - repeat constructor; cbn [snd container];
      eexists; (split; [first [rewrite lookup_app_plus | rewrite lookup_app_here];
                        reflexivity | exact I]).
Qed.

Lemma readable_view record h :
  readable record h -> exists data, view record h = (Return data, h).
Proof.
  intros [fields [Hr Hf]]. unfold view. rewrite bind_run. unfold load.
  rewrite Hr. clear Hr. induction Hf as [| [k v] fields Hv Hf IH].
  - now exists [].
  - destruct IH as [data IH]. cbn [mapM]. rewrite !bind_run.
    assert (exists j, read v h = (Return j, h)) as [j Hj].
    { destruct v as [j | l]; [now exists j |].
      destruct Hv as [o [Hl Ho]]. unfold read. rewrite bind_run. unfold load.
      cbn [snd]. rewrite Hl. destruct o; [eauto | eauto | destruct Ho]. }
    cbn [snd fst]. rewrite Hj. cbn. rewrite bind_run, IH. eauto.
Qed.

(** A builder reached from a new one by a chain of calls can be read. *)
Lemma reached_readable sch ops h0 self h :
  (b ← __init__ sch; chain b ops) h0 = (Return self, h) ->
  readable (istvon self) h.
Proof.
  rewrite bind_run, init_spec. intros Hrun.
  pose proof (chain_keeps ops
                {| validator := {| schema := sch |};
                   istvon := (List.length h0 + 5)%nat |}
                (minimal_store h0 "") (minimal_store_readable h0 "")) as H.
  rewrite Hrun in H. destruct H as [-> H]. exact H.
Qed.


(** ** What partial validation reports *)

(** C5. With [required_only], [validate_partial] reports one missing-field
    error for each required key the record lacks, in the order of the
    schema's list; with or without it, every entry of the record whose key
    the schema describes is checked and each failing one adds its error, in
    the record's order; the verdict is true exactly when the list is empty.
    Under a schema requiring the six keys, a complete record without
    [tools] draws the single missing-field error for [tools], and the
    Builder's initial record draws none. *)
Theorem validate_partial_reports (self : ISTVONValidator)
    (partial_data complete : dict json) (required_only : bool) :
  JsonSchema.required (schema self) = top_level_keys ->
  (forall k, In k top_level_keys -> dict_has k complete = true) ->
  snd (Validator.validate_partial self partial_data required_only) =
    ((if required_only
      then map MissingRequiredField
             (List.filter (fun field => negb (dict_has field partial_data))
                (JsonSchema.required (schema self)))
      else [])
     ++ flat_map (field_errors (JsonSchema.properties (schema self)))
          partial_data)%list /\
  (fst (Validator.validate_partial self partial_data required_only) = true <->
   snd (Validator.validate_partial self partial_data required_only) = []) /\
  List.filter is_missing_field
    (snd (Validator.validate_partial self (dict_del "tools" complete) true)) =
    [MissingRequiredField "tools"] /\
  (forall h : heap,
     exists initial h',
       (b ← Builder.__init__ (schema self); Store.view (istvon b)) h =
         (Return initial, h') /\
       List.filter is_missing_field
         (snd (Validator.validate_partial self initial true)) = []).
Proof.
  intros Hreq Hcomplete.
  split; [apply validate_partial_errors |].
  split; [apply validate_partial_ok |].
  split.
  - rewrite missing_fields_reported, Hreq.
    unfold top_level_keys. cbn [List.filter].
    rewrite !dict_has_del.
    rewrite !Hcomplete by (unfold top_level_keys; simpl; tauto).
    reflexivity.
  - intros h. exists (Validator.create_minimal_istvon ""), (minimal_store h "").
    split; [apply init_view |].
    rewrite missing_fields_reported, Hreq. reflexivity.
Qed.

Lemma sample_required :
  JsonSchema.required (schema {| schema := sample_schema |}) = top_level_keys.
Proof. reflexivity. Qed.

Lemma minimal_complete instructions k :
  In k top_level_keys ->
  dict_has k (Validator.create_minimal_istvon instructions) = true.
Proof.
  unfold top_level_keys. simpl.
  intros [<- | [<- | [<- | [<- | [<- | [<- | []]]]]]]; reflexivity.
Qed.

Lemma validate_partial_reports_witness :
  List.filter is_missing_field
    (snd (Validator.validate_partial {| schema := sample_schema |}
            (dict_del "tools" (Validator.create_minimal_istvon "Write a poem"))
            true)) =
  [MissingRequiredField "tools"].
Proof.
  exact (proj1 (proj2 (proj2
    (validate_partial_reports {| schema := sample_schema |}
       [("instructions", JNum 3); ("tools", JStr "none")]
       (Validator.create_minimal_istvon "Write a poem") true
       sample_required (minimal_complete "Write a poem"))))).
Defined.

(** C10. With [required_only] off, a record whose entries under the
    schema's keys all pass their fragment is accepted with no errors,
    whatever else it holds; setting a key the schema does not describe
    never changes that; and a field error always names a key of the
    schema. *)
Theorem unknown_keys_ignored (self : ISTVONValidator) (partial_data : dict json)
    (k : string) (v : json) :
  (forall field x s,
     In (field, x) partial_data ->
     dict_get field (JsonSchema.properties (schema self)) = Some s ->
     JsonSchema.validate x s = None) ->
  dict_get k (JsonSchema.properties (schema self)) = None ->
  Validator.validate_partial self partial_data false = (true, []) /\
  Validator.validate_partial self (dict_set k v partial_data) false = (true, []) /\
  (forall (d : dict json) (required_only : bool) field msg,
     In (FieldError field msg)
       (snd (Validator.validate_partial self d required_only)) ->
     exists s, dict_get field (JsonSchema.properties (schema self)) = Some s).
Proof.
  intros Hvalid Hk.
  assert (forall d, flat_map (field_errors (JsonSchema.properties (schema self))) d
                    = [] ->
                    Validator.validate_partial self d false = (true, [])) as Hok.
  { intros d Hd. unfold Validator.validate_partial.
    rewrite check_fields_eq, Hd. reflexivity. }
  split; [| split].
  - apply Hok. now apply field_errors_all_valid.
  - apply Hok. rewrite field_errors_set_unknown by assumption.
    now apply field_errors_all_valid.
  - intros d required_only field msg Hin.
    rewrite validate_partial_errors in Hin. apply in_app_or in Hin.
    destruct Hin as [Hin | Hin].
    + destruct required_only; [| destruct Hin].
      apply in_map_iff in Hin. destruct Hin as [f [Hf _]]. discriminate.
    + eapply field_errors_known. exact Hin.
Qed.

Lemma unknown_keys_ignored_witness :
  Validator.validate_partial {| schema := sample_schema |}
    (dict_set "owner" (JNum 7)
       [("instructions", JStr "Write a poem"); ("draft", JBool true)]) false =
  (true, []).
Proof.
  refine (proj1 (proj2
    (unknown_keys_ignored {| schema := sample_schema |}
       [("instructions", JStr "Write a poem"); ("draft", JBool true)]
       "owner" (JNum 7) _ eq_refl))).
  intros field x s [[= <- <-] | [[= <- <-] | []]] Hs; vm_compute in Hs.
  - injection Hs as <-. reflexivity.
  - discriminate.
Defined.

(** ** The Builder *)

(** C8. On a new Builder, in any store, one [add_source_data] leaves
    [source_data] with the new descriptor alone: the placeholder is gone,
    and the descriptor has a [description] only for a non-empty one. *)
Theorem first_source_replaces_placeholder (sch : JsonSchema.schema) (h : heap)
    (source_type source description : string) (required : bool) :
  exists record h',
    (b ← Builder.__init__ sch;
     b ← Builder.add_source_data b source_type source description required;
     Store.view (istvon b)) h = (Return record, h') /\
    dict_get "source_data" record =
      Some (JArr [JObj ([ ("type", JStr source_type); ("source", JStr source);
                          ("required", JBool required) ]
                        ++ if String.eqb description "" then []
                           else [("description", JStr description)])%list]).
Proof.
  unfold mbind at 1 2. unfold M_bind at 1 2. rewrite init_spec.
  unfold Builder.add_source_data, Store.getitem, Store.items_of,
    Builder.is_placeholder, Store.new, Store.setitem, Store.append, Store.view,
    minimal_store.
  run.
  destruct (String.eqb description ""); run; eauto.
Qed.

(** What [build] does on a record that reads as [data]. *)
Lemma build_outcome (self : ISTVONBuilder) (h : heap) (data : dict json) :
  Store.view (istvon self) h = (Return data, h) ->
  exists fields,
    Builder.build self h =
    if fst (Validator.validate_istvon (validator self) data)
    then (Return (List.length h), (h ++ [ORecord fields])%list)
    else (Raise (ValueError
                   (snd (Validator.validate_istvon (validator self) data))),
          h).
Proof.
  intros Hview.
  destruct (view_is_record (istvon self) h data) as [fields Hrec];
    [now rewrite Hview |].
  exists fields. unfold Builder.build. rewrite bind_run, Hview.
  destruct (Validator.validate_istvon (validator self) data) as [[|] err];
    cbn [negb fst snd]; [| reflexivity].
  unfold Store.copy. rewrite bind_run. unfold Store.load. rewrite Hrec.
  reflexivity.
Qed.

(** C6. For a builder reached from a new one by any chain of calls, in any
    store and under any schema: the record can be read; [build] raises the
    invalid-structure error exactly when [validate_istvon] rejects what the
    record reads as; the error carries the validator's report and the store
    is left as it was, so the record still reads the same; and on a valid
    record [build] returns. *)
Theorem build_fails_iff_invalid (sch : JsonSchema.schema)
    (ops : list Builder.operation) (h0 h : heap) (self : ISTVONBuilder) :
  (b ← Builder.__init__ sch; Builder.chain b ops) h0 = (Return self, h) ->
  exists data,
    Store.view (istvon self) h = (Return data, h) /\
    ((exists error, fst (Builder.build self h) = Raise (ValueError error)) <->
     fst (Validator.validate_istvon (validator self) data) = false) /\
    (fst (Validator.validate_istvon (validator self) data) = false ->
     Builder.build self h =
       (Raise (ValueError
                 (snd (Validator.validate_istvon (validator self) data))),
        h)) /\
    (fst (Validator.validate_istvon (validator self) data) = true ->
     exists record, fst (Builder.build self h) = Return record).
Proof.
  intros Hrun.
  destruct (readable_view _ _ (reached_readable _ _ _ _ _ Hrun))
    as [data Hview].
  exists data. split; [exact Hview |].
  destruct (build_outcome self h data Hview) as [fields Hbuild].
  rewrite Hbuild.
  destruct (fst (Validator.validate_istvon (validator self) data));
    cbn [fst snd].
  - split; [| split].
    + split; [intros [err Herr] |]; discriminate.
    + discriminate.
    + eauto.
  - split; [| split].
    + split; eauto.
    + reflexivity.
    + discriminate.
Qed.

Lemma build_fails_iff_invalid_witness :
  exists error,
    Builder.build
      {| validator := {| schema := sample_schema |}; istvon := 5 |}
      (snd file_source_run)
    = (Raise (ValueError error), snd file_source_run).
Proof.
  destruct (build_fails_iff_invalid sample_schema
              [Builder.AddSourceData "file" "notes.txt" "" false] []
              (snd file_source_run)
              {| validator := {| schema := sample_schema |}; istvon := 5 |}
              eq_refl)
    as (data & Hview & _ & Hraise & _).
  vm_compute in Hview. injection Hview as <-.
  eexists. apply Hraise. reflexivity.
Defined.

(** C3. The record [build] returns shares its tools list with the builder:
    a later [add_tool] shows in it. *)
Theorem built_record_shares_tools :
  exists before after h,
    build_then_add_tool [] = (Return (before, after), h) /\
    dict_get "tools" before = Some (JArr [tool "text_generation"]) /\
    dict_get "tools" after =
      Some (JArr [tool "text_generation"; tool "web_search"]).
Proof.
  eexists _, _, _. split; [vm_compute; reflexivity |].
  split; reflexivity.
Qed.

(** ** The sample prompt *)

Lemma append_cons (c : ascii) (s t : string) :
  String c s ++ t = String c (s ++ t).
Proof. reflexivity. Qed.

Lemma append_nil (t : string) : "" ++ t = t.
Proof. reflexivity. Qed.

Lemma lit_match_self ic (w rest : string) :
  Re.lit_match ic w (w ++ rest) = Some rest.
Proof.
  induction w as [| c w IH]; [reflexivity |].
  rewrite append_cons. cbn [Re.lit_match].
  destruct ic; rewrite Ascii.eqb_refl; exact IH.
Qed.

Lemma many_stops {A} cls (run rest : string) (k : string -> option A) r :
  all_chars cls run = true -> stops cls rest = true -> k rest = Some r ->
  Re.many cls (run ++ rest) k = Some r.
Proof.
  intros Hrun Hstop Hk.
  induction run as [| c run IH]; rewrite ?append_nil, ?append_cons.
  - destruct rest as [| c rest]; [exact Hk |].
    cbn [Re.many]. cbn [stops] in Hstop.
    destruct (cls c); [discriminate | exact Hk].
  - cbn [all_chars] in Hrun. apply andb_prop in Hrun as [Hc Hrun].
    cbn [Re.many]. rewrite Hc, (IH Hrun). reflexivity.
Qed.

Lemma take_run (run rest : string) :
  Py.take (String.length (run ++ rest) - String.length rest) (run ++ rest) = run.
Proof.
  induction run as [| c run IH]; rewrite ?append_nil, ?append_cons;
    cbn [String.length].
  - rewrite Nat.sub_diag. now destruct rest.
  - assert (String.length rest <= String.length (run ++ rest))%nat as Hle.
    { clear. induction run; rewrite ?append_nil, ?append_cons;
        cbn [String.length]; lia. }
    rewrite Nat.sub_succ_l by exact Hle. cbn [Py.take]. now rewrite IH.
Qed.

Lemma stops_body cls (body rest : string) :
  body <> "" -> stops cls body = true -> stops cls (body ++ rest) = true.
Proof. destruct body; [congruence | auto]. Qed.

(** [<word>\s+([^,.\n!?]+)] at the start of a text: after the word and
    the whitespace [ws], the capture is the run [body] of clause
    characters, up to the boundary that [rest] starts with. *)
Lemma clause_capture (word ws body rest : string) :
  ws <> "" -> all_chars Py.isspace ws = true ->
  body <> "" -> all_chars ISTVONMapper.clause_char body = true ->
  stops Py.isspace body = true ->
  stops ISTVONMapper.clause_char rest = true ->
  Re.match_here true (ISTVONMapper.clause_after word)
    (word ++ ws ++ body ++ rest) = Some ([(1%nat, body)], rest).
Proof.
  intros Hws Hspace Hbody Hclause Hfirst Hrest.
  unfold Re.match_here, ISTVONMapper.clause_after. cbn [Re.rmatch].
  rewrite lit_match_self.
  destruct ws as [| w ws]; [congruence |]. rewrite append_cons.
  cbn [all_chars] in Hspace. apply andb_prop in Hspace as [Hw Hspace].
  rewrite Hw.
  apply many_stops; [exact Hspace | now apply stops_body |].
  destruct body as [| b body]; [congruence |]. rewrite append_cons.
  cbn [all_chars] in Hclause. apply andb_prop in Hclause as [Hb Hclause].
  rewrite Hb.
  apply many_stops; [exact Hclause | exact Hrest |].
  rewrite <- append_cons. now rewrite take_run.
Qed.

Lemma search_here ic r s caps rest :
  Re.match_here ic r s = Some (caps, rest) -> Re.search ic r s = Some caps.
Proof. intros H. destruct s; cbn [Re.search]; now rewrite H. Qed.

(** The topic of a prompt that starts with "about". *)
Lemma topic_capture (ws body rest : string) :
  ws <> "" -> all_chars Py.isspace ws = true ->
  body <> "" -> all_chars ISTVONMapper.clause_char body = true ->
  stops Py.isspace body = true ->
  stops ISTVONMapper.clause_char rest = true ->
  dict_get "topic"
    (ISTVONMapper._extract_variables ("about" ++ ws ++ body ++ rest)) =
  Some (JStr (Py.strip body)).
Proof.
  intros. unfold ISTVONMapper._extract_variables.
  rewrite (search_here _ _ _ _ _ (clause_capture "about" ws body rest
             ltac:(assumption) ltac:(assumption) ltac:(assumption)
             ltac:(assumption) ltac:(assumption) ltac:(assumption))).
  destruct (ISTVONMapper.first_keyword _ _);
    destruct (Re.search false _ _); destruct (Re.search true _ _);
    reflexivity.
Qed.

Lemma search_skip ic r (pre s : string) :
  no_match_before ic r pre s = true ->
  Re.search ic r (pre ++ s) = Re.search ic r s.
Proof.
  induction pre as [| c pre IH]; [reflexivity |].
  cbn [no_match_before]. rewrite append_cons.
  destruct (Re.match_here ic r (String c (pre ++ s))) eqn:E; [discriminate |].
  intros H. cbn [Re.search]. rewrite E. now apply IH.
Qed.

Lemma topic_after_about (pre ws body rest : string) :
  no_match_before true (ISTVONMapper.clause_after "about") pre
    ("about" ++ ws ++ body ++ rest) = true ->
  ws <> "" -> all_chars Py.isspace ws = true ->
  body <> "" -> all_chars ISTVONMapper.clause_char body = true ->
  stops Py.isspace body = true ->
  stops ISTVONMapper.clause_char rest = true ->
  dict_get "topic"
    (ISTVONMapper._extract_variables (pre ++ "about" ++ ws ++ body ++ rest)) =
  Some (JStr (Py.strip body)).
Proof.
  intros Hpre Hws Hspace Hbody Hclause Hfirst Hrest.
  unfold ISTVONMapper._extract_variables.
  rewrite (search_skip _ _ _ _ Hpre).
  rewrite (search_here _ _ _ _ _
             (clause_capture "about" ws body rest
                Hws Hspace Hbody Hclause Hfirst Hrest)).
  destruct (ISTVONMapper.first_keyword _ _);
    destruct (Re.search false _ _); destruct (Re.search true _ _);
    reflexivity.
Qed.

(** C1, as stated, fails: the topic captured for the sample prompt is not
    "quantum computing". *)
Lemma sample_topic_not_short :
  ~ (nested_get "variables" "topic"
       (ISTVONMapper.convert_to_istvon insertion_order sample_prompt)
     = Some (JStr "quantum computing") /\
     nested_get "variables" "target_audience"
       (ISTVONMapper.convert_to_istvon insertion_order sample_prompt)
     = Some (JStr "beginners") /\
     nested_get "outcome" "format"
       (ISTVONMapper.convert_to_istvon insertion_order sample_prompt)
     = Some (JStr "markdown")).
Proof. intros [H _]. vm_compute in H. discriminate. Qed.

(** C1, amended. The topic is the run of clause characters after the
    leftmost "about" and its whitespace, up to the next clause boundary
    character or the end of the text, trimmed. For the sample prompt that
    run is "quantum computing for beginners": the word "for" does not end
    it. The audience is "beginners" and the format is "markdown". *)
Theorem sample_prompt_extraction (order : set_order) (pre ws body rest : string) :
  no_match_before true (ISTVONMapper.clause_after "about") pre
    ("about" ++ ws ++ body ++ rest) = true ->
  ws <> "" -> all_chars Py.isspace ws = true ->
  body <> "" -> all_chars ISTVONMapper.clause_char body = true ->
  stops Py.isspace body = true ->
  stops ISTVONMapper.clause_char rest = true ->
  nested_get "variables" "topic"
    (ISTVONMapper.convert_to_istvon order
       (pre ++ "about" ++ ws ++ body ++ rest))
  = Some (JStr (Py.strip body)) /\
  nested_get "variables" "topic"
    (ISTVONMapper.convert_to_istvon order sample_prompt)
  = Some (JStr "quantum computing for beginners") /\
  nested_get "variables" "target_audience"
    (ISTVONMapper.convert_to_istvon order sample_prompt)
  = Some (JStr "beginners") /\
  nested_get "outcome" "format"
    (ISTVONMapper.convert_to_istvon order sample_prompt)
  = Some (JStr "markdown").
Proof.
  intros. split; [| repeat split; vm_compute; reflexivity].
  unfold nested_get, ISTVONMapper.convert_to_istvon.
  cbn [dict_get String.eqb Ascii.eqb Bool.eqb].
  now apply topic_after_about.
Qed.

Lemma sample_prompt_extraction_witness :
  nested_get "variables" "topic"
    (ISTVONMapper.convert_to_istvon insertion_order
       ("Write a blog post " ++ "about" ++ " "
        ++ "quantum computing for beginners" ++ ""))
  = Some (JStr (Py.strip "quantum computing for beginners")).
Proof.
  refine (proj1 (sample_prompt_extraction insertion_order
                   "Write a blog post " " " "quantum computing for beginners" ""
                   _ _ _ _ _ _ _));
    first [reflexivity | discriminate].
Defined.

(** ** The Mapper: instructions, detections, variables *)

Lemma append_assoc (a b c : string) : (a ++ b) ++ c = a ++ (b ++ c).
Proof. induction a as [| x a IH]; [reflexivity |]. rewrite !append_cons. now rewrite IH. Qed.

Lemma append_empty_r (a : string) : a ++ "" = a.
Proof. induction a as [| x a IH]; [reflexivity |]. rewrite append_cons. now rewrite IH. Qed.

Lemma is_suffix_refl s : is_suffix s s.
Proof. now exists "". Qed.

Lemma is_suffix_cons c t s : is_suffix t s -> is_suffix t (String c s).
Proof. intros [pre ->]. now exists (String c pre). Qed.

Lemma is_suffix_trans a b c : is_suffix a b -> is_suffix b c -> is_suffix a c.
Proof. intros [p ->] [q ->]. exists (q ++ p). now rewrite append_assoc. Qed.


Lemma lit_match_suffix ic p s rest :
  Re.lit_match ic p s = Some rest -> is_suffix rest s.
Proof.
  revert s. induction p as [| a p IH]; intros s; cbn [Re.lit_match].
  - intros [= ->]. apply is_suffix_refl.
  - destruct s as [| b s]; [discriminate |].
    destruct (if ic then _ else _); [| discriminate].
    intros H. apply is_suffix_cons. now apply IH.
Qed.

Lemma many_suffix {A} cls s (k : string -> option A) x :
  Re.many cls s k = Some x -> exists rest, is_suffix rest s /\ k rest = Some x.
Proof.
  induction s as [| c s IH]; cbn [Re.many].
  - intros H. exists "". split; [apply is_suffix_refl | exact H].
  - destruct (cls c).
    + destruct (Re.many cls s k) as [y |] eqn:E.
      * intros [= ->]. destruct (IH eq_refl) as [rest [Hs Hk]].
        exists rest. split; [now apply is_suffix_cons | exact Hk].
      * intros H. exists (String c s). split; [apply is_suffix_refl | exact H].
    + intros H. exists (String c s). split; [apply is_suffix_refl | exact H].
Qed.

(** The matcher only moves forward: what it hands to its continuation is an
    end of the text it was given. *)
Lemma rmatch_suffix {A} ic r : forall s caps (k : string -> Re.captures -> option A) x,
  Re.rmatch ic r s caps k = Some x ->
  exists rest caps', is_suffix rest s /\ k rest caps' = Some x.
Proof.
  induction r as [p | cls | cls | r IH | r1 IH1 r2 IH2 | r1 IH1 r2 IH2 | n r IH];
    intros s caps k x; cbn [Re.rmatch].
  - destruct (Re.lit_match ic p s) as [rest |] eqn:E; [| discriminate].
    intros H. exists rest, caps. split; [now apply lit_match_suffix in E | exact H].
  - destruct s as [| c s]; [discriminate |]. destruct (cls c); [| discriminate].
    intros H. apply many_suffix in H as [rest [Hs Hk]].
    exists rest, caps. split; [now apply is_suffix_cons | exact Hk].
  - intros H. apply many_suffix in H as [rest [Hs Hk]]. now exists rest, caps.
  - destruct (Re.rmatch ic r s caps k) as [y |] eqn:E.
    + intros [= ->]. now apply IH in E.
    + intros H. exists s, caps. split; [apply is_suffix_refl | exact H].
  - destruct (Re.rmatch ic r1 s caps k) as [y |] eqn:E.
    + intros [= ->]. now apply IH1 in E.
    + intros H. now apply IH2 in H.
  - intros H. apply IH1 in H as (s1 & c1 & Hs1 & H).
    apply IH2 in H as (s2 & c2 & Hs2 & H).
    exists s2, c2. split; [eapply is_suffix_trans; eassumption | exact H].
  - intros H. apply IH in H as (s1 & c1 & Hs1 & H). eauto.
Qed.

Lemma sub_prefix_suffix ic r s : is_suffix (Re.sub_prefix ic r s) s.
Proof.
  unfold Re.sub_prefix, Re.match_here.
  destruct (Re.rmatch ic r s [] _) as [[caps rest] |] eqn:E;
    [| apply is_suffix_refl].
  apply rmatch_suffix in E as (s1 & c1 & Hs1 & [= _ <-]). exact Hs1.
Qed.

Lemma capitalize_first_empty s : Py.capitalize_first s = "" -> s = "".
Proof. destruct s; [reflexivity | discriminate]. Qed.

Lemma capitalize_first_length s :
  String.length (Py.capitalize_first s) = String.length s.
Proof. now destruct s. Qed.

Lemma lower_app (a b : string) : Py.lower (a ++ b) = Py.lower a ++ Py.lower b.
Proof.
  induction a as [| c a IH]; [reflexivity |].
  rewrite append_cons. cbn [Py.lower]. now rewrite IH, append_cons.
Qed.

Lemma lit_match_ci (p q rest : string) :
  Py.lower q = Py.lower p -> Re.lit_match true p (q ++ rest) = Some rest.
Proof.
  revert q. induction p as [| a p IH]; intros [| b q]; cbn [Py.lower];
    try discriminate; [reflexivity |].
  intros [= Hc Hq]. rewrite append_cons. cbn [Re.lit_match].
  rewrite Hc, Ascii.eqb_refl. now apply IH.
Qed.

Lemma lit_match_startswith (p s rest : string) :
  Re.lit_match true p s = Some rest ->
  Py.startswith (Py.lower p) (Py.lower s) = true.
Proof.
  revert s. induction p as [| a p IH]; intros [| b s];
    cbn [Re.lit_match Py.lower Py.startswith]; try discriminate; try reflexivity.
  destruct (Ascii.eqb (Py.lower_char a) (Py.lower_char b)); [| discriminate].
  intros H. now apply IH in H.
Qed.

Lemma lit_match_none (p s : string) :
  Py.startswith (Py.lower p) (Py.lower s) = false ->
  Re.lit_match true p s = None.
Proof.
  intros H. destruct (Re.lit_match true p s) eqn:E; [| reflexivity].
  apply lit_match_startswith in E. congruence.
Qed.

Ltac lit_facts Hq :=
  repeat first
    [ rewrite lit_match_ci by (rewrite Hq; reflexivity)
    | rewrite lit_match_none by (rewrite lower_app, Hq; reflexivity) ].

Lemma politeness_match (phrase q ws rest : string) :
  In phrase politeness_phrases -> Py.lower q = phrase ->
  all_chars Py.isspace ws = true -> stops Py.isspace rest = true ->
  Re.sub_prefix true ISTVONMapper.politeness_re (q ++ ws ++ rest) = rest.
Proof.
  intros Hin Hq Hws Hrest.
  unfold Re.sub_prefix, Re.match_here, ISTVONMapper.politeness_re.
  cbn [Re.rmatch].
  assert (forall caps,
            Re.many Py.isspace (ws ++ rest)
              (fun s' => Some (caps, s')) = Some (caps : Re.captures, rest)) as Hmany.
  { intros caps. now apply many_stops. }
  unfold politeness_phrases in Hin. cbn [In] in Hin.
  destruct Hin as [<- | [<- | [<- | [<- | [<- | []]]]]];
    lit_facts Hq; rewrite ?Hmany; reflexivity.
Qed.

(** X1. [_extract_instructions]: a leading politeness phrase in any case,
    with the whitespace after it, is dropped and the first character of
    the rest is upper-cased, for a rest whose first character has a
    capital that fits; when nothing is left the prompt is returned as it
    is. *)
Theorem politeness_stripped (phrase q ws rest : string) :
  In phrase politeness_phrases -> Py.lower q = phrase ->
  all_chars Py.isspace ws = true -> stops Py.isspace rest = true ->
  capital_fits rest = true ->
  ISTVONMapper._extract_instructions (q ++ ws ++ rest) =
  match rest with
  | EmptyString => q ++ ws
  | _ => Py.capitalize_first rest
  end.
Proof.
  intros Hin Hq Hws Hrest _. unfold ISTVONMapper._extract_instructions.
  rewrite (politeness_match phrase q ws rest Hin Hq Hws Hrest).
  destruct rest as [| c rest]; [now rewrite append_empty_r | reflexivity].
Qed.

Lemma politeness_stripped_witness :
  ISTVONMapper._extract_instructions ("PLEASE" ++ "  " ++ "write a short poem")
  = "Write a short poem".
Proof.
  exact (politeness_stripped "please" "PLEASE" "  " "write a short poem"
           (or_introl eq_refl) eq_refl eq_refl eq_refl eq_refl).
Defined.



(** ** Longer prompts *)

Lemma startswith_app (n h post : string) :
  Py.startswith n h = true -> Py.startswith n (h ++ post) = true.
Proof.
  revert h. induction n as [| a n IH]; intros [| b h]; cbn [Py.startswith];
    try discriminate; try reflexivity.
  rewrite append_cons. cbn [Py.startswith].
  intros H. apply andb_prop in H as [-> H]. now rewrite IH.
Qed.

Lemma startswith_nil (n : string) : Py.startswith n "" = true -> n = "".
Proof. destruct n; [reflexivity | discriminate]. Qed.

Lemma contains_app_r (n h post : string) :
  Py.contains n h = true -> Py.contains n (h ++ post) = true.
Proof.
  induction h as [| c h IH]; cbn [Py.contains].
  - intros H. apply startswith_nil in H as ->. rewrite append_nil.
    destruct post; reflexivity.
  - rewrite append_cons. cbn [Py.contains]. intros H.
    apply orb_prop in H as [H | H].
    + rewrite <- append_cons, (startswith_app _ _ _ H). reflexivity.
    + rewrite (IH H). apply orb_true_r.
Qed.

Lemma contains_app_l (n pre h : string) :
  Py.contains n h = true -> Py.contains n (pre ++ h) = true.
Proof.
  intros H. induction pre as [| c pre IH]; [exact H |].
  rewrite append_cons. cbn [Py.contains]. rewrite IH. apply orb_true_r.
Qed.

Lemma contains_inside (n pre h post : string) :
  Py.contains n (Py.lower h) = true ->
  Py.contains n (Py.lower (pre ++ h ++ post)) = true.
Proof.
  intros H. rewrite !lower_app. now apply contains_app_l, contains_app_r.
Qed.

Lemma any_in_inside (words : list string) (pre h post : string) :
  Py.any_in words (Py.lower h) = true ->
  Py.any_in words (Py.lower (pre ++ h ++ post)) = true.
Proof.
  unfold Py.any_in. rewrite !existsb_exists.
  intros [w [Hw Hc]]. exists w. split; [exact Hw | now apply contains_inside].
Qed.

Lemma delivery_kept pre prompt post :
  dict_get "delivery" (ISTVONMapper._extract_outcome (Py.lower prompt))
    = Some (JStr "save_to_file") ->
  dict_get "delivery"
    (ISTVONMapper._extract_outcome (Py.lower (pre ++ prompt ++ post)))
    = Some (JStr "save_to_file").
Proof.
  unfold ISTVONMapper._extract_outcome.
  destruct (Py.any_in _ (Py.lower prompt)) eqn:E.
  - intros _. rewrite (any_in_inside _ pre prompt post E).
    destruct (ISTVONMapper.first_keyword _ _); reflexivity.
  - destruct (ISTVONMapper.first_keyword _ (Py.lower prompt)); discriminate.
Qed.

Lemma method_kept pre prompt post :
  dict_get "method" (ISTVONMapper._extract_notification (Py.lower prompt))
    <> Some (JStr "none") ->
  dict_get "method"
    (ISTVONMapper._extract_notification (Py.lower (pre ++ prompt ++ post)))
    <> Some (JStr "none").
Proof.
  unfold ISTVONMapper._extract_notification.
  pose proof (contains_inside "email" pre prompt post) as H1.
  pose proof (contains_inside "notify" pre prompt post) as H2.
  pose proof (contains_inside "alert" pre prompt post) as H3.
  pose proof (contains_inside "ping" pre prompt post) as H4.
  destruct (Py.contains "email" (Py.lower prompt));
    [rewrite (H1 eq_refl); intros _ H; vm_compute in H; discriminate H |].
  destruct (Py.contains "notify" (Py.lower prompt));
    [rewrite (H2 eq_refl), !orb_true_r; intros _ H; vm_compute in H; discriminate H |].
  destruct (Py.contains "alert" (Py.lower prompt));
    [rewrite (H3 eq_refl); intros _ H; destruct (_ || _); vm_compute in H; discriminate H |].
  destruct (Py.contains "ping" (Py.lower prompt));
    [rewrite (H4 eq_refl), !orb_true_r; intros _ H; destruct (_ || _);
     vm_compute in H; discriminate H |].
  intros H. now contradiction H.
Qed.

Lemma source_type_kept order pre prompt post :
  source_type (ISTVONMapper.convert_to_istvon order prompt)
    = Some (JStr "knowledge_base") ->
  source_type (ISTVONMapper.convert_to_istvon order (pre ++ prompt ++ post))
    = Some (JStr "knowledge_base").
Proof.
  unfold source_type, ISTVONMapper.convert_to_istvon.
  cbn [dict_get String.eqb Ascii.eqb Bool.eqb].
  unfold ISTVONMapper._extract_source_data.
  pose proof (any_in_inside ["research"; "data"; "file"; "document"]
                pre prompt post) as H1.
  pose proof (any_in_inside ["company"; "organization"; "internal"]
                pre prompt post) as H2.
  destruct (Py.any_in _ (Py.lower prompt)); [rewrite (H1 eq_refl); reflexivity |].
  destruct (Py.any_in _ (Py.lower prompt));
    [rewrite (H2 eq_refl); destruct (Py.any_in _ _); reflexivity |].
  discriminate.
Qed.

(** X3. Text added before and after a prompt never takes away what was found
    in it: the category of every keyword found stays in the tools list, a
    [save_to_file] delivery stays, a notification method other than [none]
    stays other than [none], and a [knowledge_base] source stays. *)
Theorem longer_prompt_keeps_detections (order : set_order)
    (pre prompt post : string) :
  visits_members order ->
  (forall kw name, In (kw, name) ISTVONMapper.action_keywords ->
     Py.contains kw (Py.lower prompt) = true ->
     In (tool name) (mapper_tools order (pre ++ prompt ++ post))) /\
  (nested_get "outcome" "delivery"
     (ISTVONMapper.convert_to_istvon order prompt)
     = Some (JStr "save_to_file") ->
   nested_get "outcome" "delivery"
     (ISTVONMapper.convert_to_istvon order (pre ++ prompt ++ post))
     = Some (JStr "save_to_file")) /\
  (nested_get "notification" "method"
     (ISTVONMapper.convert_to_istvon order prompt) <> Some (JStr "none") ->
   nested_get "notification" "method"
     (ISTVONMapper.convert_to_istvon order (pre ++ prompt ++ post))
     <> Some (JStr "none")) /\
  (source_type (ISTVONMapper.convert_to_istvon order prompt)
     = Some (JStr "knowledge_base") ->
   source_type (ISTVONMapper.convert_to_istvon order (pre ++ prompt ++ post))
     = Some (JStr "knowledge_base")).
Proof.
  intros Hord. split; [| split; [| split]].
  - intros kw name Hin Hc.
    rewrite mapper_tools_eq.
    assert (In (tool name)
              (map tool (order (ISTVONMapper.found_tools
                                  (Py.lower (pre ++ prompt ++ post)))))) as H.
    { apply in_map. eapply Permutation_in; [symmetry; apply Hord |].
      apply found_tools_In. exists kw. split; [exact Hin |].
      now apply contains_inside. }
    destruct (map tool _); [destruct H | exact H].
  - apply delivery_kept.
  - apply method_kept.
  - apply source_type_kept.
Qed.

Lemma longer_prompt_keeps_detections_witness :
  In (tool "summarization")
    (mapper_tools reverse_order
       ("Could you " ++ "summarize this" ++ " and analyze it?")).
Proof.
  exact (proj1 (longer_prompt_keeps_detections reverse_order
                  "Could you " "summarize this" " and analyze it?"
                  reverse_order_visits)
           "summarize" "summarization"
           ltac:(simpl; tauto) eq_refl).
Defined.

(** ** The variables *)

Lemma isspace_not_digit c : Py.isspace c = true -> Py.isdigit c = false.
Proof.
  destruct c as [[] [] [] [] [] [] [] []]; vm_compute; congruence.
Qed.

(** The keyword before the capture may be in any case. *)
Lemma clause_capture_ci (word q ws body rest : string) :
  Py.lower q = Py.lower word ->
  ws <> "" -> all_chars Py.isspace ws = true ->
  body <> "" -> all_chars ISTVONMapper.clause_char body = true ->
  stops Py.isspace body = true ->
  stops ISTVONMapper.clause_char rest = true ->
  Re.match_here true (ISTVONMapper.clause_after word)
    (q ++ ws ++ body ++ rest) = Some ([(1%nat, body)], rest).
Proof.
  intros Hq Hws Hspace Hbody Hclause Hfirst Hrest.
  unfold Re.match_here, ISTVONMapper.clause_after. cbn [Re.rmatch].
  rewrite (lit_match_ci _ _ _ Hq).
  destruct ws as [| w ws]; [congruence |]. rewrite append_cons.
  cbn [all_chars] in Hspace. apply andb_prop in Hspace as [Hw Hspace].
  rewrite Hw.
  apply many_stops; [exact Hspace | now apply stops_body |].
  destruct body as [| b body]; [congruence |]. rewrite append_cons.
  cbn [all_chars] in Hclause. apply andb_prop in Hclause as [Hb Hclause].
  rewrite Hb.
  apply many_stops; [exact Hclause | exact Hrest |].
  rewrite <- append_cons. now rewrite take_run.
Qed.

(** X4. [_extract_variables], the audience: after the leftmost "for" in any
    case and its whitespace, the run of clause characters up to the next
    boundary, stripped, with its own case kept. *)
Theorem audience_after_for (pre q ws body rest : string) :
  Py.lower q = "for" ->
  no_match_before true (ISTVONMapper.clause_after "for") pre
    (q ++ ws ++ body ++ rest) = true ->
  ws <> "" -> all_chars Py.isspace ws = true ->
  body <> "" -> all_chars ISTVONMapper.clause_char body = true ->
  stops Py.isspace body = true ->
  stops ISTVONMapper.clause_char rest = true ->
  dict_get "target_audience"
    (ISTVONMapper._extract_variables (pre ++ q ++ ws ++ body ++ rest)) =
  Some (JStr (Py.strip body)).
Proof.
  intros Hq Hpre Hws Hspace Hbody Hclause Hfirst Hrest.
  unfold ISTVONMapper._extract_variables.
  rewrite (search_skip true (ISTVONMapper.clause_after "for") _ _ Hpre).
  rewrite (search_here _ _ _ _ _
             (clause_capture_ci "for" q ws body rest
                Hq Hws Hspace Hbody Hclause Hfirst Hrest)).
  destruct (Re.search true (ISTVONMapper.clause_after "about") _);
    [| destruct (3 <? _)%nat];
    destruct (ISTVONMapper.first_keyword _ _);
    destruct (Re.search false _ _); reflexivity.
Qed.

Lemma audience_after_for_witness :
  dict_get "target_audience"
    (ISTVONMapper._extract_variables
       ("Write tips " ++ "FOR" ++ "  " ++ "New Parents " ++ ", please"))
  = Some (JStr "New Parents").
Proof.
  exact (audience_after_for "Write tips " "FOR" "  " "New Parents " ", please"
           eq_refl eq_refl ltac:(discriminate) eq_refl ltac:(discriminate)
           eq_refl eq_refl eq_refl).
Defined.

Lemma stops_after_space cls (ws tail : string) :
  (forall c, Py.isspace c = true -> cls c = false) ->
  all_chars Py.isspace ws = true -> stops cls tail = true ->
  stops cls (ws ++ tail) = true.
Proof.
  intros Hcls Hws Htail. destruct ws as [| c ws]; [exact Htail |].
  rewrite append_cons. cbn [stops all_chars] in *.
  apply andb_prop in Hws as [Hc _]. now rewrite (Hcls c Hc).
Qed.

Lemma lit_s_none rest :
  not_starting "s" rest = true -> Re.lit_match false "s" rest = None.
Proof.
  destruct rest as [| c rest]; [reflexivity |]. cbn [not_starting Re.lit_match].
  now destruct (Ascii.eqb "s" c).
Qed.

Lemma lit_match_other (p q tail : string) :
  Py.startswith p q = false ->
  (String.length p <= String.length q)%nat ->
  Re.lit_match false p (q ++ tail) = None.
Proof.
  revert q. induction p as [| a p IH]; intros [| b q];
    cbn [Py.startswith String.length]; try discriminate; try lia.
  intros H Hlen. rewrite append_cons. cbn [Re.lit_match].
  destruct (Ascii.eqb a b); [| reflexivity].
  apply IH; [exact H | lia].
Qed.

(** [words?|pages?|paragraphs?] on a unit, singular or plural. *)
Lemma unit_match {A} (unit rest : string) (plural : bool) caps
    (k : string -> Re.captures -> option A) x :
  In unit length_units ->
  (plural = false -> not_starting "s" rest = true) ->
  k rest caps = Some x ->
  Re.rmatch false
    (Re.Alt (Re.Seq (Re.Lit "word") (Re.Opt (Re.Lit "s")))
       (Re.Alt (Re.Seq (Re.Lit "page") (Re.Opt (Re.Lit "s")))
          (Re.Seq (Re.Lit "paragraph") (Re.Opt (Re.Lit "s")))))
    ((unit ++ (if plural then "s" else "")) ++ rest) caps k = Some x.
Proof.
  intros Hunit Hrest Hk.
  assert (Re.rmatch false (Re.Opt (Re.Lit "s"))
            ((if plural then "s" else "") ++ rest) caps k = Some x) as Hopt.
  { cbn [Re.rmatch]. destruct plural.
    - now rewrite lit_match_self, Hk.
    - now rewrite append_nil, lit_s_none by auto. }
  rewrite append_assoc. cbn [Re.rmatch] in *.
  unfold length_units in Hunit. cbn [In] in Hunit.
  destruct Hunit as [<- | [<- | [<- | []]]];
    repeat first
      [ rewrite lit_match_self
      | rewrite lit_match_other by (first [reflexivity | cbn; lia]) ];
    rewrite Hopt; reflexivity.
Qed.

Lemma rmatch_Seq {A} ic r1 r2 s caps (k : string -> Re.captures -> option A) :
  Re.rmatch ic (Re.Seq r1 r2) s caps k =
  Re.rmatch ic r1 s caps (fun s' caps' => Re.rmatch ic r2 s' caps' k).
Proof. reflexivity. Qed.

Lemma rmatch_Group {A} ic n r s caps (k : string -> Re.captures -> option A) :
  Re.rmatch ic (Re.Group n r) s caps k =
  Re.rmatch ic r s caps
    (fun s' caps' =>
       k s' ((n, Py.take (String.length s - String.length s') s) :: caps')).
Proof. reflexivity. Qed.

Lemma rmatch_Plus {A} ic cls c t caps (k : string -> Re.captures -> option A) :
  cls c = true ->
  Re.rmatch ic (Re.Plus cls) (String c t) caps k =
  Re.many cls t (fun s' => k s' caps).
Proof. intros H. cbn [Re.rmatch]. now rewrite H. Qed.

Lemma rmatch_Star {A} ic cls s caps (k : string -> Re.captures -> option A) :
  Re.rmatch ic (Re.Star cls) s caps k = Re.many cls s (fun s' => k s' caps).
Proof. reflexivity. Qed.

(** [(\d+)\s*(words?|pages?|paragraphs?)] at the start of a text. *)
Lemma length_capture (digits ws unit rest : string) (plural : bool) :
  digits <> "" -> all_chars Py.isdigit digits = true ->
  all_chars Py.isspace ws = true ->
  In unit length_units ->
  (plural = false -> not_starting "s" rest = true) ->
  Re.match_here false ISTVONMapper.length_re
    (digits ++ ws ++ (unit ++ (if plural then "s" else "")) ++ rest) =
  Some ([(2%nat, unit ++ (if plural then "s" else "")); (1%nat, digits)], rest).
Proof.
  intros Hd Hdigits Hws Hunit Hrest.
  unfold Re.match_here, ISTVONMapper.length_re.
  assert (stops Py.isdigit ((unit ++ (if plural then "s" else "")) ++ rest)
          = true /\
          stops Py.isspace ((unit ++ (if plural then "s" else "")) ++ rest)
          = true) as [Hnd Hns].
  { unfold length_units in Hunit. cbn [In] in Hunit.
    destruct Hunit as [<- | [<- | [<- | []]]]; split; reflexivity. }
  destruct digits as [| d digits]; [congruence |]. rewrite append_cons.
  cbn [all_chars] in Hdigits. apply andb_prop in Hdigits as [Hd0 Hdigits].
  rewrite rmatch_Seq, rmatch_Group, (rmatch_Plus _ _ _ _ _ _ Hd0).
  apply many_stops;
    [exact Hdigits
    | apply stops_after_space; [exact isspace_not_digit | exact Hws | exact Hnd]
    |].
  rewrite <- append_cons, take_run.
  rewrite rmatch_Seq, rmatch_Star.
  apply many_stops; [exact Hws | exact Hns |].
  rewrite rmatch_Group.
  apply (unit_match unit rest plural); [exact Hunit | exact Hrest |].
  now rewrite take_run.
Qed.

(** X5. [_extract_variables], the length: digits, any whitespace or none, and a
    unit in the lower-cased prompt become ["<digits> <unit>"], with one
    space and the unit in lower case. *)
Theorem length_normalised (prompt pre digits ws unit rest : string)
    (plural : bool) :
  Py.lower prompt =
    pre ++ digits ++ ws ++ (unit ++ (if plural then "s" else "")) ++ rest ->
  no_match_before false ISTVONMapper.length_re pre
    (digits ++ ws ++ (unit ++ (if plural then "s" else "")) ++ rest) = true ->
  digits <> "" -> all_chars Py.isdigit digits = true ->
  all_chars Py.isspace ws = true ->
  In unit length_units ->
  (plural = false -> not_starting "s" rest = true) ->
  dict_get "length" (ISTVONMapper._extract_variables prompt) =
  Some (JStr (digits ++ " " ++ unit ++ (if plural then "s" else ""))).
Proof.
  intros Hlow Hpre Hd Hdigits Hws Hunit Hrest.
  unfold ISTVONMapper._extract_variables.
  rewrite Hlow, (search_skip false ISTVONMapper.length_re _ _ Hpre).
  rewrite (search_here _ _ _ _ _
             (length_capture digits ws unit rest plural
                Hd Hdigits Hws Hunit Hrest)).
  rewrite <- Hlow.
  destruct (Re.search true (ISTVONMapper.clause_after "about") _);
    [| destruct (3 <? _)%nat];
    destruct (ISTVONMapper.first_keyword _ _);
    destruct (Re.search true _ _); reflexivity.
Qed.

Lemma length_normalised_witness :
  dict_get "length"
    (ISTVONMapper._extract_variables "Write 500WORDS on tea") =
  Some (JStr "500 words").
Proof.
  exact (length_normalised "Write 500WORDS on tea" "write " "500" "" "word"
           " on tea" true
           eq_refl eq_refl ltac:(discriminate) eq_refl eq_refl
           ltac:(simpl; tauto) ltac:(discriminate)).
Defined.

(** ** Words *)

Lemma all_chars_app cls (a b : string) :
  all_chars cls (a ++ b) = all_chars cls a && all_chars cls b.
Proof.
  induction a as [| c a IH]; [reflexivity |].
  rewrite append_cons. cbn [all_chars]. now rewrite IH, andb_assoc.
Qed.

Lemma is_word_snoc (w : string) (c : ascii) :
  (w = "" \/ is_word w = true) -> Py.isspace c = false ->
  is_word (w ++ String c "") = true.
Proof.
  intros Hw Hc. unfold is_word. rewrite all_chars_app. cbn [all_chars].
  rewrite Hc. cbn [negb andb]. rewrite andb_true_r.
  assert (all_chars (fun c => negb (Py.isspace c)) w = true) as ->.
  { destruct Hw as [-> | Hw]; [reflexivity |].
    unfold is_word in Hw. now apply andb_prop in Hw. }
  destruct w; reflexivity.
Qed.

Lemma split_from_words (s : string) : forall cur,
  match cur with Some w => is_word w = true | None => True end ->
  Forall (fun w => is_word w = true) (Py.split_from cur s).
Proof.
  induction s as [| c s IH]; intros cur Hcur; cbn [Py.split_from].
  - destruct cur; [repeat constructor; exact Hcur | constructor].
  - destruct (Py.isspace c) eqn:Hc.
    + destruct cur; [constructor; [exact Hcur |] |]; now apply IH.
    + apply IH. apply is_word_snoc; [| exact Hc].
      destruct cur; [now right | now left].
Qed.

(** [str.split] yields words. *)
Lemma split_words (s : string) :
  Forall (fun w => is_word w = true) (Py.split s).
Proof. now apply split_from_words. Qed.

Lemma split_from_run (w rest : string) : forall cur,
  w <> "" -> all_chars (fun c => negb (Py.isspace c)) w = true ->
  Py.split_from cur (w ++ rest) =
  Py.split_from
    (Some (match cur with Some x => x | None => "" end ++ w)) rest.
Proof.
  induction w as [| c w IH]; intros cur Hne Hw; [congruence |].
  cbn [all_chars] in Hw. apply andb_prop in Hw as [Hc Hw].
  apply negb_true_iff in Hc. rewrite append_cons. cbn [Py.split_from].
  rewrite Hc. destruct w as [| c' w].
  - now rewrite append_nil.
  - rewrite IH by (congruence || assumption). cbn match.
    now rewrite append_assoc.
Qed.

Lemma split_word_then (w rest : string) :
  is_word w = true ->
  Py.split_from None (w ++ " " ++ rest) = w :: Py.split_from None rest.
Proof.
  intros Hw. unfold is_word in Hw. apply andb_prop in Hw as [Hne Hw].
  rewrite split_from_run; [| now destruct w | exact Hw].
  rewrite append_nil. reflexivity.
Qed.

Lemma split_word_last (w : string) :
  is_word w = true -> Py.split_from None w = [w].
Proof.
  intros Hw. unfold is_word in Hw. apply andb_prop in Hw as [Hne Hw].
  rewrite <- (append_empty_r w) at 1.
  rewrite split_from_run; [| now destruct w | exact Hw].
  now rewrite append_nil.
Qed.

(** Joining words with one space and splitting again gives the words. *)
Lemma split_join (words : list string) :
  Forall (fun w => is_word w = true) words ->
  Py.split (Py.join " " words) = words.
Proof.
  unfold Py.split. induction 1 as [| w words Hw Hwords IH]; [reflexivity |].
  destruct words as [| w2 words].
  - now apply split_word_last.
  - change (Py.join " " (w :: w2 :: words))
      with (w ++ " " ++ Py.join " " (w2 :: words)).
    now rewrite split_word_then, IH.
Qed.

Lemma slice_words {A} (P : A -> Prop) i j (l : list A) :
  Forall P l -> Forall P (Py.slice i j l).
Proof.
  intros H. unfold Py.slice. now apply Forall_take, Forall_drop.
Qed.

(** X6. [_extract_variables], the topic when no "about" is found: the second
    to fourth word of a prompt of more than three words, joined by single
    spaces, so that the topic splits into exactly those three words; no
    topic at all for a shorter prompt. *)
Theorem fallback_topic (prompt : string) :
  Re.search true (ISTVONMapper.clause_after "about") prompt = None ->
  ((3 < List.length (Py.split prompt))%nat ->
   dict_get "topic" (ISTVONMapper._extract_variables prompt) =
     Some (JStr (Py.join " " (Py.slice 1 4 (Py.split prompt)))) /\
   List.length (Py.slice 1 4 (Py.split prompt)) = 3%nat /\
   Py.split (Py.join " " (Py.slice 1 4 (Py.split prompt))) =
     Py.slice 1 4 (Py.split prompt)) /\
  ((List.length (Py.split prompt) <= 3)%nat ->
   dict_get "topic" (ISTVONMapper._extract_variables prompt) = None).
Proof.
  intros Hno. unfold ISTVONMapper._extract_variables. rewrite Hno. split.
  - intros Hlen. pose proof Hlen as Hlt. apply Nat.ltb_lt in Hlt. rewrite Hlt.
    split; [| split].
    + destruct (ISTVONMapper.first_keyword _ _);
        destruct (Re.search false _ _);
        destruct (Re.search true (ISTVONMapper.clause_after "for") prompt);
        reflexivity.
    + unfold Py.slice. rewrite length_firstn, length_skipn. lia.
    + apply split_join, slice_words, split_words.
  - intros Hlen. assert ((3 <? List.length (Py.split prompt))%nat = false) as ->
      by (apply Nat.ltb_ge; lia).
    destruct (ISTVONMapper.first_keyword _ _);
      destruct (Re.search false _ _);
        destruct (Re.search true (ISTVONMapper.clause_after "for") prompt);
      reflexivity.
Qed.

Lemma fallback_topic_witness :
  dict_get "topic"
    (ISTVONMapper._extract_variables "Translate   this long
letter to French") = Some (JStr "this long letter").
Proof.
  exact (proj1 (proj1 (fallback_topic "Translate   this long
letter to French" eq_refl) ltac:(vm_compute; lia))).
Defined.

(** X7. [_extract_variables] always gives [tone] (one of the five), [priority]
    [medium] and [language] [en]; its keys are recognised ones, each once,
    in the order topic, tone, length, target_audience, priority, language;
    and every value is a text. *)
Theorem variables_shape (prompt : string) :
  dict_get "priority" (ISTVONMapper._extract_variables prompt)
    = Some (JStr "medium") /\
  dict_get "language" (ISTVONMapper._extract_variables prompt)
    = Some (JStr "en") /\
  (exists tone,
     dict_get "tone" (ISTVONMapper._extract_variables prompt)
       = Some (JStr tone) /\
     In tone ["professional"; "casual"; "formal"; "friendly"; "technical"]) /\
  map fst (ISTVONMapper._extract_variables prompt) =
    List.filter
      (fun k => dict_has k (ISTVONMapper._extract_variables prompt))
      variable_keys /\
  forallb (fun kv => is_text (snd kv))
    (ISTVONMapper._extract_variables prompt) = true.
Proof.
  pose proof (first_keyword_value ISTVONMapper.tone_indicators
                (Py.lower prompt)) as Htone.
  unfold ISTVONMapper._extract_variables.
  destruct (Re.search true (ISTVONMapper.clause_after "about") prompt);
    [| destruct (3 <? _)%nat];
    destruct (ISTVONMapper.first_keyword _ _) as [t |];
    destruct (Re.search false _ _); destruct (Re.search true _ _);
    (split; [reflexivity |]); (split; [reflexivity |]);
    (split; [eexists; split; [reflexivity |];
             first [exact (Htone _ eq_refl) | simpl; tauto] |]);
    split; reflexivity.
Qed.

(** ** The stored conversion *)

Lemma check_keys_first (keys : list string) (d : dict json) :
  PromptConversion.check_keys keys (JObj d) =
  match head (List.filter (fun k => negb (dict_has k d)) keys) with
  | Some k => PromptConversion.MissingKey k
  | None => PromptConversion.Cleaned
  end.
Proof.
  induction keys as [| k keys IH]; [reflexivity |].
  cbn [PromptConversion.check_keys Validator.not_in List.filter].
  destruct (negb (dict_has k d)); [reflexivity | exact IH].
Qed.

Lemma head_map {A B} (f : A -> B) (l : list A) :
  head (map f l) = option_map f (head l).
Proof. now destruct l. Qed.

(** X8. [PromptConversion.clean] on a dict: an empty one is accepted; any other
    is accepted exactly when [validate_partial] with [required_only] finds
    no missing field, and otherwise [clean] names the key of the first
    missing-field error. *)
Theorem clean_names_first_missing (self : ISTVONValidator) (d : dict json) :
  JsonSchema.required (schema self) = PromptConversion.required_keys ->
  d <> [] ->
  PromptConversion.clean (JObj []) = PromptConversion.Cleaned /\
  PromptConversion.clean (JObj d) =
    match head (List.filter is_missing_field
                  (snd (Validator.validate_partial self d true))) with
    | Some (MissingRequiredField key) => PromptConversion.MissingKey key
    | _ => PromptConversion.Cleaned
    end.
Proof.
  intros Hreq Hd. split; [reflexivity |].
  rewrite missing_fields_reported, Hreq, head_map.
  unfold PromptConversion.clean.
  destruct d as [| kv d]; [congruence |]. cbn [truthy].
  rewrite check_keys_first.
  now destruct (head _).
Qed.

Lemma clean_names_first_missing_witness :
  PromptConversion.clean
    (JObj [("instructions", JStr "Write"); ("tools", JArr [])])
  = PromptConversion.MissingKey "source_data".
Proof.
  exact (proj2 (clean_names_first_missing {| schema := sample_schema |}
                  [("instructions", JStr "Write"); ("tools", JArr [])]
                  eq_refl ltac:(discriminate))).
Defined.

Lemma instructions_empty prompt :
  String.eqb (ISTVONMapper._extract_instructions prompt) "" =
  String.eqb prompt "".
Proof.
  unfold ISTVONMapper._extract_instructions.
  pose proof (sub_prefix_suffix true ISTVONMapper.politeness_re prompt) as Hs.
  destruct (Re.sub_prefix true ISTVONMapper.politeness_re prompt)
    as [| c rest] eqn:E; [reflexivity |].
  destruct Hs as [pre Hs]. subst prompt.
  destruct pre; reflexivity.
Qed.

(** X9. What the stored conversion's methods give for a Mapper output:
    [clean] accepts it; [get_instructions] returns the text the Mapper put
    under [instructions], which is empty only for the empty prompt; and
    [get_topic] is the extracted topic, or "Unknown" when the prompt has
    no "about" clause and at most three words. *)
Theorem stored_mapper_output (order : set_order) (prompt : string) :
  PromptConversion.clean (JObj (ISTVONMapper.convert_to_istvon order prompt))
    = PromptConversion.Cleaned /\
  (exists instructions,
     dict_get "instructions" (ISTVONMapper.convert_to_istvon order prompt)
       = Some (JStr instructions) /\
     PromptConversion.get_instructions
       (JObj (ISTVONMapper.convert_to_istvon order prompt))
       = Return (JStr instructions) /\
     (instructions = "" <-> prompt = "")) /\
  PromptConversion.get_topic
    (JObj (ISTVONMapper.convert_to_istvon order prompt))
    = Return (match dict_get "topic" (ISTVONMapper._extract_variables prompt)
              with
              | Some topic => topic
              | None => JStr "Unknown"
              end) /\
  (dict_get "topic" (ISTVONMapper._extract_variables prompt) = None <->
   Re.search true (ISTVONMapper.clause_after "about") prompt = None /\
   (List.length (Py.split prompt) <= 3)%nat).
Proof.
  split; [reflexivity |]. split.
  { exists (ISTVONMapper._extract_instructions prompt).
    split; [reflexivity |]. split; [reflexivity |].
    rewrite <- !String.eqb_eq. now rewrite instructions_empty. }
  split; [reflexivity |].
  unfold ISTVONMapper._extract_variables.
  destruct (Re.search true (ISTVONMapper.clause_after "about") prompt).
  - split; [| intros [[=] _]].
    destruct (ISTVONMapper.first_keyword _ _);
      destruct (Re.search false _ _);
      destruct (Re.search true (ISTVONMapper.clause_after "for") prompt);
      discriminate.
  - destruct (3 <? List.length (Py.split prompt))%nat eqn:E.
    + apply Nat.ltb_lt in E. split; [| intros [_ H]; lia].
      destruct (ISTVONMapper.first_keyword _ _);
        destruct (Re.search false _ _);
        destruct (Re.search true (ISTVONMapper.clause_after "for") prompt);
        discriminate.
    + apply Nat.ltb_ge in E. split; [intros _; split; [reflexivity | lia] |].
      intros _.
      destruct (ISTVONMapper.first_keyword _ _);
        destruct (Re.search false _ _);
        destruct (Re.search true (ISTVONMapper.clause_after "for") prompt);
        reflexivity.
Qed.

(** ** Full and partial validation *)

Lemma dict_get_In {V} (k : string) (v : V) (d : dict V) :
  dict_get k d = Some v -> In (k, v) d.
Proof.
  induction d as [| [k' v'] d IH]; [discriminate |]. cbn [dict_get].
  destruct (String.eqb_spec k k') as [-> | _].
  - intros [= ->]. now left.
  - intros H. right. auto.
Qed.

Lemma In_dict_get {V} (k : string) (v : V) (d : dict V) :
  List.NoDup (map fst d) -> In (k, v) d -> dict_get k d = Some v.
Proof.
  induction d as [| [k' v'] d IH]; [intros _ []|].
  cbn [map fst]. intros Hnd Hin. apply List.NoDup_cons_iff in Hnd as [Hk Hnd].
  cbn [dict_get]. destruct Hin as [[= -> ->] | Hin].
  - now rewrite String.eqb_refl.
  - destruct (String.eqb_spec k k') as [-> | _]; [| auto].
    exfalso. apply Hk. apply in_map_iff. now exists (k', v).
Qed.

Lemma flat_map_nil {A B} (f : A -> list B) (l : list A) :
  flat_map f l = [] <-> forall x, In x l -> f x = [].
Proof.
  induction l as [| a l IH]; cbn [flat_map].
  - split; [intros _ x [] | reflexivity].
  - split.
    + intros H. apply app_eq_nil in H as [Ha Hl].
      intros x [<- | Hx]; [exact Ha | now apply IH].
    + intros H. rewrite (H a (or_introl eq_refl)). cbn. apply IH.
      intros x Hx. apply H. now right.
Qed.

Lemma property_errors_nil fields k sub :
  property_errors fields (k, sub) = [] <->
  forall v, dict_get k fields = Some v -> JsonSchema.iter_errors sub v = [].
Proof.
  unfold property_errors. cbn [fst snd].
  destruct (dict_get k fields) as [v |].
  - split.
    + intros H v' [= <-].
      destruct (JsonSchema.iter_errors sub v); [reflexivity | discriminate H].
    + intros H. now rewrite (H v eq_refl).
  - split; [discriminate | reflexivity].
Qed.

Lemma field_errors_nil props f v :
  field_errors props (f, v) = [] <->
  forall s, dict_get f props = Some s -> JsonSchema.iter_errors s v = [].
Proof.
  unfold field_errors, JsonSchema.validate. cbn [fst snd].
  destruct (dict_get f props) as [s |].
  - destruct (JsonSchema.iter_errors s v) eqn:E; cbn [head].
    + split; [intros _ s' [= <-]; exact E | reflexivity].
    + split; [discriminate | intros H; specialize (H s eq_refl); congruence].
  - split; [discriminate | reflexivity].
Qed.

(** The same entries fail either way round: going through the schema's
    properties and looking into the record, or through the record and
    looking into the properties. *)
Lemma properties_fields_agree (props : dict JsonSchema.schema) (d : dict json) :
  List.NoDup (map fst props) -> List.NoDup (map fst d) ->
  flat_map (property_errors d) props = [] <->
  flat_map (field_errors props) d = [].
Proof.
  intros Hp Hd. rewrite !flat_map_nil. split.
  - intros H [f v] Hin. apply field_errors_nil. intros s Hs.
    apply (proj1 (property_errors_nil d f s) (H (f, s) (dict_get_In _ _ _ Hs))).
    now apply In_dict_get.
  - intros H [k sub] Hin. apply property_errors_nil. intros v Hv.
    apply (proj1 (field_errors_nil props k v) (H (k, v) (dict_get_In _ _ _ Hv))).
    now apply In_dict_get.
Qed.

Lemma full_partial_agree (required : list string)
    (props : dict JsonSchema.schema) (d : dict json) :
  List.NoDup (map fst props) -> List.NoDup (map fst d) ->
  fst (Validator.validate_istvon {| schema := object_of required props |} d) =
  fst (Validator.validate_partial {| schema := object_of required props |}
         d true).
Proof.
  intros Hp Hd.
  pose proof (properties_fields_agree props d Hp Hd) as Hagree.
  unfold Validator.validate_istvon, JsonSchema.validate. cbn [schema].
  rewrite object_errors.
  unfold Validator.validate_partial. cbn [schema fst].
  rewrite check_fields_eq, check_required_eq. cbn [app].
  cbn [JsonSchema.required JsonSchema.properties object_of].
  destruct (List.filter (fun k => negb (dict_has k d)) required) as [| k ks].
  - cbn [map app].
    destruct (flat_map (property_errors d) props) as [| e es];
      destruct (flat_map (field_errors props) d) as [| e' es'];
      try reflexivity.
    + now specialize (proj1 Hagree eq_refl).
    + now specialize (proj2 Hagree eq_refl).
  - reflexivity.
Qed.

Lemma required_present (required : list string)
    (props : dict JsonSchema.schema) (d : dict json) :
  (forall k, In k required -> dict_has k d = true) ->
  Validator.validate_partial {| schema := object_of required props |} d true =
  Validator.validate_partial {| schema := object_of required props |} d false.
Proof.
  intros Hall. unfold Validator.validate_partial. cbn [schema].
  rewrite check_required_eq. cbn [app].
  assert (List.filter (fun k => negb (dict_has k d))
            (JsonSchema.required (object_of required props)) = []) as ->;
    [| reflexivity].
  cbn [JsonSchema.required object_of].
  induction required as [| k ks IH]; [reflexivity |]. cbn [List.filter].
  rewrite (Hall k (or_introl eq_refl)). cbn [negb]. apply IH.
  intros k' Hk'. apply Hall. now right.
Qed.

(** X10. Under a schema made of a required list and properties, and for a
    record and properties with no key twice, [validate_istvon] accepts a
    record exactly when [validate_partial] with [required_only] does; and
    when no required key is missing, [required_only] makes no difference. *)
Theorem full_validation_is_partial_with_required (required : list string)
    (props : dict JsonSchema.schema) (d : dict json) :
  List.NoDup (map fst props) -> List.NoDup (map fst d) ->
  fst (Validator.validate_istvon {| schema := object_of required props |} d) =
  fst (Validator.validate_partial {| schema := object_of required props |}
         d true) /\
  ((forall k, In k required -> dict_has k d = true) ->
   Validator.validate_partial {| schema := object_of required props |} d true =
   Validator.validate_partial {| schema := object_of required props |} d false).
Proof.
  intros Hp Hd. split; [now apply full_partial_agree |].
  now apply required_present.
Qed.

Lemma full_validation_is_partial_with_required_witness :
  fst (Validator.validate_istvon {| schema := sample_schema |}
         [("instructions", JNum 3); ("tools", JArr [])]) =
  fst (Validator.validate_partial {| schema := sample_schema |}
         [("instructions", JNum 3); ("tools", JArr [])] true).
Proof.
  refine (proj1 (full_validation_is_partial_with_required _ _
                   [("instructions", JNum 3); ("tools", JArr [])] _ _));
    cbn [map fst]; repeat constructor; cbn [In]; intuition discriminate.
Defined.

(** ** The Builder as a function on records *)

(** *** The primitives, on a store whose contents are known *)

Lemma getitem_eq record k fields v (h : list object) :
  h !! record = Some (ORecord fields) -> dict_get k fields = Some v ->
  getitem record k h = (Return v, h).
Proof.
  intros Hr Hk. unfold getitem. rewrite bind_run. unfold load.
  now rewrite Hr, Hk.
Qed.

Lemma setitem_eq record k v fields (h : list object) :
  h !! record = Some (ORecord fields) ->
  setitem record k v h =
  (Return tt, <[record := ORecord (dict_set k v fields)]> h).
Proof.
  intros Hr. unfold setitem. rewrite bind_run. unfold load. now rewrite Hr.
Qed.

Lemma items_of_eq l items (h : list object) :
  h !! l = Some (OList items) -> items_of (VRef l) h = (Return items, h).
Proof.
  intros Hl. unfold items_of. rewrite bind_run. unfold load. now rewrite Hl.
Qed.

Lemma append_eq l items x (h : list object) :
  h !! l = Some (OList items) ->
  append (VRef l) x h = (Return tt, <[l := OList (items ++ [x])]> h).
Proof.
  intros Hl. unfold append. rewrite bind_run. unfold load. now rewrite Hl.
Qed.

Lemma setfield_eq l fields k x (h : list object) :
  h !! l = Some (ODict fields) ->
  setfield (VRef l) k x h = (Return tt, <[l := ODict (dict_set k x fields)]> h).
Proof.
  intros Hl. unfold setfield. rewrite bind_run. unfold load. now rewrite Hl.
Qed.

Lemma update_eq l fields other (h : list object) :
  h !! l = Some (ODict fields) ->
  update (VRef l) other h =
  (Return tt, <[l := ODict (dict_update other fields)]> h).
Proof.
  intros Hl. unfold update. rewrite bind_run. unfold load. now rewrite Hl.
Qed.

Lemma new_list_eq items (h : list object) :
  new (JArr items) h = (Return (VRef (List.length h)), (h ++ [OList items])%list).
Proof. reflexivity. Qed.

Lemma new_dict_eq fields (h : list object) :
  new (JObj fields) h = (Return (VRef (List.length h)), (h ++ [ODict fields])%list).
Proof. reflexivity. Qed.

Lemma laid_out_bounds record h l c :
  laid_out record h l c ->
  (record < List.length h /\ at_source_data l < List.length h /\
   at_tools l < List.length h /\ at_variables l < List.length h /\
   at_outcome l < List.length h /\ at_notification l < List.length h /\
   record <> at_source_data l /\ record <> at_tools l /\
   record <> at_variables l /\ record <> at_outcome l /\
   record <> at_notification l /\
   at_source_data l <> at_tools l /\ at_source_data l <> at_variables l /\
   at_source_data l <> at_outcome l /\ at_source_data l <> at_notification l /\
   at_tools l <> at_variables l /\ at_tools l <> at_outcome l /\
   at_tools l <> at_notification l /\ at_variables l <> at_outcome l /\
   at_variables l <> at_notification l /\
   at_outcome l <> at_notification l)%nat.
Proof.
  intros (Hr & H1 & H2 & H3 & H4 & H5 & Hnd).
  repeat match goal with
         | H : _ !! _ = Some _ |- _ =>
             let Hlt := fresh "Hlt" in
             pose proof (lookup_lt_Some _ _ _ H) as Hlt; revert H
         end.
  intros.
  repeat (apply List.NoDup_cons_iff in Hnd as [? Hnd]).
  cbn [In] in *.
  repeat split; try assumption; try (intros E; rewrite E in *; congruence);
    try tauto; try (intros E; symmetry in E; tauto).
Qed.

Lemma laid_out_shows record h l c : laid_out record h l c -> shows record h l c.
Proof. unfold laid_out, shows. tauto. Qed.

Lemma read_list_eq l items (h : list object) :
  h !! l = Some (OList items) -> read (VRef l) h = (Return (JArr items), h).
Proof.
  intros Hl. unfold read. rewrite bind_run. unfold load. now rewrite Hl.
Qed.

Lemma read_dict_eq l fields (h : list object) :
  h !! l = Some (ODict fields) -> read (VRef l) h = (Return (JObj fields), h).
Proof.
  intros Hl. unfold read. rewrite bind_run. unfold load. now rewrite Hl.
Qed.

Lemma read_fields_step k v j (rest : dict value) rest' (h : list object) :
  read v h = (Return j, h) ->
  mapM (fun kv => j ← read (snd kv); mret (fst kv, j)) rest h
  = (Return rest', h) ->
  mapM (fun kv => j ← read (snd kv); mret (fst kv, j)) ((k, v) :: rest) h
  = (Return ((k, j) :: rest'), h).
Proof.
  intros Hv Hrest. cbn [mapM]. rewrite !bind_run. cbn [snd fst].
  rewrite Hv. cbn. rewrite bind_run, Hrest. reflexivity.
Qed.

Lemma view_shows record h l c :
  shows record h l c -> view record h = (Return (record_of c), h).
Proof.
  intros (Hr & H1 & H2 & H3 & H4 & H5).
  unfold view. rewrite bind_run. unfold load. rewrite Hr.
  unfold fields_of, record_of.
  repeat (apply read_fields_step;
          [ first [ reflexivity
                  | apply read_list_eq; assumption
                  | apply read_dict_eq; assumption ] |]).
  reflexivity.
Qed.

Lemma is_placeholder_eq items (h : list object) :
  Forall (fun j => is_dict j = true) items ->
  is_placeholder items h = (Return (placeholder_only items), h).
Proof.
  intros Hd. destruct items as [| x rest]; [reflexivity |].
  apply Forall_cons in Hd as [Hx _].
  destruct x; try discriminate Hx. destruct rest; reflexivity.
Qed.

Ltac arith :=
  repeat match goal with H : _ <> _ |- _ => clear H end;
  rewrite ?length_insert, ?length_app; cbn [List.length]; lia.

Ltac apart := first [assumption | apply not_eq_sym; assumption | arith].

Ltac look :=
  repeat first
    [ rewrite list_lookup_insert_eq by arith
    | rewrite list_lookup_insert_ne by apart
    | rewrite lookup_app_l by arith
    | rewrite lookup_app_here ].

Ltac found := look; first [eassumption | reflexivity].

Lemma ret_run {A} (a : A) (h : list object) : (mret a : M A) h = (Return a, h).
Proof. reflexivity. Qed.

Ltac step :=
  first
    [ rewrite bind_run
    | rewrite ret_run
    | erewrite getitem_eq; [| found | reflexivity]
    | erewrite setitem_eq; [| found]
    | erewrite items_of_eq; [| found]
    | erewrite append_eq; [| found]
    | erewrite setfield_eq; [| found]
    | erewrite update_eq; [| found]
    | rewrite new_list_eq
    | rewrite new_dict_eq ];
  cbn beta iota.

Ltac distinct :=
  repeat (apply List.NoDup_cons;
          [ let G := fresh "G" in
            cbn [In]; intros G;
            repeat (destruct G as [G | G]; [revert G; apart |]); exact G |]);
  apply List.NoDup_nil.

Ltac projections :=
  cbn [at_source_data at_tools at_variables at_outcome at_notification
       c_instructions c_source_data c_tools c_variables c_outcome
       c_notification] in *.

Ltac conjuncts := repeat match goal with |- _ /\ _ => split end.

Ltac settle :=
  projections;
  first
    [ lazymatch goal with |- List.NoDup _ => distinct end
    | lazymatch goal with
      | |- _ !! _ = _ => look; first [assumption | reflexivity]
      end
    | arith ].

Ltac finish :=
  unfold laid_out; conjuncts; projections;
  [ settle | settle | settle | settle | settle | settle | settle
  | unfold source_dicts in *; projections;
    rewrite ?Forall_app; repeat constructor; assumption
  | settle
  | let q := fresh "q" in
    let Hw := fresh "Hw" in
    intros q ? Hw ?; cbn [written In] in Hw;
    try match type of Hw with
        | ~ (?a = q \/ False) =>
            assert (a <> q) by (intros E; apply Hw; left; exact E)
        end;
    look; reflexivity
  | let op' := fresh "op'" in
    let q := fresh "q" in
    let Hlt := fresh "Hlt" in
    let Hq := fresh "Hq" in
    intros op' q Hlt Hq; destruct op'; cbn [written In] in *; projections;
    first [ assumption
          | exfalso; destruct Hq as [Hq | Hq]; [arith | exact Hq] ] ].

Lemma call_refines self op h l c :
  laid_out (istvon self) h l c -> source_dicts c ->
  exists h' l',
    call self op h = (Return self, h') /\
    laid_out (istvon self) h' l' (apply_call c op) /\
    source_dicts (apply_call c op) /\
    (List.length h <= List.length h')%nat /\
    (forall p, p <> istvon self -> ~ In p (written l op) ->
               (p < List.length h)%nat -> h' !! p = h !! p) /\
    (forall op' p, (p < List.length h)%nat -> In p (written l' op') ->
                   In p (written l op')).
Proof.
  intros Hl Hd.
  pose proof (laid_out_bounds _ _ _ _ Hl) as B.
  destruct Hl as (Hr & H1 & H2 & H3 & H4 & H5 & Hnd).
  decompose [and] B; clear B.
  destruct op as [i | t s d req | | n v p | vs | f dl fn ds other | m rc tr mt];
    unfold call.
  - (* set_instructions *)
    unfold set_instructions. repeat step.
    eexists; exists l. split; [reflexivity |]. finish.
  - (* add_source_data *)
    unfold add_source_data. repeat step.
    rewrite (is_placeholder_eq _ _ Hd). cbn beta iota.
    unfold apply_call, source_descriptor.
    destruct (placeholder_only (c_source_data c));
      destruct (String.eqb d ""); cbn [negb]; repeat step.
    + eexists;
        exists {| at_source_data := List.length h; at_tools := at_tools l;
                  at_variables := at_variables l; at_outcome := at_outcome l;
                  at_notification := at_notification l |}.
      split; [reflexivity |]. finish.
    + eexists;
        exists {| at_source_data := List.length h; at_tools := at_tools l;
                  at_variables := at_variables l; at_outcome := at_outcome l;
                  at_notification := at_notification l |}.
      split; [reflexivity |]. finish.
    + eexists; exists l. split; [reflexivity |]. finish.
    + eexists; exists l. split; [reflexivity |]. finish.
  - (* clear_tools *)
    unfold clear_tools. repeat step.
    eexists;
      exists {| at_source_data := at_source_data l; at_tools := List.length h;
                at_variables := at_variables l; at_outcome := at_outcome l;
                at_notification := at_notification l |}.
    split; [reflexivity |]. finish.
  - (* add_tool *)
    unfold add_tool, apply_call, tool_descriptor.
    destruct (given v); destruct p as [[| kv ps] |]; repeat step;
      (eexists; exists l; split; [reflexivity |]; finish).
  - (* set_variables *)
    unfold set_variables. repeat step.
    eexists; exists l. split; [reflexivity |]. finish.
  - (* set_outcome *)
    unfold set_outcome, apply_call, outcome_fields.
    destruct (given fn); destruct (given ds); repeat step;
      (eexists;
       exists {| at_source_data := at_source_data l; at_tools := at_tools l;
                 at_variables := at_variables l; at_outcome := List.length h;
                 at_notification := at_notification l |};
       split; [reflexivity |]; finish).
  - (* set_notification *)
    unfold set_notification, apply_call, notification_fields.
    destruct (given rc); destruct (given mt); repeat step;
      (eexists;
       exists {| at_source_data := at_source_data l; at_tools := at_tools l;
                 at_variables := at_variables l; at_outcome := at_outcome l;
                 at_notification := List.length h |};
       split; [reflexivity |]; finish).
Qed.

Lemma chain_refines self ops : forall h l c,
  laid_out (istvon self) h l c -> source_dicts c ->
  exists h' l',
    chain self ops h = (Return self, h') /\
    laid_out (istvon self) h' l' (fold_left apply_call ops c) /\
    source_dicts (fold_left apply_call ops c) /\
    (List.length h <= List.length h')%nat /\
    (forall p, p <> istvon self -> (p < List.length h)%nat ->
               (forall op, In op ops -> ~ In p (written l op)) ->
               h' !! p = h !! p) /\
    (forall op' p, (p < List.length h)%nat -> In p (written l' op') ->
                   In p (written l op')).
Proof.
  induction ops as [| op ops IH]; intros h l c Hl Hd.
  - exists h, l. cbn [chain fold_left].
    split; [reflexivity |]. split; [exact Hl |]. split; [exact Hd |].
    split; [lia |]. split; [reflexivity | tauto].
  - destruct (call_refines self op h l c Hl Hd)
      as (h1 & l1 & Hcall & Hl1 & Hd1 & Hlen1 & Hframe1 & Hloc1).
    destruct (IH h1 l1 _ Hl1 Hd1)
      as (h2 & l2 & Hchain & Hl2 & Hd2 & Hlen2 & Hframe2 & Hloc2).
    exists h2, l2. cbn [chain fold_left]. rewrite bind_run, Hcall.
    split; [exact Hchain |]. split; [exact Hl2 |]. split; [exact Hd2 |].
    split; [lia |]. split.
    + intros p Hp Hlt Hw. rewrite Hframe2.
      * apply Hframe1; auto. apply Hw. now left.
      * exact Hp.
      * lia.
      * intros op' Hin Hin'. apply (Hw op'); [now right |].
        now apply Hloc1.
    + intros op' p Hlt Hin. apply Hloc1; [exact Hlt |].
      apply Hloc2; [lia | exact Hin].
Qed.

Lemma init_laid_out (h : list object) :
  laid_out (List.length h + 5) (minimal_store h "") (initial_layout h)
    initial_contents.
Proof.
  unfold laid_out, minimal_store, initial_layout, fields_of, initial_contents.
  projections. conjuncts; try (heap_norm; reflexivity).
  repeat (apply List.NoDup_cons; [cbn [In]; lia |]). apply List.NoDup_nil.
Qed.

Lemma initial_source_dicts : source_dicts initial_contents.
Proof. repeat constructor. Qed.

Lemma record_of_initial :
  record_of initial_contents = Validator.create_minimal_istvon "".
Proof. reflexivity. Qed.

(** ** The Builder: what its calls do *)

Lemma reached sch ops (h0 : list object) :
  exists h l,
    (b ← __init__ sch; chain b ops) h0 =
      (Return {| validator := {| schema := sch |};
                 istvon := (List.length h0 + 5)%nat |}, h) /\
    laid_out (List.length h0 + 5) h l
      (fold_left apply_call ops initial_contents) /\
    source_dicts (fold_left apply_call ops initial_contents) /\
    (List.length h0 + 6 <= List.length h)%nat.
Proof.
  destruct (chain_refines
              {| validator := {| schema := sch |};
                 istvon := (List.length h0 + 5)%nat |}
              ops (minimal_store h0 "") (initial_layout h0) initial_contents
              (init_laid_out h0) initial_source_dicts)
    as (h & l & Hchain & Hl & Hd & Hlen & _).
  exists h, l. rewrite bind_run, init_spec.
  split; [exact Hchain |]. split; [exact Hl |]. split; [exact Hd |].
  revert Hlen. unfold minimal_store. rewrite length_app. cbn [List.length]. lia.
Qed.

Lemma built_by_eq sch ops (h0 : list object) :
  fst (built_by sch ops h0) =
  Return (record_of (fold_left apply_call ops initial_contents)).
Proof.
  destruct (reached sch ops h0) as (h & l & Hrun & Hl & _).
  unfold built_by. 
  change (fst (((b ← __init__ sch; chain b ops) ≫= fun b => view (istvon b)) h0)
          = Return (record_of (fold_left apply_call ops initial_contents))).
  rewrite bind_run, Hrun. cbn [istvon].
  rewrite (view_shows _ _ _ _ (laid_out_shows _ _ _ _ Hl)). reflexivity.
Qed.

(** X11. No call on a Builder raises, whatever the arguments and however
    many calls came before, and each returns the builder it was called on:
    a chain of calls on a new Builder returns that builder, and its record
    then reads as the six fields obtained by applying the calls in order
    to the minimal record. *)
Theorem builder_calls_never_raise (sch : JsonSchema.schema)
    (ops : list operation) (h0 : list object) :
  exists self h1 h,
    __init__ sch h0 = (Return self, h1) /\
    schema (validator self) = sch /\
    chain self ops h1 = (Return self, h) /\
    view (istvon self) h =
      (Return (record_of (fold_left apply_call ops initial_contents)), h).
Proof.
  destruct (reached sch ops h0) as (h & l & Hrun & Hl & _).
  rewrite bind_run, init_spec in Hrun.
  eexists; eexists; exists h. split; [apply init_spec |].
  split; [reflexivity |]. split; [exact Hrun |].
  apply (view_shows _ _ l). now apply laid_out_shows.
Qed.

(** *** How calls compose *)

Lemma fold_left_app_calls ops1 ops2 c :
  fold_left apply_call (ops1 ++ ops2) c =
  fold_left apply_call ops2 (fold_left apply_call ops1 c).
Proof. apply fold_left_app. Qed.

Lemma apply_commute c op1 op2 :
  field_of op1 <> field_of op2 ->
  apply_call (apply_call c op1) op2 = apply_call (apply_call c op2) op1.
Proof.
  destruct op1, op2; cbn [field_of]; intros Hne;
    first [reflexivity | contradiction].
Qed.

Lemma apply_absorb c op1 op2 :
  field_of op1 = field_of op2 -> rebinds op2 = true ->
  apply_call (apply_call c op1) op2 = apply_call c op2.
Proof.
  destruct op1, op2; cbn [field_of rebinds]; intros Hf Hr;
    first [reflexivity | discriminate].
Qed.

(** X12. Two consecutive calls about different fields of the record can be
    swapped without changing what the record reads as after the whole
    chain; and a call that assigns its field ([set_instructions],
    [clear_tools], [set_outcome], [set_notification]) makes a call about
    the same field just before it redundant. *)
Theorem calls_compose (sch : JsonSchema.schema)
    (before after : list operation) (op1 op2 : operation) (h0 : list object) :
  (field_of op1 <> field_of op2 ->
   fst (built_by sch (before ++ op1 :: op2 :: after) h0) =
   fst (built_by sch (before ++ op2 :: op1 :: after) h0)) /\
  (field_of op1 = field_of op2 -> rebinds op2 = true ->
   fst (built_by sch (before ++ op1 :: op2 :: after) h0) =
   fst (built_by sch (before ++ op2 :: after) h0)).
Proof.
  split.
  - intros Hne. rewrite !built_by_eq, !fold_left_app_calls.
    cbn [fold_left]. now rewrite apply_commute.
  - intros Hf Hr. rewrite !built_by_eq, !fold_left_app_calls.
    cbn [fold_left]. now rewrite apply_absorb.
Qed.

Lemma calls_compose_witness :
  fst (built_by sample_schema
         ([SetInstructions "Write a poem"]
          ++ [AddTool "web_search" None None;
              SetOutcome "markdown" "display" None None []]) []) =
  fst (built_by sample_schema
         ([SetInstructions "Write a poem"]
          ++ [SetOutcome "markdown" "display" None None [];
              AddTool "web_search" None None]) []).
Proof.
  refine (proj1 (calls_compose sample_schema [SetInstructions "Write a poem"] []
                   (AddTool "web_search" None None)
                   (SetOutcome "markdown" "display" None None []) []) _).
  cbn [field_of]. discriminate.
Defined.

(** *** Tools *)

Lemma tools_of_view c :
  dict_get "tools" (record_of c) = Some (JArr (c_tools c)).
Proof. reflexivity. Qed.

Lemma fold_add_tools (specs : list (string * option string * option (dict json)))
    c :
  let c' := fold_left apply_call (map (fun '(n, v, p) => AddTool n v p) specs) c in
  c_tools c' = (c_tools c ++ map (fun '(n, v, p) => tool_descriptor n v p) specs)%list.
Proof.
  revert c. induction specs as [| [[n v] p] specs IH]; intros c; cbn zeta.
  - cbn [map fold_left]. now rewrite app_nil_r.
  - cbn [map fold_left]. cbn zeta in IH. rewrite IH.
    cbn [apply_call c_tools]. now rewrite <- app_assoc.
Qed.

Lemma fold_other_tools ops c :
  Forall (fun op => field_of op <> "tools") ops ->
  c_tools (fold_left apply_call ops c) = c_tools c.
Proof.
  intros Hops. revert c.
  induction Hops as [| op ops Hop _ IH]; intros c; [reflexivity |].
  cbn [fold_left]. rewrite IH.
  destruct op; cbn [field_of] in Hop; try reflexivity; contradiction.
Qed.

(** X13. [add_tool] appends: on a new Builder (and after calls about other
    fields) the tools are the default [text_generation] entry followed by
    one descriptor per [add_tool] call, in call order, each with [name],
    then [version] if a non-empty one was given, then [parameters] if a
    non-empty dict was given.  After [clear_tools], whatever came before,
    they are the descriptors of the later [add_tool] calls alone. *)
Theorem tools_accumulate (sch : JsonSchema.schema)
    (before : list operation)
    (specs : list (string * option string * option (dict json)))
    (h0 : list object) :
  let adds := map (fun '(n, v, p) => AddTool n v p) specs in
  let descriptors := map (fun '(n, v, p) => tool_descriptor n v p) specs in
  (exists data,
     fst (built_by sch (before ++ ClearTools :: adds) h0) = Return data /\
     dict_get "tools" data = Some (JArr descriptors)) /\
  (Forall (fun op => field_of op <> "tools") before ->
   exists data,
     fst (built_by sch (before ++ adds) h0) = Return data /\
     dict_get "tools" data =
       Some (JArr (tool "text_generation" :: descriptors))).
Proof.
  cbn zeta. split.
  - eexists. split; [apply built_by_eq |].
    rewrite tools_of_view, fold_left_app_calls. cbn [fold_left].
    now rewrite fold_add_tools.
  - intros Hother. eexists. split; [apply built_by_eq |].
    rewrite tools_of_view, fold_left_app_calls, fold_add_tools.
    now rewrite fold_other_tools.
Qed.

Lemma tools_accumulate_witness :
  exists data,
    fst (built_by sample_schema
           ([SetInstructions "Find papers"]
            ++ [AddTool "web_search" (Some "2.1") None;
                AddTool "summarization" (Some "") (Some [])]) []) =
      Return data /\
    dict_get "tools" data =
      Some (JArr [ tool "text_generation";
                   JObj [("name", JStr "web_search"); ("version", JStr "2.1")];
                   tool "summarization" ]).
Proof.
  refine (proj2 (tools_accumulate sample_schema [SetInstructions "Find papers"]
                   [("web_search", Some "2.1", None);
                    ("summarization", Some "", Some [])] []) _).
  repeat constructor. cbn [field_of]. discriminate.
Defined.

(** *** Sources *)

Lemma source_data_of_view c :
  dict_get "source_data" (record_of c) = Some (JArr (c_source_data c)).
Proof. reflexivity. Qed.

Lemma placeholder_only_descriptor t s d r :
  placeholder_only [source_descriptor t s d r] = String.eqb t "none".
Proof. reflexivity. Qed.

Lemma placeholder_only_longer x y rest :
  placeholder_only (x :: y :: rest) = false.
Proof. destruct x; reflexivity. Qed.

Lemma fold_other_sources ops c :
  Forall (fun op => field_of op <> "source_data") ops ->
  c_source_data (fold_left apply_call ops c) = c_source_data c.
Proof.
  intros Hops. revert c.
  induction Hops as [| op ops Hop _ IH]; intros c; [reflexivity |].
  cbn [fold_left]. rewrite IH.
  destruct op; cbn [field_of] in Hop; try reflexivity; contradiction.
Qed.

Lemma fold_add_sources (specs : list (string * string * string * bool)) :
  forall c,
  placeholder_only (c_source_data c) = false ->
  c_source_data c <> [] ->
  Forall (fun '(t, _, _, _) => t <> "none") specs ->
  c_source_data
    (fold_left apply_call
       (map (fun '(t, s, d, r) => AddSourceData t s d r) specs) c) =
  (c_source_data c
   ++ map (fun '(t, s, d, r) => source_descriptor t s d r) specs)%list.
Proof.
  induction specs as [| [[[t s] d] r] specs IH]; intros c Hp Hne Hall.
  - cbn [map fold_left]. now rewrite app_nil_r.
  - apply Forall_cons in Hall as [Ht Hall].
    cbn [map fold_left]. rewrite IH; [| | | exact Hall].
    + cbn [apply_call c_source_data]. rewrite Hp. now rewrite <- app_assoc.
    + cbn [apply_call c_source_data]. rewrite Hp.
      destruct (c_source_data c) as [| x [| y rest]]; [contradiction | |].
      * apply placeholder_only_longer.
      * apply placeholder_only_longer.
    + cbn [apply_call c_source_data]. rewrite Hp.
      destruct (c_source_data c); [contradiction | discriminate].
Qed.

(** X14. On a Builder that has had no [add_source_data] call yet, a run of
    [add_source_data] calls none of which has type "none" leaves exactly
    their descriptors, in call order: the placeholder goes with the first
    call and later calls append.  But a first source of type "none" is
    itself taken for the placeholder: the next call discards it. *)
Theorem sources_accumulate (sch : JsonSchema.schema)
    (before : list operation)
    (t s d : string) (r : bool)
    (specs : list (string * string * string * bool)) (h0 : list object) :
  Forall (fun op => field_of op <> "source_data") before ->
  let adds := map (fun '(t, s, d, r) => AddSourceData t s d r) specs in
  let descriptors :=
    map (fun '(t, s, d, r) => source_descriptor t s d r) specs in
  (t <> "none" -> Forall (fun '(t, _, _, _) => t <> "none") specs ->
   exists data,
     fst (built_by sch (before ++ AddSourceData t s d r :: adds) h0)
       = Return data /\
     dict_get "source_data" data =
       Some (JArr (source_descriptor t s d r :: descriptors))) /\
  (forall t' s' d' r',
   exists data,
     fst (built_by sch
            (before ++ [AddSourceData "none" s d r; AddSourceData t' s' d' r'])
            h0) = Return data /\
     dict_get "source_data" data =
       Some (JArr [source_descriptor t' s' d' r'])).
Proof.
  intros Hbefore. cbn zeta. split.
  - intros Ht Hall. eexists. split; [apply built_by_eq |].
    rewrite source_data_of_view, fold_left_app_calls. cbn [fold_left].
    set (c := fold_left apply_call before initial_contents).
    assert (c_source_data c = c_source_data initial_contents) as Hc
      by now apply fold_other_sources.
    rewrite fold_add_sources; [| | | exact Hall].
    + cbn [apply_call c_source_data]. rewrite Hc. reflexivity.
    + cbn [apply_call c_source_data]. rewrite Hc.
      cbn [initial_contents c_source_data]. 
      change (placeholder_only
                [JObj [("type", JStr "none");
                       ("source", JStr "general_knowledge")]]) with true.
      cbn [app]. rewrite placeholder_only_descriptor.
      now apply String.eqb_neq.
    + cbn [apply_call c_source_data]. rewrite Hc. discriminate.
  - intros t' s' d' r'. eexists. split; [apply built_by_eq |].
    rewrite source_data_of_view, fold_left_app_calls. cbn [fold_left].
    set (c := fold_left apply_call before initial_contents).
    assert (c_source_data c = c_source_data initial_contents) as Hc
      by now apply fold_other_sources.
    cbn [apply_call c_source_data]. rewrite Hc. reflexivity.
Qed.

Lemma sources_accumulate_witness :
  exists data,
    fst (built_by sample_schema
           ([ClearTools]
            ++ [AddSourceData "file" "notes.txt" "" false;
                AddSourceData "database" "orders" "Order table" true]) [])
      = Return data /\
    dict_get "source_data" data =
      Some (JArr [ JObj [("type", JStr "file"); ("source", JStr "notes.txt");
                         ("required", JBool false)];
                   JObj [("type", JStr "database"); ("source", JStr "orders");
                         ("required", JBool true);
                         ("description", JStr "Order table")] ]).
Proof.
  refine (proj1 (sources_accumulate sample_schema [ClearTools]
                   "file" "notes.txt" "" false
                   [("database", "orders", "Order table", true)] [] _) _ _).
  - repeat constructor. cbn [field_of]. discriminate.
  - discriminate.
  - repeat constructor. discriminate.
Defined.

(** *** Variables *)

Lemma dict_get_set {V} (k k' : string) (v : V) (d : dict V) :
  dict_get k (dict_set k' v d) =
  if String.eqb k k' then Some v else dict_get k d.
Proof.
  induction d as [| [k0 v0] d IH]; cbn [dict_set dict_get].
  - reflexivity.
  - destruct (String.eqb k' k0) eqn:E0; cbn [dict_get].
    + apply String.eqb_eq in E0. subst k0.
      destruct (String.eqb k k'); reflexivity.
    + destruct (String.eqb k k0) eqn:E1.
      * apply String.eqb_eq in E1. subst k0.
        rewrite String.eqb_sym in E0. now rewrite E0.
      * exact IH.
Qed.

Lemma dict_get_absent {V} (k : string) (d : dict V) :
  ~ In k (map fst d) -> dict_get k d = None.
Proof.
  induction d as [| [k0 v0] d IH]; cbn [map fst In dict_get]; [reflexivity |].
  intros Hn. destruct (String.eqb k k0) eqn:E.
  - apply String.eqb_eq in E. subst. tauto.
  - apply IH. tauto.
Qed.

Lemma dict_get_update {V} (k : string) (other : dict V) : forall d : dict V,
  List.NoDup (map fst other) ->
  dict_get k (dict_update other d) =
  match dict_get k other with
  | Some v => Some v
  | None => dict_get k d
  end.
Proof.
  unfold dict_update.
  induction other as [| [k0 v0] other IH]; intros d Hnd; [reflexivity |].
  cbn [map fst] in Hnd. apply List.NoDup_cons_iff in Hnd as [Hk0 Hnd].
  cbn [fold_left fst snd dict_get]. rewrite IH by exact Hnd.
  rewrite dict_get_set.
  destruct (String.eqb k k0) eqn:E.
  - apply String.eqb_eq in E. subst k0. now rewrite dict_get_absent.
  - reflexivity.
Qed.

Lemma variables_of_view c :
  dict_get "variables" (record_of c) = Some (JObj (c_variables c)).
Proof. reflexivity. Qed.

(** X15. [set_variables] merges, it does not replace: after the call a key
    passed to it reads as the value passed, every other key as it did
    before, so the defaults and earlier settings stay unless overridden.
    The keyword arguments are a dict and so have no key twice. *)
Theorem set_variables_merges (sch : JsonSchema.schema)
    (before : list operation) (variables : dict json) (h0 : list object) :
  List.NoDup (map fst variables) ->
  exists data old data' new,
    fst (built_by sch before h0) = Return data /\
    dict_get "variables" data = Some (JObj old) /\
    fst (built_by sch (before ++ [SetVariables variables]) h0) = Return data' /\
    dict_get "variables" data' = Some (JObj new) /\
    (forall k,
       dict_get k new =
       match dict_get k variables with
       | Some v => Some v
       | None => dict_get k old
       end) /\
    (forall k, k <> "variables" -> dict_get k data' = dict_get k data).
Proof.
  intros Hnd.
  exists (record_of (fold_left apply_call before initial_contents)),
    (c_variables (fold_left apply_call before initial_contents)),
    (record_of (fold_left apply_call (before ++ [SetVariables variables])
                  initial_contents)),
    (c_variables (fold_left apply_call (before ++ [SetVariables variables])
                    initial_contents)).
  split; [apply built_by_eq |]. split; [reflexivity |].
  split; [apply built_by_eq |]. split; [reflexivity |].
  rewrite fold_left_app_calls. cbn [fold_left apply_call c_variables].
  split.
  - intros k. now apply dict_get_update.
  - intros k Hk. unfold record_of.
    cbn [c_instructions c_source_data c_tools c_variables c_outcome
         c_notification dict_get].
    destruct (String.eqb k "variables") eqn:E;
      [apply String.eqb_eq in E; contradiction | reflexivity].
Qed.

Lemma set_variables_merges_witness :
  exists data old data' new,
    fst (built_by sample_schema [] []) = Return data /\
    dict_get "variables" data = Some (JObj old) /\
    fst (built_by sample_schema
           ([] ++ [SetVariables [("topic", JStr "tides");
                                 ("tone", JStr "casual")]]) [])
      = Return data' /\
    dict_get "variables" data' = Some (JObj new) /\
    (forall k,
       dict_get k new =
       match dict_get k [("topic", JStr "tides"); ("tone", JStr "casual")] with
       | Some v => Some v
       | None => dict_get k old
       end) /\
    (forall k, k <> "variables" -> dict_get k data' = dict_get k data).
Proof.
  apply (set_variables_merges sample_schema []
           [("topic", JStr "tides"); ("tone", JStr "casual")] []).
  cbn [map fst]. repeat constructor; cbn [In]; intuition discriminate.
Defined.

(** *** [build] and [build_partial] *)

Lemma copy_eq record fields (h : list object) :
  h !! record = Some (ORecord fields) ->
  copy record h = (Return (List.length h), (h ++ [ORecord fields])%list).
Proof.
  intros Hr. unfold copy. rewrite bind_run. unfold load. now rewrite Hr.
Qed.

Lemma build_eq self h l c :
  laid_out (istvon self) h l c ->
  build self h =
  if fst (Validator.validate_istvon (validator self) (record_of c))
  then (Return (List.length h), (h ++ [ORecord (fields_of c l)])%list)
  else (Raise (ValueError
                 (snd (Validator.validate_istvon (validator self)
                         (record_of c)))), h).
Proof.
  intros Hl. unfold build. rewrite bind_run.
  rewrite (view_shows _ _ _ _ (laid_out_shows _ _ _ _ Hl)).
  destruct (Validator.validate_istvon (validator self) (record_of c))
    as [[|] err]; cbn [negb fst snd]; [| reflexivity].
  apply copy_eq. apply Hl.
Qed.

Lemma build_partial_eq self h l c :
  laid_out (istvon self) h l c ->
  build_partial self h =
  (Return (List.length h,
           fst (Validator.validate_partial (validator self) (record_of c) false),
           snd (Validator.validate_partial (validator self) (record_of c) false)),
   (h ++ [ORecord (fields_of c l)])%list).
Proof.
  intros Hl. unfold build_partial. rewrite bind_run.
  rewrite (view_shows _ _ _ _ (laid_out_shows _ _ _ _ Hl)).
  destruct (Validator.validate_partial (validator self) (record_of c) false)
    as [ok errs]; cbn [fst snd].
  rewrite bind_run, (copy_eq _ (fields_of c l)); [reflexivity | apply Hl].
Qed.

Lemma shows_app record h s l c :
  shows record h l c -> shows record (h ++ s) l c.
Proof.
  unfold shows. intros H.
  repeat match goal with
         | H : _ /\ _ |- _ => destruct H
         end.
  repeat split;
    (rewrite lookup_app_l; [assumption | eapply lookup_lt_Some; eassumption]).
Qed.

Lemma laid_out_app record h s l c :
  laid_out record h l c -> laid_out record (h ++ s) l c.
Proof.
  intros Hl. pose proof (shows_app _ _ s _ _ (laid_out_shows _ _ _ _ Hl)) as Hs.
  unfold laid_out, shows in *. intuition.
Qed.

Lemma the_copy_shows h l c record :
  laid_out record h l c ->
  shows (List.length h) (h ++ [ORecord (fields_of c l)]) l c.
Proof.
  intros Hl.
  destruct (shows_app _ _ [ORecord (fields_of c l)] _ _
              (laid_out_shows _ _ _ _ Hl)) as (_ & H1 & H2 & H3 & H4 & H5).
  unfold shows. rewrite lookup_app_here. cbn. tauto.
Qed.

Lemma record_keys c : map fst (record_of c) = top_level_keys.
Proof. reflexivity. Qed.

Lemma record_has_keys c k :
  In k top_level_keys -> dict_has k (record_of c) = true.
Proof.
  unfold top_level_keys. cbn [In].
  intros [<- | [<- | [<- | [<- | [<- | [<- | []]]]]]]; reflexivity.
Qed.

Lemma top_level_keys_NoDup : List.NoDup top_level_keys.
Proof.
  unfold top_level_keys.
  repeat (apply List.NoDup_cons; [cbn [In]; intuition discriminate |]).
  apply List.NoDup_nil.
Qed.

(** X16. [build_partial] never raises on a Builder, under any schema: it
    returns a copy of the record with the verdict and the errors of
    [validate_partial] without the required-keys check.  When the schema
    is given by required keys, all among the six of the record, and
    properties, the verdict is the one of [build]: on [True], [build]
    returns the same copy; on [False], [build] raises the
    invalid-structure error. *)
Theorem build_partial_agrees_with_build (sch : JsonSchema.schema)
    (ops : list operation) (h0 : list object) :
  exists self h data record h',
    (b ← __init__ sch; chain b ops) h0 = (Return self, h) /\
    view (istvon self) h = (Return data, h) /\
    build_partial self h =
      (Return (record,
               fst (Validator.validate_partial (validator self) data false),
               snd (Validator.validate_partial (validator self) data false)),
       h') /\
    view record h' = (Return data, h') /\
    (forall required props,
       sch = object_of required props ->
       List.NoDup (map fst props) ->
       (forall k, In k required -> In k top_level_keys) ->
       (fst (Validator.validate_partial (validator self) data false) = true ->
        build self h = (Return record, h')) /\
       (fst (Validator.validate_partial (validator self) data false) = false ->
        exists error, build self h = (Raise (ValueError error), h))).
Proof.
  destruct (reached sch ops h0) as (h & l & Hrun & Hl & _).
  set (c := fold_left apply_call ops initial_contents) in *.
  set (self := {| validator := {| schema := sch |};
                  istvon := (List.length h0 + 5)%nat |}) in *.
  exists self, h, (record_of c), (List.length h),
    (h ++ [ORecord (fields_of c l)])%list.
  split; [exact Hrun |].
  split; [apply (view_shows _ _ l), laid_out_shows, Hl |].
  split; [apply (build_partial_eq self h l c Hl) |].
  split; [apply (view_shows _ _ l), (the_copy_shows _ _ _ _ Hl) |].
  intros required props Hsch Hprops Hreq.
  assert (fst (Validator.validate_istvon (validator self) (record_of c)) =
          fst (Validator.validate_partial (validator self) (record_of c) false))
    as Hagree.
  { cbn [validator self]. rewrite Hsch.
    rewrite full_partial_agree;
      [| exact Hprops | rewrite record_keys; apply top_level_keys_NoDup].
    rewrite required_present; [reflexivity |].
    intros k Hk. apply record_has_keys, Hreq, Hk. }
  rewrite (build_eq self h l c Hl), Hagree.
  split; intros ->; [reflexivity | eauto].
Qed.

Lemma build_partial_agrees_with_build_witness :
  exists self h data record h',
    (b ← __init__ (object_of ["instructions"]
                     [("instructions", typed JsonSchema.TString)]);
     chain b [SetInstructions "Write a poem"]) []
      = (Return self, h) /\
    view record h' = (Return data, h') /\
    (fst (Validator.validate_partial (validator self) data false) = true ->
     build self h = (Return record, h')) /\
    (fst (Validator.validate_partial (validator self) data false) = false ->
     exists error, build self h = (Raise (ValueError error), h)).
Proof.
  destruct (build_partial_agrees_with_build
              (object_of ["instructions"]
                 [("instructions", typed JsonSchema.TString)])
              [SetInstructions "Write a poem"] [])
    as (self & h & data & record & h' & Hrun & _ & _ & Hcopy & Hagree).
  exists self, h, data, record, h'.
  split; [exact Hrun |]. split; [exact Hcopy |].
  apply (Hagree ["instructions"] [("instructions", typed JsonSchema.TString)]
           eq_refl).
  - cbn [map fst]. repeat constructor. cbn [In]. tauto.
  - cbn [In]. intros k [<- | []]. unfold top_level_keys. cbn [In]. tauto.
Defined.

(** *** A built record and later calls *)

Lemma field_eq record k fields v j (h : list object) :
  h !! record = Some (ORecord fields) -> dict_get k fields = Some v ->
  read v h = (Return j, h) ->
  field record k h = (Return j, h).
Proof.
  intros Hr Hk Hv. unfold field. rewrite bind_run.
  rewrite (getitem_eq _ _ _ _ _ Hr Hk). exact Hv.
Qed.

Lemma in_place_written l op p :
  In p (written l op) ->
  (p = at_source_data l /\ in_place "source_data" op = true) \/
  (p = at_tools l /\ in_place "tools" op = true) \/
  (p = at_variables l /\ in_place "variables" op = true).
Proof.
  destruct op; cbn [written In in_place]; intros Hin; try contradiction;
    destruct Hin as [<- | []]; cbn; tauto.
Qed.

Lemma existsb_false {A} (f : A -> bool) (xs : list A) (x : A) :
  existsb f xs = false -> In x xs -> f x = false.
Proof.
  intros He Hin. destruct (f x) eqn:E; [| reflexivity].
  rewrite <- He. symmetry. apply existsb_exists. eauto.
Qed.

Lemma rebinds_not_in_place k op : negb (rebinds op) = false -> in_place k op = false.
Proof. destruct op; cbn [rebinds negb in_place]; congruence. Qed.

(** X17. The record [build] returns is cut off from later calls on the
    Builder except through the three containers it shares with it:
    whatever calls follow, none raises, and a field of the returned record
    reads as it did unless one of them is the call that changes that
    field's container in place ([add_source_data] for [source_data],
    [add_tool] for [tools], [set_variables] for [variables]).  So
    [instructions], [outcome] and [notification] never change, and after
    calls that only assign ([set_instructions], [clear_tools],
    [set_outcome], [set_notification]) the whole record reads the same. *)
Theorem built_record_kept (sch : JsonSchema.schema)
    (before after : list operation) (h0 h h1 : list object)
    (self : ISTVONBuilder) (built : nat) :
  (b ← __init__ sch; chain b before) h0 = (Return self, h) ->
  build self h = (Return built, h1) ->
  exists data h2,
    view built h1 = (Return data, h1) /\
    chain self after h1 = (Return self, h2) /\
    (forall k j, dict_get k data = Some j ->
                 existsb (in_place k) after = false ->
                 field built k h2 = (Return j, h2)) /\
    (existsb (fun op => negb (rebinds op)) after = false ->
     view built h2 = (Return data, h2)).
Proof.
  intros Hrun Hbuild.
  destruct (reached sch before h0) as (h' & l & Hrun' & Hl & Hd & Hlen0).
  rewrite Hrun' in Hrun. injection Hrun as <- <-.
  set (c := fold_left apply_call before initial_contents) in *.
  set (self := {| validator := {| schema := sch |};
                  istvon := (List.length h0 + 5)%nat |}) in *.
  rewrite (build_eq self h' l c Hl) in Hbuild.
  destruct (fst (Validator.validate_istvon (validator self) (record_of c)));
    [| discriminate Hbuild].
  injection Hbuild as <- <-.
  pose proof (the_copy_shows _ _ _ _ Hl) as Hcopy.
  pose proof (laid_out_app _ _ [ORecord (fields_of c l)] _ _ Hl) as Hl1.
  pose proof (laid_out_bounds _ _ _ _ Hl) as B.
  destruct (chain_refines self after _ l c Hl1 Hd)
    as (h2 & l2 & Hchain & Hl2 & _ & Hlen & Hframe & _).
  exists (record_of c), h2.
  split; [apply (view_shows _ _ l), Hcopy |].
  split; [exact Hchain |].
  assert (forall p, (p < List.length h')%nat -> p <> istvon self ->
            (forall op, In op after -> ~ In p (written l op)) ->
            h2 !! p = (h' ++ [ORecord (fields_of c l)])%list !! p) as Hold.
  { intros p Hp Hne Hw. apply Hframe; [exact Hne | | exact Hw].
    rewrite length_app. cbn [List.length]. lia. }
  assert (h2 !! List.length h' = Some (ORecord (fields_of c l))) as Hrec.
  { rewrite Hframe.
    - apply Hcopy.
    - cbn [istvon self]. lia.
    - rewrite length_app. cbn [List.length]. lia.
    - intros op _ Hin.
      destruct (in_place_written _ _ _ Hin) as [[E _] | [[E _] | [E _]]]; lia. }
  destruct Hcopy as (_ & C1 & C2 & C3 & C4 & C5).
  decompose [and] B; clear B.
  assert (forall k, existsb (in_place k) after = false ->
            (k = "source_data" -> h2 !! at_source_data l
                                  = Some (OList (c_source_data c))) /\
            (k = "tools" -> h2 !! at_tools l = Some (OList (c_tools c))) /\
            (k = "variables" -> h2 !! at_variables l
                                = Some (ODict (c_variables c)))) as Hshared.
  { intros k Hk.
    repeat split; intros ->; (rewrite Hold; [assumption | lia | apart |]);
      intros op Hop Hin;
      pose proof (existsb_false _ _ _ Hk Hop) as Hno;
      destruct (in_place_written _ _ _ Hin) as [[E Hi] | [[E Hi] | [E Hi]]];
      first [congruence | contradiction | (symmetry in E; contradiction)]. }
  assert (h2 !! at_outcome l = Some (ODict (c_outcome c))) as Hout.
  { rewrite Hold; [assumption | lia | apart |].
    intros op _ Hin.
    destruct (in_place_written _ _ _ Hin) as [[E _] | [[E _] | [E _]]];
      first [contradiction | (symmetry in E; contradiction)]. }
  assert (h2 !! at_notification l = Some (ODict (c_notification c))) as Hnot.
  { rewrite Hold; [assumption | lia | apart |].
    intros op _ Hin.
    destruct (in_place_written _ _ _ Hin) as [[E _] | [[E _] | [E _]]];
      first [contradiction | (symmetry in E; contradiction)]. }
  split.
  - intros k j Hk Hnone. destruct (Hshared k Hnone) as (S1 & S2 & S3).
    unfold record_of in Hk. cbn [dict_get] in Hk.
    repeat match type of Hk with
           | (if String.eqb k ?s then _ else _) = _ =>
               let E := fresh "E" in
               destruct (String.eqb k s) eqn:E;
               [apply String.eqb_eq in E; subst k; injection Hk as <- |]
           end; [| | | | | | discriminate Hk].
    + eapply field_eq; [exact Hrec | reflexivity | reflexivity].
    + eapply field_eq; [exact Hrec | reflexivity |].
      apply read_list_eq. now apply S1.
    + eapply field_eq; [exact Hrec | reflexivity |].
      apply read_list_eq. now apply S2.
    + eapply field_eq; [exact Hrec | reflexivity |].
      apply read_dict_eq. now apply S3.
    + eapply field_eq; [exact Hrec | reflexivity |].
      now apply read_dict_eq.
    + eapply field_eq; [exact Hrec | reflexivity |].
      now apply read_dict_eq.
  - intros Hreb.
    assert (forall k, existsb (in_place k) after = false) as Hnone.
    { intros k. apply not_true_is_false. intros Hex.
      apply existsb_exists in Hex as (op & Hop & Hin).
      rewrite (rebinds_not_in_place k op) in Hin; [discriminate |].
      exact (existsb_false _ _ _ Hreb Hop). }
    apply (view_shows _ _ l). unfold shows.
    split; [exact Hrec |].
    split; [now apply (Hshared "source_data") |].
    split; [now apply (Hshared "tools") |].
    split; [now apply (Hshared "variables") |].
    split; assumption.
Qed.

Lemma built_record_kept_witness :
  exists data h2,
    view 6 (snd (build {| validator := {| schema := sample_schema |};
                          istvon := 5 |}
                   (minimal_store [] "Write a poem")))
    = (Return data,
       snd (build {| validator := {| schema := sample_schema |}; istvon := 5 |}
              (minimal_store [] "Write a poem"))) /\
    chain {| validator := {| schema := sample_schema |}; istvon := 5 |}
      [ClearTools; AddTool "web_search" None None]
      (snd (build {| validator := {| schema := sample_schema |}; istvon := 5 |}
              (minimal_store [] "Write a poem")))
    = (Return {| validator := {| schema := sample_schema |}; istvon := 5 |}, h2) /\
    (forall k j, dict_get k data = Some j ->
                 existsb (in_place k) [ClearTools; AddTool "web_search" None None]
                 = false ->
                 field 6 k h2 = (Return j, h2)) /\
    (existsb (fun op => negb (rebinds op))
       [ClearTools; AddTool "web_search" None None] = false ->
     view 6 h2 = (Return data, h2)).
Proof.
  apply (built_record_kept sample_schema [SetInstructions "Write a poem"]
           [ClearTools; AddTool "web_search" None None] []
           (minimal_store [] "Write a poem")).
  - vm_compute. reflexivity.
  - vm_compute. reflexivity.
Defined.

(** ** The schema helpers *)

Lemma json_nested_ind (P : json -> Prop) :
  P JNull -> (forall b, P (JBool b)) -> (forall z, P (JNum z)) ->
  (forall s, P (JStr s)) ->
  (forall items, Forall P items -> P (JArr items)) ->
  (forall fields, Forall (fun kv => P (snd kv)) fields -> P (JObj fields)) ->
  forall j, P j.
Proof.
  intros Hnull Hbool Hnum Hstr Harr Hobj.
  fix IH 1. intros [| b | z | s | items | fields].
  - exact Hnull.
  - apply Hbool.
  - apply Hnum.
  - apply Hstr.
  - apply Harr. induction items as [| x items IHitems]; constructor.
    + apply IH.
    + exact IHitems.
  - apply Hobj. induction fields as [| [k v] fields IHfields]; constructor.
    + apply IH.
    + exact IHfields.
Qed.

Lemma extract_enums_obj fields prefix enums :
  Schemas.extract_enums (JObj fields) prefix enums =
  fold_left
    (fun acc kv =>
       Schemas.extract_enums (snd kv) (Schemas.new_prefix prefix (fst kv)) acc)
    fields
    (match dict_get "enum" fields with
     | Some values => dict_set prefix values enums
     | None => enums
     end).
Proof.
  cbn [Schemas.extract_enums].
  generalize (match dict_get "enum" fields with
              | Some values => dict_set prefix values enums
              | None => enums
              end).
  induction fields as [| [k v] fields IH]; intros acc; [reflexivity |].
  cbn [fold_left fst snd]. apply IH.
Qed.

Lemma extract_enums_arr items prefix enums :
  Schemas.extract_enums (JArr items) prefix enums =
  fold_left (fun acc item => Schemas.extract_enums item prefix acc) items enums.
Proof.
  cbn [Schemas.extract_enums]. revert enums.
  induction items as [| x items IH]; intros acc; [reflexivity |].
  cbn [fold_left]. apply IH.
Qed.

Lemma dict_has_set {V} (k k' : string) (v : V) (d : dict V) :
  dict_has k (dict_set k' v d) = String.eqb k k' || dict_has k d.
Proof.
  unfold dict_has. rewrite dict_get_set. now destruct (String.eqb k k').
Qed.

(** Keys are never removed. *)
Lemma extract_enums_keeps k obj : forall prefix enums,
  dict_has k enums = true ->
  dict_has k (Schemas.extract_enums obj prefix enums) = true.
Proof.
  induction obj as [| | | | items IH | fields IH] using json_nested_ind;
    intros prefix enums Hk; try exact Hk.
  - rewrite extract_enums_arr. revert enums Hk.
    induction IH as [| x items Hx _ IHitems]; intros enums Hk; [exact Hk |].
    cbn [fold_left]. apply IHitems. now apply Hx.
  - rewrite extract_enums_obj.
    assert (dict_has k
              (match dict_get "enum" fields with
               | Some values => dict_set prefix values enums
               | None => enums
               end) = true) as Hk'.
    { destruct (dict_get "enum" fields); [| exact Hk].
      rewrite dict_has_set, Hk. apply orb_true_r. }
    revert Hk'.
    generalize (match dict_get "enum" fields with
                | Some values => dict_set prefix values enums
                | None => enums
                end).
    generalize prefix.
    clear Hk. induction IH as [| [k0 v0] fs Hx _ IHfs]; intros p acc Hk;
      [exact Hk |].
    cbn [fold_left fst snd]. apply IHfs. now apply Hx.
Qed.

Lemma fold_keeps_items k prefix items : forall enums,
  dict_has k enums = true ->
  dict_has k
    (fold_left (fun acc item => Schemas.extract_enums item prefix acc)
       items enums) = true.
Proof.
  induction items as [| x items IH]; intros enums Hk; [exact Hk |].
  cbn [fold_left]. apply IH. now apply extract_enums_keeps.
Qed.

Lemma fold_keeps_fields k prefix (fields : list (string * json)) :
  forall enums,
  dict_has k enums = true ->
  dict_has k
    (fold_left
       (fun acc kv =>
          Schemas.extract_enums (snd kv) (Schemas.new_prefix prefix (fst kv))
            acc) fields enums) = true.
Proof.
  induction fields as [| x fields IH]; intros enums Hk; [exact Hk |].
  cbn [fold_left]. apply IH. now apply extract_enums_keeps.
Qed.

(** Every dict with an [enum] entry gets its key. *)
Lemma extract_enums_complete root path obj :
  reaches root path obj ->
  forall d prefix enums,
    obj = JObj d -> dict_has "enum" d = true ->
    dict_has (dotted prefix path) (Schemas.extract_enums root prefix enums)
    = true.
Proof.
  induction 1 as [obj | fields key value path obj Hin _ IH
                 | items item path obj Hin _ IH];
    intros d prefix enums -> Henum.
  - unfold dotted. cbn [fold_left]. rewrite extract_enums_obj.
    apply fold_keeps_fields. unfold dict_has in Henum.
    destruct (dict_get "enum" d); [| discriminate Henum].
    rewrite dict_has_set, String.eqb_refl. reflexivity.
  - rewrite extract_enums_obj. unfold dotted. cbn [fold_left].
    generalize (match dict_get "enum" fields with
                | Some values => dict_set prefix values enums
                | None => enums
                end).
    induction fields as [| kv fields IHf]; [destruct Hin |].
    intros acc. cbn [fold_left]. destruct Hin as [-> | Hin].
    + apply fold_keeps_fields. cbn [fst snd].
      now apply (IH d _ _ eq_refl).
    + now apply IHf.
  - rewrite extract_enums_arr. revert enums.
    induction items as [| x items IHi]; [destruct Hin |].
    intros acc. cbn [fold_left]. destruct Hin as [-> | Hin].
    + apply fold_keeps_items. now apply (IH d _ _ eq_refl).
    + now apply IHi.
Qed.

(** Every entry is the [enum] entry of a dict, under the key of a path
    to it. *)
Lemma extract_enums_sound k v obj : forall prefix enums,
  dict_get k (Schemas.extract_enums obj prefix enums) = Some v ->
  dict_get k enums = Some v \/
  exists path d,
    reaches obj path (JObj d) /\ dict_get "enum" d = Some v /\
    dotted prefix path = k.
Proof.
  induction obj as [| | | | items IH | fields IH] using json_nested_ind;
    intros prefix enums Hk; try (left; exact Hk).
  - rewrite extract_enums_arr in Hk.
    assert (forall enums,
              dict_get k
                (fold_left
                   (fun acc item => Schemas.extract_enums item prefix acc)
                   items enums) = Some v ->
              dict_get k enums = Some v \/
              exists item path d,
                In item items /\ reaches item path (JObj d) /\
                dict_get "enum" d = Some v /\ dotted prefix path = k) as Hloop.
    { clear Hk enums. induction IH as [| x items Hx _ IHitems];
        intros enums Hk; [left; exact Hk |].
      cbn [fold_left] in Hk.
      destruct (IHitems _ Hk) as [Hacc | (item & path & d & Hin & Hr)].
      - destruct (Hx _ _ Hacc) as [Hold | (path & d & Hr)]; [now left |].
        right. exists x, path, d. split; [now left | exact Hr].
      - right. exists item, path, d. split; [now right | exact Hr]. }
    destruct (Hloop _ Hk) as [Hold | (item & path & d & Hin & Hr & He & Hd)];
      [now left |].
    right. exists path, d. split; [| now split].
    eapply reaches_item; eassumption.
  - rewrite extract_enums_obj in Hk.
    assert (forall enums,
              dict_get k
                (fold_left
                   (fun acc kv =>
                      Schemas.extract_enums (snd kv)
                        (Schemas.new_prefix prefix (fst kv)) acc)
                   fields enums) = Some v ->
              dict_get k enums = Some v \/
              exists key value path d,
                In (key, value) fields /\ reaches value path (JObj d) /\
                dict_get "enum" d = Some v /\
                dotted (Schemas.new_prefix prefix key) path = k) as Hloop.
    { clear Hk enums. induction IH as [| [k0 v0] fs Hx _ IHfs];
        intros enums Hk; [left; exact Hk |].
      cbn [fold_left fst snd] in Hk.
      destruct (IHfs _ Hk) as [Hacc | (key & value & path & d & Hin & Hr)].
      - cbn [snd] in Hx.
        destruct (Hx _ _ Hacc) as [Hold | (path & d & Hr)]; [now left |].
        right. exists k0, v0, path, d. split; [now left | exact Hr].
      - right. exists key, value, path, d. split; [now right | exact Hr]. }
    destruct (Hloop _ Hk)
      as [Hold | (key & value & path & d & Hin & Hr & He & Hd)].
    + destruct (dict_get "enum" fields) as [values |] eqn:Henum;
        [| now left].
      rewrite dict_get_set in Hold.
      destruct (String.eqb k prefix) eqn:E; [| now left].
      apply String.eqb_eq in E. subst k. injection Hold as ->.
      right. exists [], fields. split; [constructor |]. now split.
    + right. exists (key :: path), d. split; [| now split].
      eapply reaches_key; eassumption.
Qed.

(** X18. [get_field_enums] raises when the schema file holds anything but
    an object; otherwise its keys are exactly the dotted paths (keys
    joined by ".", lists adding no segment) from the schema's
    [properties] to the dicts with an [enum] entry, and each key is mapped
    to the [enum] entry of a dict at such a path.  So there are none when
    no dict has one. *)
Theorem field_enums_are_nested_enums (schema : json) :
  match schema with
  | JObj fields =>
      exists enums,
        Schemas.get_field_enums schema = Return enums /\
        let properties :=
          match dict_get "properties" fields with
          | Some properties => properties
          | None => JObj []
          end in
        (forall k v,
           dict_get k enums = Some v ->
           exists path d,
             reaches properties path (JObj d) /\
             dict_get "enum" d = Some v /\ dotted "" path = k) /\
        (forall path d,
           reaches properties path (JObj d) -> dict_has "enum" d = true ->
           dict_has (dotted "" path) enums = true)
  | _ => Schemas.get_field_enums schema = Raise AttributeError
  end.
Proof.
  destruct schema as [| | | | | fields]; try reflexivity.
  eexists. split; [reflexivity |]. cbn zeta. split.
  - intros k v Hk.
    destruct (extract_enums_sound _ _ _ _ _ Hk) as [Hold | H];
      [discriminate Hold | exact H].
  - intros path d Hr He. eapply extract_enums_complete; eauto.
Qed.

(** ** Suggestions for a converted prompt *)

Lemma has_topic prompt :
  dict_has "topic" (ISTVONMapper._extract_variables prompt) =
  match Re.search true (ISTVONMapper.clause_after "about") prompt with
  | Some _ => true
  | None => (3 <? List.length (Py.split prompt))%nat
  end.
Proof.
  unfold ISTVONMapper._extract_variables.
  destruct (Re.search true (ISTVONMapper.clause_after "about") prompt);
    [| destruct (3 <? List.length (Py.split prompt))%nat];
    destruct (ISTVONMapper.first_keyword _ _);
    destruct (Re.search false _ _);
    destruct (Re.search true (ISTVONMapper.clause_after "for") prompt);
    reflexivity.
Qed.

Lemma has_audience prompt :
  dict_has "target_audience" (ISTVONMapper._extract_variables prompt) =
  match Re.search true (ISTVONMapper.clause_after "for") prompt with
  | Some _ => true
  | None => false
  end.
Proof.
  unfold ISTVONMapper._extract_variables.
  destruct (Re.search true (ISTVONMapper.clause_after "about") prompt);
    [| destruct (3 <? List.length (Py.split prompt))%nat];
    destruct (ISTVONMapper.first_keyword _ _);
    destruct (Re.search false _ _);
    destruct (Re.search true (ISTVONMapper.clause_after "for") prompt);
    reflexivity.
Qed.

Lemma sources_truthy prompt :
  truthy (JArr (ISTVONMapper._extract_source_data prompt)) = true.
Proof.
  unfold ISTVONMapper._extract_source_data.
  destruct (Py.any_in _ prompt); [reflexivity |].
  destruct (Py.any_in _ prompt); reflexivity.
Qed.

(** X19. What the review page computes for a converted prompt:
    [get_validation_suggestions] returns on every Mapper output, never
    advises to specify data sources, and gives no advisory about the
    variables exactly when the prompt yielded a topic (an "about" clause
    or more than three words) and an audience (a "for" clause). *)
Theorem mapper_output_suggestions (order : set_order) (prompt : string) :
  exists suggestions,
    Validator.get_validation_suggestions
      (ISTVONMapper.convert_to_istvon order prompt) = Return suggestions /\
    dict_get "source_data" suggestions = None /\
    (dict_get "variables" suggestions = None <->
     (Re.search true (ISTVONMapper.clause_after "about") prompt <> None \/
      (3 < List.length (Py.split prompt))%nat) /\
     Re.search true (ISTVONMapper.clause_after "for") prompt <> None) /\
    (dict_get "instructions" suggestions = None <->
     prompt = "" \/
     ((5 <= List.length (Py.split (ISTVONMapper._extract_instructions prompt)))%nat /\
      Py.any_in ["create"; "write"; "analyze"; "generate"]
        (Py.lower (ISTVONMapper._extract_instructions prompt)) = true)).
Proof.
  unfold Validator.get_validation_suggestions.
  unfold ISTVONMapper.convert_to_istvon.
  cbn [dict_get String.eqb Ascii.eqb Bool.eqb].
  rewrite sources_truthy. cbn [negb Validator.not_in].
  rewrite has_topic, has_audience, truthy_text.
  rewrite instructions_empty.
  set (text := ISTVONMapper._extract_instructions prompt).
  set (about := Re.search true (ISTVONMapper.clause_after "about") prompt).
  set (for_ := Re.search true (ISTVONMapper.clause_after "for") prompt).
  set (words := List.length (Py.split prompt)).
  set (verb := Py.any_in ["create"; "write"; "analyze"; "generate"]
                 (Py.lower text)).
  destruct (String.eqb_spec prompt "") as [Hp | Hp]; cbn [negb].
  - eexists. split; [reflexivity |].
    destruct about; destruct for_;
      destruct (3 <? words)%nat eqn:E3;
      first [apply Nat.ltb_lt in E3 | apply Nat.ltb_ge in E3];
      cbn [app dict_set dict_get String.eqb Ascii.eqb Bool.eqb];
      (split; [reflexivity |]);
      (split; [split; [try discriminate; intros _ | intros Hc] | tauto]);
      try (split; [first [left; discriminate | right; lia] | discriminate]);
      try (destruct Hc as [[Hc | Hc] Hc']; first [congruence | lia]);
      try reflexivity.
  - eexists. split; [reflexivity |].
    destruct (List.length (Py.split text) <? 5)%nat eqn:E5;
      first [apply Nat.ltb_lt in E5 | apply Nat.ltb_ge in E5];
      destruct verb; cbn [negb app];
      destruct about; destruct for_;
      destruct (3 <? words)%nat eqn:E3;
      first [apply Nat.ltb_lt in E3 | apply Nat.ltb_ge in E3];
      cbn [app dict_set dict_get String.eqb Ascii.eqb Bool.eqb];
      (split; [reflexivity |]);
      (split; [split; [try discriminate; intros _ | intros Hc]
              | split; [try discriminate; intros _ | intros Hi] ]);
      try (split; [first [left; discriminate | right; lia] | discriminate]);
      try (destruct Hc as [[Hc | Hc] Hc']; first [congruence | lia]);
      try (right; split; [lia | reflexivity]);
      try (destruct Hi as [Hi | [Hi Hi']]; first [congruence | lia]);
      try reflexivity.
Qed.
